(** * OCLC reclamation: records buffers and the WorldCat search driver

    A shallow embedding of [libraries/records_buffer.py], of the row loop
    of [search_worldcat.py] and of [libraries/xml.py], with the properties
    of the request/token lifecycle, of the three buffers and of the driver
    stated over it.

    Python objects are mutable and every call may raise: a method is a
    function from the state it can touch to a result (a value or the raised
    exception) and the state it leaves behind.  What is done before an
    exception is raised stays done. *)

From Stdlib Require Import ZArith QArith String Ascii List Bool Lia.
From stdpp Require Import base option list strings gmap pretty.

Close Scope Q_scope.
Open Scope Z_scope.
Open Scope string_scope.

(** ** Exceptions and results *)

(** The exception classes that the two modules raise, catch or let through.
    [HTTPError] carries the status code of its response when it has one;
    every exception carries the text that [str] gives for it. *)
Inductive exn : Type :=
| AssertionError (msg : string)
| HTTPError (status_code : option Z) (msg : string)
| JSONDecodeError (msg : string)
| TokenExpiredError (msg : string)
| KeyError (key : string)
| IndexError (msg : string)
| ValueError (msg : string)
| PyException (msg : string).

(** [str(e)]; a [KeyError] prints the [repr] of its key. *)
Definition exn_str (e : exn) : string :=
  match e with
  | AssertionError m | HTTPError _ m | JSONDecodeError m
  | TokenExpiredError m | IndexError m | ValueError m | PyException m => m
  | KeyError k => "'" +:+ k +:+ "'"
  end.

Inductive result (A : Type) : Type :=
| Ok (a : A)
| Raise (e : exn).
Arguments Ok {A} a.
Arguments Raise {A} e.

Definition is_ok {A} (r : result A) : bool :=
  match r with Ok _ => true | Raise _ => false end.

(** State and exceptions: the state is returned in both cases. *)
Definition M (S A : Type) : Type := S -> result A * S.

Definition ret {S A} (a : A) : M S A := fun s => (Ok a, s).

Definition raise {S A} (e : exn) : M S A := fun s => (Raise e, s).

Definition bind {S A B} (m : M S A) (k : A -> M S B) : M S B :=
  fun s => match m s with
           | (Ok a, s') => k a s'
           | (Raise e, s') => (Raise e, s')
           end.

Notation "x <- c ;; k" := (bind c (fun x => k))
  (at level 100, c at next level, right associativity).
Notation "c ;;; k" := (bind c (fun _ => k))
  (at level 100, right associativity).

Definition gets {S A} (f : S -> A) : M S A := fun s => (Ok (f s), s).

Definition modify {S} (f : S -> S) : M S unit := fun s => (Ok tt, f s).

(** [assert cond, msg] *)
Definition py_assert {S} (cond : bool) (msg : string) : M S unit :=
  if cond then ret tt else raise (AssertionError msg).

(** Running a method of a component on the part of the state it owns. *)
Definition zoom {S T A} (get : S -> T) (set : T -> S -> S) (m : M T A) : M S A :=
  fun s => let '(r, t) := m (get s) in (r, set t s).

(** [try: m  except <classes>: handler]: an exception of [m] that one of the
    classes matches is passed to the handler, any other goes on. *)
Definition try_except {S A} (m : M S A) (classes : exn -> bool) (handler : exn -> M S A)
  : M S A :=
  fun s => match m s with
           | (Raise e, s') => if classes e then handler e s' else (Raise e, s')
           | r => r
           end.

Definition is_JSONDecodeError (e : exn) : bool :=
  match e with JSONDecodeError _ => true | _ => false end.

(** [try: x = m; k(x)  except <classes>: handler], where the handler reads
    the local variable [x]: it finds [x] bound when the exception came from
    [k], and not assigned by the statement when the exception came from
    [m]. *)
Definition try_except_binding {S A B} (m : M S A) (k : A -> M S B) (classes : exn -> bool)
  (handler : option A -> exn -> M S B) : M S B :=
  fun s => match m s with
           | (Ok a, s') => try_except (k a) classes (handler (Some a)) s'
           | (Raise e, s') => if classes e then handler None e s' else (Raise e, s')
           end.

(** [for x in xs: body(x)]: the first exception ends the loop. *)
Fixpoint for_each {S A} (xs : list A) (body : A -> M S unit) : M S unit :=
  match xs with
  | [] => ret tt
  | x :: xs' => body x ;;; for_each xs' body
  end.

Definition newline : string := String (ascii_of_nat 10) EmptyString.

(** ** Collaborators outside the two modules *)

Inductive Method : Type := GET | POST | DELETE.

(** A request as the OAuth session sends it: the bound method
    ([oauth_session.get], [.post] or [.delete]), the URL, the headers and
    the access token the session holds when it signs the request. *)
Record Request : Type := {
  req_method : Method;
  req_url : string;
  req_headers : list (string * string);
  req_access_token : string
}.

(** A row of the [entry] list of the check-control-numbers response. *)
Record CheckEntry : Type := {
  ce_requestedOclcNumber : string;
  ce_currentOclcNumber : string;
  ce_found : bool;
  ce_merged : bool
}.

(** A row of the [entry] list of the holdings [datalist] response. *)
Record HoldingEntry : Type := {
  he_requestedOclcNumber : string;
  he_currentOclcNumber : string;
  he_httpStatusCode : string;
  he_errorDetail : string
}.

(** The decoded body, at the schema of the three endpoints: each field has
    the type at which the code uses it (a key, a truth value, a text put in
    a message, a number compared with 0 and 1). *)
Inductive Payload : Type :=
| CheckControlNumbers (entry : list CheckEntry)
| HoldingsDatalist (entry : list HoldingEntry)
| BriefBibs (numberOfRecords : Z) (briefRecords : list string).

(** What [.json()] makes of a body: the decoded value, or the text of the
    [JSONDecodeError] it raises. *)
Inductive Body : Type :=
| Decoded (json_response : Payload)
| Undecodable (msg : string).

(** [requests.models.Response] *)
Record Response : Type := {
  resp_status_code : Z;
  resp_reason : string;
  resp_text : string;
  resp_body : Body
}.

(** The token dictionary that [refresh_token] and [fetch_token] return. *)
Record Token : Type := {
  tok_access_token : string;
  tok_token_type : string;
  tok_expires_at : Q;
  tok_refresh_token : option string;
  tok_refresh_token_expires_at : option string
}.

(** The two grants of the token endpoint, with the token URL they go to. *)
Inductive Grant : Type :=
| RefreshTokenGrant (token_url : string) (refresh_token : string)
| ClientCredentialsGrant (token_url : string).

(** Everything the program does not decide: the network, the token
    endpoint, the clock and three library conversions.  The network and the
    clock are asked with the number of requests the session has sent so
    far, so that a run is a function of the world. *)
Record World : Type := {
  (** outcome of the n-th request: a response, or the exception the
      session raises ([TokenExpiredError] among them) *)
  transport : nat -> Request -> result Response;
  (** outcome of the n-th grant *)
  token_endpoint : nat -> Grant -> result Token;
  (** [time.time()] *)
  time_time : nat -> Q;
  (** [time.strftime('%Y-%m-%dT%H:%M:%SZ', time.gmtime())] *)
  utc_timestamp : nat -> string;
  (** [calendar.timegm(time.strptime(s, '%Y-%m-%d %H:%M:%SZ'))], [None]
      when [strptime] raises [ValueError] *)
  strptime_timegm : string -> option Z;
  (** [str] of a float *)
  str_float : Q -> string
}.

(** ** [RecordsBuffer]: environment, session, transaction id, requests *)

(** The part of the process that [RecordsBuffer] reads and writes:
    [os.environ], the [.env] file behind it, the session's current access
    token, and the requests and grants sent so far (oldest first). *)
Record Session : Type := {
  environ : gmap string string;
  dotenv_file : gmap string string;
  access_token : string;
  sent : list Request;
  grants : list Grant
}.

Definition set_environ (f : gmap string string -> gmap string string) (s : Session) : Session :=
  {| environ := f (environ s); dotenv_file := dotenv_file s;
     access_token := access_token s; sent := sent s; grants := grants s |}.

Definition set_dotenv_file (f : gmap string string -> gmap string string) (s : Session) : Session :=
  {| environ := environ s; dotenv_file := f (dotenv_file s);
     access_token := access_token s; sent := sent s; grants := grants s |}.

Definition set_access_token (t : string) (s : Session) : Session :=
  {| environ := environ s; dotenv_file := dotenv_file s;
     access_token := t; sent := sent s; grants := grants s |}.

Definition log_sent (r : Request) (s : Session) : Session :=
  {| environ := environ s; dotenv_file := dotenv_file s;
     access_token := access_token s; sent := sent s ++ [r]; grants := grants s |}.

Definition log_grant (g : Grant) (s : Session) : Session :=
  {| environ := environ s; dotenv_file := dotenv_file s;
     access_token := access_token s; sent := sent s; grants := grants s ++ [g] |}.

(** [os.environ[k]] *)
Definition os_environ (k : string) : M Session string :=
  fun s => match environ s !! k with
           | Some v => (Ok v, s)
           | None => (Raise (KeyError k), s)
           end.

(** [os.getenv(k, default)] *)
Definition os_getenv (k default : string) (s : Session) : string :=
  match environ s !! k with Some v => v | None => default end.

(** [k in os.environ] *)
Definition in_environ (k : string) (s : Session) : bool :=
  bool_decide (is_Some (environ s !! k)).

(** Modelled from the spec: [libraries.handle_file.set_env_var], which is
    not part of the two modules.  The spec has renewed credentials
    persisted at once to the durable configuration the process was started
    from: the variable is set in [os.environ] and in the [.env] file. *)
Definition set_env_var (k v : string) : M Session unit :=
  modify (fun s => set_dotenv_file (insert k v) (set_environ (insert k v) s)).

(** Modelled from the spec: [libraries.api.log_response_and_raise_for_status],
    which is not part of the two modules.  The spec has every 4xx and 5xx
    status of the response surfaced as a typed HTTP failure; the text is the
    one [requests] gives such a failure. *)
Definition log_response_and_raise_for_status {S} (url : string) (r : Response) : M S unit :=
  let code := resp_status_code r in
  if bool_decide (400 <= code < 500) then
    raise (HTTPError (Some code)
             (pretty code +:+ " Client Error: " +:+ resp_reason r +:+ " for url: " +:+ url))
  else if bool_decide (500 <= code < 600) then
    raise (HTTPError (Some code)
             (pretty code +:+ " Server Error: " +:+ resp_reason r +:+ " for url: " +:+ url))
  else ret tt.

Definition Qgtb (x y : Q) : bool := negb (Qle_bool x y).

Section RecordsBuffer.
Context (W : World).

(** [RecordsBuffer.get_transaction_id] *)
Definition get_transaction_id (s : Session) : string :=
  if in_environ "OCLC_INSTITUTION_SYMBOL" s || in_environ "WORLDCAT_PRINCIPAL_ID" s then
    let transaction_id := os_getenv "OCLC_INSTITUTION_SYMBOL" "" s in
    let transaction_id :=
      if negb (String.eqb transaction_id "") then transaction_id +:+ "_"
      else transaction_id in
    let transaction_id := transaction_id +:+ utc_timestamp W (length (sent s)) in
    if in_environ "WORLDCAT_PRINCIPAL_ID" s then
      transaction_id +:+ "_" +:+ os_getenv "WORLDCAT_PRINCIPAL_ID" "" s
    else transaction_id
  else "".

(** [api_request(api_url, headers=headers)]: the session signs the request
    with the access token it holds and sends it. *)
Definition api_request (m : Method) (api_url : string) (headers : list (string * string))
  : M Session Response :=
  fun s =>
    let r := {| req_method := m; req_url := api_url; req_headers := headers;
                req_access_token := access_token s |} in
    (transport W (length (sent s)) r, log_sent r s).

(** [oauth_session.refresh_token(url, refresh_token=..., auth=...)] and
    [oauth_session.fetch_token(url, auth=...)]: on success the session holds
    the new token. *)
Definition request_grant (g : Grant) : M Session Token :=
  fun s =>
    match token_endpoint W (length (grants s)) g with
    | Ok t => (Ok t, set_access_token (tok_access_token t) (log_grant g s))
    | Raise e => (Raise e, log_grant g s)
    end.

(** [refresh_token_expires_at] of [make_api_request]: 0.0 unless the
    variable is set, then its value read as a UTC time. *)
Definition refresh_token_expires_at : M Session Q :=
  fun s =>
    match environ s !! "WORLDCAT_METADATA_API_REFRESH_TOKEN_EXPIRES_AT" with
    | None => (Ok (inject_Z 0), s)
    | Some v =>
        match strptime_timegm W v with
        | Some t => (Ok (inject_Z t), s)
        | None => (Raise (ValueError ("time data '" +:+ v
                     +:+ "' does not match format '%Y-%m-%d %H:%M:%SZ'")), s)
        end
    end.

(** [token['refresh_token']] and [token['refresh_token_expires_at']] *)
Definition token_item {S} (key : string) (field : option string) : M S string :=
  match field with
  | Some v => ret v
  | None => raise (KeyError key)
  end.

(** The [except TokenExpiredError] branch of [make_api_request], up to the
    replay of the request. *)
Definition renew_access_token : M Session unit :=
  expires_at <- refresh_token_expires_at ;;
  now <- gets (fun s => time_time W (length (sent s))) ;;
  let refresh_token_expires_in := Qminus expires_at now in
  has_refresh_token <- gets (in_environ "WORLDCAT_METADATA_API_REFRESH_TOKEN") ;;
  token <-
    (if has_refresh_token && Qgtb refresh_token_expires_in (inject_Z 25) then
       token_url <- os_environ "OCLC_AUTHORIZATION_SERVER_TOKEN_URL" ;;
       refresh_token <- gets (os_getenv "WORLDCAT_METADATA_API_REFRESH_TOKEN" "") ;;
       request_grant (RefreshTokenGrant token_url refresh_token)
     else
       token_url <- os_environ "OCLC_AUTHORIZATION_SERVER_TOKEN_URL" ;;
       token <- request_grant (ClientCredentialsGrant token_url) ;;
       refresh_token <- token_item "refresh_token" (tok_refresh_token token) ;;
       refresh_token_expiry <-
         token_item "refresh_token_expires_at" (tok_refresh_token_expires_at token) ;;
       set_env_var "WORLDCAT_METADATA_API_REFRESH_TOKEN" refresh_token ;;;
       set_env_var "WORLDCAT_METADATA_API_REFRESH_TOKEN_EXPIRES_AT" refresh_token_expiry ;;;
       ret token) ;;
  set_env_var "WORLDCAT_METADATA_API_ACCESS_TOKEN" (tok_access_token token) ;;;
  set_env_var "WORLDCAT_METADATA_API_ACCESS_TOKEN_TYPE" (tok_token_type token) ;;;
  set_env_var "WORLDCAT_METADATA_API_ACCESS_TOKEN_EXPIRES_AT"
    (str_float W (tok_expires_at token)).

(** The [try] statement of [make_api_request]: the request, and under
    [except TokenExpiredError] the renewal and the request once more. *)
Definition request_renewing_token (m : Method) (api_url : string)
  (headers : list (string * string)) : M Session Response :=
  fun s => match api_request m api_url headers s with
           | (Raise (TokenExpiredError _), s1) =>
               (renew_access_token ;;; api_request m api_url headers) s1
           | other => other
           end.

(** [RecordsBuffer.make_api_request] *)
Definition make_api_request (m : Method) (api_url : string) : M Session Response :=
  fun s =>
    let transaction_id := get_transaction_id s in
    let api_url :=
      if negb (String.eqb transaction_id "") then
        api_url +:+ "&transactionID=" +:+ transaction_id
      else api_url in
    let headers := [("Accept", "application/json")] in
    (response <- request_renewing_token m api_url headers ;;
     log_response_and_raise_for_status api_url response ;;;
     ret response) s.

End RecordsBuffer.

(** ** [RecordsBuffer.__init__] *)

(** What the constructor passes to [HTTPBasicAuth], to
    [BackendApplicationClient] and to [OAuth2Session]. *)
Record OAuth2SessionArgs : Type := {
  auth : string * string;
  client_id : string;
  scope : list string;
  token : Token
}.

Module RecordsBuffer.

Section Constructor.
(** [float(text)] for the texts that denote a number. *)
Context (float : string -> option Q).

Definition py_float {S} (text : string) : M S Q :=
  match float text with
  | Some x => ret x
  | None => raise (ValueError ("could not convert string to float: '" +:+ text +:+ "'"))
  end.

(** [RecordsBuffer.__init__]: the credentials are read from the
    environment, and the session is created with the access token found
    there. *)
Definition __init__ : M Session OAuth2SessionArgs :=
  key <- os_environ "WORLDCAT_METADATA_API_KEY" ;;
  secret <- os_environ "WORLDCAT_METADATA_API_SECRET" ;;
  client_id <- os_environ "WORLDCAT_METADATA_API_KEY" ;;
  access_token <- os_environ "WORLDCAT_METADATA_API_ACCESS_TOKEN" ;;
  expires_at <- (text <- os_environ "WORLDCAT_METADATA_API_ACCESS_TOKEN_EXPIRES_AT" ;;
                 py_float text) ;;
  token_type <- os_environ "WORLDCAT_METADATA_API_ACCESS_TOKEN_TYPE" ;;
  let args :=
    {| auth := (key, secret);
       client_id := client_id;
       scope := ["WorldCatMetadataAPI refresh_token"];
       token := {| tok_access_token := access_token; tok_token_type := token_type;
                   tok_expires_at := expires_at;
                   tok_refresh_token := None; tok_refresh_token_expires_at := None |} |} in
  modify (set_access_token access_token) ;;;
  ret args.

End Constructor.

End RecordsBuffer.

(** ** Python containers of the buffers *)

(** A [dict] with string keys keeps its keys in insertion order. *)
Definition dict (V : Type) : Type := list (string * V).

Definition dict_contains {V} (k : string) (d : dict V) : bool :=
  existsb (fun kv => String.eqb (fst kv) k) d.

Fixpoint dict_get {V} (k : string) (d : dict V) : option V :=
  match d with
  | [] => None
  | (k', v) :: d' => if String.eqb k' k then Some v else dict_get k d'
  end.

(** [d[k] = v]: the value of an existing key is replaced where it stands, a
    new key goes last. *)
Fixpoint dict_setitem {V} (k : string) (v : V) (d : dict V) : dict V :=
  match d with
  | [] => [(k, v)]
  | (k', v') :: d' =>
      if String.eqb k' k then (k', v) :: d' else (k', v') :: dict_setitem k v d'
  end.

Definition dict_keys {V} (d : dict V) : list string := map fst d.

(** [d[k]] *)
Definition dict_getitem {S V} (k : string) (d : dict V) : M S V :=
  match dict_get k d with
  | Some v => ret v
  | None => raise (KeyError k)
  end.

(** A CSV file written through [csv.writer]: the rows written so far.  The
    position [tell()] is 0 exactly as long as no row has been written. *)
Definition CsvFile : Type := list (list string).

(** [if file.tell() == 0: writer.writerow(header)] and then
    [writer.writerow(row)] *)
Definition writerow_with_header (header row : list string) (file : CsvFile) : CsvFile :=
  match file with
  | [] => [header; row]
  | _ => (file ++ [row])%list
  end.

(** [results[key] += 1] on the dictionary of counters of the caller. *)
Definition results_increment (key : string) : M (gmap string Z) unit :=
  fun results =>
    match results !! key with
    | Some n => (Ok tt, <[key := n + 1]> results)
    | None => (Raise (KeyError key), results)
    end.

(** [api_response.json()] *)
Definition response_json {S} (r : Response) : M S Payload :=
  match resp_body r with
  | Decoded j => ret j
  | Undecodable msg => raise (JSONDecodeError msg)
  end.

(** The handler of [JSONDecodeError] in the three [process_records]: it
    logs [api_response.text] and raises the exception again.  When the
    request itself raised, the local variable [api_response] was not
    assigned, and reading it raises [unassigned] instead. *)
Definition log_text_and_reraise {S A} (unassigned : exn) (api_response : option Response)
  (e : exn) : M S A :=
  match api_response with
  | Some _ => raise e
  | None => raise unassigned
  end.

(** [UnboundLocalError], where the variable is first assigned by the
    request (the text is that of Python 3.8 to 3.10), and [AttributeError],
    where it was set to [None] before the request. *)
Definition unbound_api_response : exn :=
  PyException "local variable 'api_response' referenced before assignment".

Definition none_has_no_text : exn :=
  PyException "'NoneType' object has no attribute 'text'".

(** ** [AlmaRecordsBuffer]: the holdings check *)

Module AlmaRecordsBuffer.

Record t : Type := {
  oclc_num_dict : dict string;
  records_with_current_oclc_num : CsvFile;
  records_with_old_oclc_num : CsvFile;
  records_with_errors : CsvFile;
  session : Session
}.

Definition set_oclc_num_dict (f : dict string -> dict string) (b : t) : t :=
  {| oclc_num_dict := f (oclc_num_dict b);
     records_with_current_oclc_num := records_with_current_oclc_num b;
     records_with_old_oclc_num := records_with_old_oclc_num b;
     records_with_errors := records_with_errors b;
     session := session b |}.

Definition set_records_with_current_oclc_num (f : CsvFile -> CsvFile) (b : t) : t :=
  {| oclc_num_dict := oclc_num_dict b;
     records_with_current_oclc_num := f (records_with_current_oclc_num b);
     records_with_old_oclc_num := records_with_old_oclc_num b;
     records_with_errors := records_with_errors b;
     session := session b |}.

Definition set_records_with_old_oclc_num (f : CsvFile -> CsvFile) (b : t) : t :=
  {| oclc_num_dict := oclc_num_dict b;
     records_with_current_oclc_num := records_with_current_oclc_num b;
     records_with_old_oclc_num := f (records_with_old_oclc_num b);
     records_with_errors := records_with_errors b;
     session := session b |}.

Definition set_records_with_errors (f : CsvFile -> CsvFile) (b : t) : t :=
  {| oclc_num_dict := oclc_num_dict b;
     records_with_current_oclc_num := records_with_current_oclc_num b;
     records_with_old_oclc_num := records_with_old_oclc_num b;
     records_with_errors := f (records_with_errors b);
     session := session b |}.

Definition set_session (s : Session) (b : t) : t :=
  {| oclc_num_dict := oclc_num_dict b;
     records_with_current_oclc_num := records_with_current_oclc_num b;
     records_with_old_oclc_num := records_with_old_oclc_num b;
     records_with_errors := records_with_errors b;
     session := s |}.

(** [__len__] *)
Definition len (b : t) : nat := length (oclc_num_dict b).

(** [add(orig_oclc_num, mms_id)] *)
Definition add (orig_oclc_num mms_id : string) : M t unit :=
  d <- gets oclc_num_dict ;;
  py_assert (negb (dict_contains orig_oclc_num d))
    ("OCLC number " +:+ orig_oclc_num
     +:+ " already exists in records buffer with MMS ID "
     +:+ default "" (dict_get orig_oclc_num d)) ;;;
  modify (set_oclc_num_dict (dict_setitem orig_oclc_num mms_id)).

(** [remove_all_records()] *)
Definition remove_all_records : M t unit :=
  modify (set_oclc_num_dict (fun _ => [])).

Definition api_response_error_msg : string :=
  "Problem with Get Current OCLC Number API response".

(** The three destinations of a response entry. *)
Inductive Bucket : Type := Current | Old | Error.

Definition classify (record : CheckEntry) : Bucket :=
  if negb (ce_found record) then Error
  else if negb (ce_merged record) then Current
  else Old.

(** The state of [process_records]: the buffer and the [results] dictionary
    it was called with, which it updates in place. *)
Definition on_self {A} (m : M t A) : M (t * gmap string Z) A :=
  zoom fst (fun b st => (b, snd st)) m.

Definition on_results {A} (m : M (gmap string Z) A) : M (t * gmap string Z) A :=
  zoom snd (fun r st => (fst st, r)) m.

(** The body of the loop over [json_response['entry']]. *)
Definition process_record (record : CheckEntry) : M (t * gmap string Z) unit :=
  let found_requested_oclc_num := ce_found record in
  let is_current_oclc_num := negb (ce_merged record) in
  d <- on_self (gets oclc_num_dict) ;;
  mms_id <- dict_getitem (ce_requestedOclcNumber record) d ;;
  if negb found_requested_oclc_num then
    on_results (results_increment "num_records_with_errors") ;;;
    on_self (modify (set_records_with_errors (writerow_with_header
      ["MMS ID"; "OCLC Number"; "Error"]
      [mms_id; ce_requestedOclcNumber record;
       api_response_error_msg +:+ ": OCLC number not found"])))
  else if is_current_oclc_num then
    on_results (results_increment "num_records_with_current_oclc_num") ;;;
    on_self (modify (set_records_with_current_oclc_num (writerow_with_header
      ["MMS ID"; "Current OCLC Number"]
      [mms_id; ce_currentOclcNumber record])))
  else
    on_results (results_increment "num_records_with_old_oclc_num") ;;;
    on_self (modify (set_records_with_old_oclc_num (writerow_with_header
      ["MMS ID"; "Current OCLC Number"; "Original OCLC Number"]
      [mms_id; ce_currentOclcNumber record; ce_requestedOclcNumber record]))).

(** [json_response['entry']], read as the loop reads its elements: a body
    of another endpoint has no [entry], or entries without [found]. *)
Definition response_entries {S} (j : Payload) : M S (list CheckEntry) :=
  match j with
  | CheckControlNumbers entry => ret entry
  | HoldingsDatalist [] => ret []
  | HoldingsDatalist (_ :: _) => raise (KeyError "found")
  | BriefBibs _ _ => raise (KeyError "entry")
  end.

Section Process.
Context (W : World).

(** [process_records(results)] *)
Definition process_records : M (t * gmap string Z) unit :=
  api_url <- on_self (zoom session set_session (os_environ "WORLDCAT_METADATA_API_URL")) ;;
  d <- on_self (gets oclc_num_dict) ;;
  let url := api_url +:+ "/bib/checkcontrolnumbers" +:+ "?oclcNumbers="
             +:+ String.concat "," (dict_keys d) in
  try_except_binding
    (on_self (zoom session set_session (make_api_request W GET url)))
    (fun api_response =>
       json_response <- response_json api_response ;;
       entry <- response_entries json_response ;;
       for_each entry process_record)
    is_JSONDecodeError
    (log_text_and_reraise unbound_api_response).

End Process.

End AlmaRecordsBuffer.

(** ** [WorldCatRecordsBuffer]: setting and unsetting holdings *)

Module WorldCatRecordsBuffer.

Record t : Type := {
  oclc_num_set : gset string;
  set_or_unset_choice : string;
  cascade : string;
  records_with_no_update_needed : CsvFile;
  records_updated : CsvFile;
  records_with_errors : CsvFile;
  session : Session
}.

Definition set_oclc_num_set (f : gset string -> gset string) (b : t) : t :=
  {| oclc_num_set := f (oclc_num_set b);
     set_or_unset_choice := set_or_unset_choice b;
     cascade := cascade b;
     records_with_no_update_needed := records_with_no_update_needed b;
     records_updated := records_updated b;
     records_with_errors := records_with_errors b;
     session := session b |}.

Definition set_records_with_no_update_needed (f : CsvFile -> CsvFile) (b : t) : t :=
  {| oclc_num_set := oclc_num_set b;
     set_or_unset_choice := set_or_unset_choice b;
     cascade := cascade b;
     records_with_no_update_needed := f (records_with_no_update_needed b);
     records_updated := records_updated b;
     records_with_errors := records_with_errors b;
     session := session b |}.

Definition set_records_updated (f : CsvFile -> CsvFile) (b : t) : t :=
  {| oclc_num_set := oclc_num_set b;
     set_or_unset_choice := set_or_unset_choice b;
     cascade := cascade b;
     records_with_no_update_needed := records_with_no_update_needed b;
     records_updated := f (records_updated b);
     records_with_errors := records_with_errors b;
     session := session b |}.

Definition set_records_with_errors (f : CsvFile -> CsvFile) (b : t) : t :=
  {| oclc_num_set := oclc_num_set b;
     set_or_unset_choice := set_or_unset_choice b;
     cascade := cascade b;
     records_with_no_update_needed := records_with_no_update_needed b;
     records_updated := records_updated b;
     records_with_errors := f (records_with_errors b);
     session := session b |}.

Definition set_session (s : Session) (b : t) : t :=
  {| oclc_num_set := oclc_num_set b;
     set_or_unset_choice := set_or_unset_choice b;
     cascade := cascade b;
     records_with_no_update_needed := records_with_no_update_needed b;
     records_updated := records_updated b;
     records_with_errors := records_with_errors b;
     session := s |}.

(** [__len__] *)
Definition len (b : t) : nat := size (oclc_num_set b).

(** [add(oclc_num)] *)
Definition add (oclc_num : string) : M t unit :=
  members <- gets oclc_num_set ;;
  py_assert (negb (bool_decide (oclc_num ∈ members)))
    ("OCLC number " +:+ oclc_num +:+ " already exists in records buffer") ;;;
  modify (set_oclc_num_set (fun members => {[oclc_num]} ∪ members)).

(** [remove_all_records()] *)
Definition remove_all_records : M t unit :=
  modify (set_oclc_num_set (fun _ => ∅)).

Definition api_name (choice : string) : string :=
  if String.eqb choice "set" then "Set Holding API" else "Unset Holding API".

Definition api_response_error_msg (choice : string) : string :=
  "Problem with " +:+ api_name choice +:+ " response".

(** The three destinations of a response entry. *)
Inductive Bucket : Type := Updated | NoUpdateNeeded | Error.

Definition classify (record : HoldingEntry) : Bucket :=
  if String.eqb (he_httpStatusCode record) "HTTP 200 OK" then Updated
  else if String.eqb (he_httpStatusCode record) "HTTP 409 Conflict" then NoUpdateNeeded
  else Error.

(** [new_oclc_num] of the loop body *)
Definition new_oclc_num (record : HoldingEntry) : string :=
  if String.eqb (he_requestedOclcNumber record) (he_currentOclcNumber record) then ""
  else he_currentOclcNumber record.

(** [oclc_num_msg] of the loop body *)
Definition oclc_num_msg (record : HoldingEntry) : string :=
  if String.eqb (he_requestedOclcNumber record) (he_currentOclcNumber record) then ""
  else "Warning: " +:+ "OCLC number " +:+ he_requestedOclcNumber record
       +:+ " has been updated to " +:+ he_currentOclcNumber record
       +:+ ". Consider updating Alma record.".

Definition on_self {A} (m : M t A) : M (t * gmap string Z) A :=
  zoom fst (fun b st => (b, snd st)) m.

Definition on_results {A} (m : M (gmap string Z) A) : M (t * gmap string Z) A :=
  zoom snd (fun r st => (fst st, r)) m.

(** The row that the loop body writes for an entry, by destination. *)
Definition row_of (choice : string) (record : HoldingEntry) : list string :=
  match classify record with
  | Updated =>
      [he_requestedOclcNumber record; new_oclc_num record; oclc_num_msg record]
  | NoUpdateNeeded =>
      [he_requestedOclcNumber record; new_oclc_num record;
       api_response_error_msg choice +:+ ": " +:+ he_errorDetail record +:+ ". "
       +:+ oclc_num_msg record]
  | Error =>
      [he_requestedOclcNumber record; new_oclc_num record;
       api_response_error_msg choice +:+ ": " +:+ he_httpStatusCode record
       +:+ ": " +:+ he_errorDetail record +:+ ". " +:+ oclc_num_msg record]
  end.

(** The body of the loop over [json_response['entry']]. *)
Definition process_record (record : HoldingEntry) : M (t * gmap string Z) unit :=
  choice <- on_self (gets set_or_unset_choice) ;;
  if String.eqb (he_httpStatusCode record) "HTTP 200 OK" then
    on_results (results_increment "num_records_updated") ;;;
    on_self (modify (set_records_updated (writerow_with_header
      ["Requested OCLC Number"; "New OCLC Number (if applicable)"; "Warning"]
      [he_requestedOclcNumber record; new_oclc_num record; oclc_num_msg record])))
  else if String.eqb (he_httpStatusCode record) "HTTP 409 Conflict" then
    on_results (results_increment "num_records_with_no_update_needed") ;;;
    on_self (modify (set_records_with_no_update_needed (writerow_with_header
      ["Requested OCLC Number"; "New OCLC Number (if applicable)"; "Error"]
      [he_requestedOclcNumber record; new_oclc_num record;
       api_response_error_msg choice +:+ ": " +:+ he_errorDetail record +:+ ". "
       +:+ oclc_num_msg record])))
  else
    on_results (results_increment "num_records_with_errors") ;;;
    on_self (modify (set_records_with_errors (writerow_with_header
      ["Requested OCLC Number"; "New OCLC Number (if applicable)"; "Error"]
      [he_requestedOclcNumber record; new_oclc_num record;
       api_response_error_msg choice +:+ ": " +:+ he_httpStatusCode record
       +:+ ": " +:+ he_errorDetail record +:+ ". " +:+ oclc_num_msg record]))).

(** [json_response['entry']], read as the loop reads its elements. *)
Definition response_entries {S} (j : Payload) : M S (list HoldingEntry) :=
  match j with
  | HoldingsDatalist entry => ret entry
  | CheckControlNumbers [] => ret []
  | CheckControlNumbers (_ :: _) => raise (KeyError "httpStatusCode")
  | BriefBibs _ _ => raise (KeyError "entry")
  end.

Section Process.
Context (W : World).

(** [process_records(results)].  The numbers are joined in the order in
    which the set is iterated, here that of [elements]; Python fixes none,
    and no property proved of a request depends on which it is. *)
Definition process_records : M (t * gmap string Z) unit :=
  choice <- on_self (gets set_or_unset_choice) ;;
  api_url <- on_self (zoom session set_session (os_environ "WORLDCAT_METADATA_API_URL")) ;;
  members <- on_self (gets oclc_num_set) ;;
  let url := api_url +:+ "/ih/datalist?oclcNumbers="
             +:+ String.concat "," (elements members) in
  try_except_binding
    (if String.eqb choice "set" then
       on_self (zoom session set_session (make_api_request W POST url))
     else
       cascade <- on_self (gets cascade) ;;
       let url := url +:+ "&cascade=" +:+ cascade in
       on_self (zoom session set_session (make_api_request W DELETE url)))
    (fun api_response =>
       json_response <- response_json api_response ;;
       entry <- response_entries json_response ;;
       for_each entry process_record)
    is_JSONDecodeError
    (log_text_and_reraise none_has_no_text).

End Process.

End WorldCatRecordsBuffer.

(** ** [WorldCatSearchBuffer]: the search for an OCLC number *)

(** A row of the input file as [itertuples] hands it to the loop: its index
    label and the identifier columns, all read as text. *)
Record Record_from_input_file : Type := {
  Index : nat;
  mms_id : string;
  lccn_fixed : string;
  lccn : string;
  isbn : string;
  issn : string;
  gov_doc_class_num_086 : string;
  gpo_item_num_074 : string
}.

(** A row of the DataFrame: the input columns and the result columns, where
    [None] is the missing value [NaN].  The column
    [found_multiple_oclc_nums] comes into being when the buffer first
    assigns to it. *)
Record DataFrameRow : Type := {
  df_input : Record_from_input_file;
  oclc_num : option string;
  num_records_held_by_symbol : option string;
  num_records_total : option string;
  error : option string;
  found_multiple_oclc_nums : option bool
}.

Definition set_oclc_num (v : string) (r : DataFrameRow) : DataFrameRow :=
  {| df_input := df_input r; oclc_num := Some v;
     num_records_held_by_symbol := num_records_held_by_symbol r;
     num_records_total := num_records_total r; error := error r;
     found_multiple_oclc_nums := found_multiple_oclc_nums r |}.

Definition set_found_multiple_oclc_nums (v : bool) (r : DataFrameRow) : DataFrameRow :=
  {| df_input := df_input r; oclc_num := oclc_num r;
     num_records_held_by_symbol := num_records_held_by_symbol r;
     num_records_total := num_records_total r; error := error r;
     found_multiple_oclc_nums := Some v |}.

Definition set_error (v : string) (r : DataFrameRow) : DataFrameRow :=
  {| df_input := df_input r; oclc_num := oclc_num r;
     num_records_held_by_symbol := num_records_held_by_symbol r;
     num_records_total := num_records_total r; error := Some v;
     found_multiple_oclc_nums := found_multiple_oclc_nums r |}.

(** [data.loc[index, column] = value]: the index labels of the DataFrame
    read from the input file are the positions 0, 1, 2, ... *)
Definition loc_set (index : nat) (f : DataFrameRow -> DataFrameRow)
  (data : list DataFrameRow) : list DataFrameRow :=
  alter f index data.

Module WorldCatSearchBuffer.

(** The buffer keeps a reference to the DataFrame of the driver: the two
    see one object, [dataframe_for_input_file]. *)
Record t : Type := {
  record_list : list Record_from_input_file;
  dataframe_for_input_file : list DataFrameRow;
  session : Session
}.

Definition set_record_list
  (f : list Record_from_input_file -> list Record_from_input_file) (b : t) : t :=
  {| record_list := f (record_list b);
     dataframe_for_input_file := dataframe_for_input_file b;
     session := session b |}.

Definition set_dataframe (f : list DataFrameRow -> list DataFrameRow) (b : t) : t :=
  {| record_list := record_list b;
     dataframe_for_input_file := f (dataframe_for_input_file b);
     session := session b |}.

Definition set_session (s : Session) (b : t) : t :=
  {| record_list := record_list b;
     dataframe_for_input_file := dataframe_for_input_file b;
     session := s |}.

(** [__len__] *)
Definition len (b : t) : nat := length (record_list b).

(** [add(record_data)] *)
Definition add (record_data : Record_from_input_file) : M t unit :=
  n <- gets len ;;
  py_assert (Nat.eqb n 0)
    ("Cannot add to a non-empty WorldCatSearchBuffer. Buffer currently contains "
     +:+ pretty n +:+ " record(s).") ;;;
  modify (set_record_list (fun l => l ++ [record_data])%list).

(** [remove_all_records()] *)
Definition remove_all_records : M t unit :=
  modify (set_record_list (fun _ => [])).

(** [self.record_list[0]] *)
Definition first_record : M t Record_from_input_file :=
  l <- gets record_list ;;
  match l with
  | r :: _ => ret r
  | [] => raise (IndexError "list index out of range")
  end.

(** [json_response['numberOfRecords']] *)
Definition response_numberOfRecords {S} (j : Payload) : M S Z :=
  match j with
  | BriefBibs n _ => ret n
  | _ => raise (KeyError "numberOfRecords")
  end.

(** [json_response['briefRecords'][0]['oclcNumber']] *)
Definition response_first_oclcNumber {S} (j : Payload) : M S string :=
  match j with
  | BriefBibs _ (oclcNumber :: _) => ret oclcNumber
  | BriefBibs _ [] => raise (IndexError "list index out of range")
  | _ => raise (KeyError "briefRecords")
  end.

Section Process.
Context (W : World).

(** [process_records(results)]: the body never reads [results], whatever
    the caller passes for it. *)
Definition process_records {R} (results : R) : M t unit :=
  n <- gets len ;;
  py_assert (Nat.eqb n 1)
    ("Buffer must contain exactly one record but instead contains "
     +:+ pretty n +:+ " records. Cannot process buffer.") ;;;
  search_url <- zoom session set_session (os_environ "WORLDCAT_METADATA_API_URL_FOR_SEARCH") ;;
  record <- first_record ;;
  symbol <- zoom session set_session (os_environ "OCLC_INSTITUTION_SYMBOL") ;;
  let url := search_url +:+ "/brief-bibs" +:+ "?q=nl:" +:+ lccn record
             +:+ "&heldBySymbol=" +:+ symbol in
  try_except_binding
    (zoom session set_session (make_api_request W GET url))
    (fun api_response =>
       json_response <- response_json api_response ;;
       numberOfRecords <- response_numberOfRecords json_response ;;
       py_assert (negb (Z.eqb numberOfRecords 0)) "No records found in WorldCat." ;;;
       if Z.eqb numberOfRecords 1 then
         oclc_num <- response_first_oclcNumber json_response ;;
         record <- first_record ;;
         modify (set_dataframe (loc_set (Index record) (set_oclc_num oclc_num)))
       else
         record <- first_record ;;
         modify (set_dataframe (loc_set (Index record) (set_found_multiple_oclc_nums true))))
    is_JSONDecodeError
    (log_text_and_reraise unbound_api_response).

End Process.

End WorldCatSearchBuffer.

(** ** [search_worldcat.main]: the loop over the rows of the input file *)

Module SearchWorldcat.

(** The objects of [main] that the loop reads and writes.  [data] is the
    DataFrame that the buffer was constructed with.  The class the driver
    names, [RecordSearchBuffer], is not defined in the buffers module;
    [WorldCatSearchBuffer] is the class of that module with the interface
    the loop uses ([add], [process_records] with one argument,
    [remove_all_records], [len]); the counters of requests that [main]
    reads for its log messages are a parameter of [main]. *)
Record t : Type := {
  records_already_processed : gset string;
  records_buffer : WorldCatSearchBuffer.t
}.

Definition data (d : t) : list DataFrameRow :=
  WorldCatSearchBuffer.dataframe_for_input_file (records_buffer d).

Definition set_records_already_processed (f : gset string -> gset string) (d : t) : t :=
  {| records_already_processed := f (records_already_processed d);
     records_buffer := records_buffer d |}.

Definition set_records_buffer (b : WorldCatSearchBuffer.t) (d : t) : t :=
  {| records_already_processed := records_already_processed d;
     records_buffer := b |}.

Definition on_buffer {A} (m : M WorldCatSearchBuffer.t A) : M t A :=
  zoom records_buffer set_records_buffer m.

(** The local variables that the handlers set and the [finally] clause
    reads, and the exception that no handler caught, if any. *)
Record Locals : Type := {
  error_occurred : bool;
  consecutive_errors_occurred : bool;
  error_msg : option string;
  uncaught : option exn
}.

(** How one pass through the loop body ends. *)
Inductive Flow : Type :=
| Next
| Break
| Propagate (e : exn).

(** How the loop ends. *)
Inductive LoopEnd : Type :=
| Exhausted
| Halted
| Raised (e : exn).

Section Main.
Context (W : World).
(** [libraries.record.get_valid_record_identifier], which is not part of
    the two modules: the identifier it returns for the text of the cell, or
    the exception it raises. *)
Context (get_valid_record_identifier : string -> string -> result string).
(** [args.search_my_library_holdings_first] *)
Context (search_my_library_holdings_first : bool).

(** [str(http_status_code).startswith('5')] *)
Definition status_starts_with_5 (status_code : option Z) : bool :=
  String.prefix "5" (match status_code with Some c => pretty c | None => "" end).

(** The suite of the [try] statement. *)
Definition try_suite (row : Record_from_input_file) : M t unit :=
  mms_id <- (fun d => (get_valid_record_identifier (mms_id row) "MMS ID", d)) ;;
  processed <- gets records_already_processed ;;
  py_assert (negb (bool_decide (mms_id ∈ processed)))
    ("Record with MMS ID " +:+ mms_id +:+ " has already been processed.") ;;;
  modify (set_records_already_processed (fun processed => {[mms_id]} ∪ processed)) ;;;
  n <- gets (fun d => WorldCatSearchBuffer.len (records_buffer d)) ;;
  py_assert (Nat.eqb n 0)
    ("Records buffer was not properly emptied. It currently contains "
     +:+ pretty n +:+ " record(s).") ;;;
  on_buffer (WorldCatSearchBuffer.add row) ;;;
  on_buffer (WorldCatSearchBuffer.process_records W search_my_library_holdings_first).

Definition no_error : Locals :=
  {| error_occurred := false; consecutive_errors_occurred := false;
     error_msg := None; uncaught := None |}.

Definition error_with (msg : string) : Locals :=
  {| error_occurred := true; consecutive_errors_occurred := false;
     error_msg := Some msg; uncaught := None |}.

(** The [except] clauses, for the exception that the suite raised in the
    state [d1].  An exception raised inside a handler, here by the second
    call of [process_records], is caught by no other clause of the same
    [try] statement. *)
Definition except_clauses (e : exn) (d1 : t) : Locals * t :=
  match e with
  | AssertionError assert_err =>
      (error_with ("Assertion Error: " +:+ assert_err), d1)
  | HTTPError status_code first_http_err =>
      if status_starts_with_5 status_code then
        match on_buffer (WorldCatSearchBuffer.process_records W
                           search_my_library_holdings_first) d1 with
        | (Ok _, d2) => (no_error, d2)
        | (Raise (HTTPError _ second_http_err), d2) =>
            ({| error_occurred := true; consecutive_errors_occurred := true;
                error_msg := Some ("HTTP Error: " +:+ second_http_err);
                uncaught := None |}, d2)
        | (Raise e, d2) =>
            ({| error_occurred := true; consecutive_errors_occurred := false;
                error_msg := Some ("HTTP Error: " +:+ first_http_err);
                uncaught := Some e |}, d2)
        end
      else (error_with ("HTTP Error: " +:+ first_http_err), d1)
  | JSONDecodeError json_decode_err =>
      (error_with ("JSON Decode Error: " +:+ json_decode_err), d1)
  | err => (error_with (exn_str err), d1)
  end.

(** The [try] statement with its [except] clauses: the state after them
    and the locals they leave. *)
Definition try_statement (row : Record_from_input_file) (d : t) : Locals * t :=
  match try_suite row d with
  | (Ok _, d1) => (no_error, d1)
  | (Raise e, d1) => except_clauses e d1
  end.

(** The [finally] clause, and what follows it. *)
Definition finally_clause (row : Record_from_input_file) (l : Locals) (d : t) : Flow * t :=
  let d :=
    if error_occurred l then
      set_records_buffer
        (WorldCatSearchBuffer.set_dataframe
           (loc_set (Index row) (set_error (default "None" (error_msg l))))
           (records_buffer d)) d
    else d in
  if consecutive_errors_occurred l then (Break, d)
  else
    let d := snd (on_buffer WorldCatSearchBuffer.remove_all_records d) in
    match uncaught l with
    | Some e => (Propagate e, d)
    | None => (Next, d)
    end.

(** The body of the [for] loop. *)
Definition loop_body (row : Record_from_input_file) (d : t) : Flow * t :=
  let '(l, d1) := try_statement row d in finally_clause row l d1.

(** [for row in data.itertuples(...)] *)
Fixpoint loop (rows : list Record_from_input_file) (d : t) : LoopEnd * t :=
  match rows with
  | [] => (Exhausted, d)
  | row :: rows' =>
      match loop_body row d with
      | (Next, d') => loop rows' d'
      | (Break, d') => (Halted, d')
      | (Propagate e, d') => (Raised e, d')
      end
  end.

(** The DataFrame read from the input file, with its result columns added
    and empty. *)
Definition with_Index (i : nat) (r : Record_from_input_file) : Record_from_input_file :=
  {| Index := i; mms_id := mms_id r; lccn_fixed := lccn_fixed r; lccn := lccn r;
     isbn := isbn r; issn := issn r;
     gov_doc_class_num_086 := gov_doc_class_num_086 r;
     gpo_item_num_074 := gpo_item_num_074 r |}.

Definition read_input (rows : list Record_from_input_file) : list DataFrameRow :=
  imap (fun i r =>
          {| df_input := with_Index i r; oclc_num := None;
             num_records_held_by_symbol := None; num_records_total := None;
             error := None; found_multiple_oclc_nums := None |}) rows.

(** [data.itertuples(name='Record_from_input_file')] *)
Definition itertuples (data : list DataFrameRow) : list Record_from_input_file :=
  df_input <$> data.

(** The three output files, as the rows [dropna] keeps for each. *)
Definition records_with_oclc_num (data : list DataFrameRow) : list DataFrameRow :=
  filter (fun r => is_Some (oclc_num r)) data.

Definition records_with_zero_or_multiple_worldcat_matches (data : list DataFrameRow)
  : list DataFrameRow :=
  filter (fun r => is_Some (num_records_held_by_symbol r) ∨ is_Some (num_records_total r)) data.

Definition records_with_errors (data : list DataFrameRow) : list DataFrameRow :=
  filter (fun r => is_Some (error r)) data.

Definition total_records_in_output_files (data : list DataFrameRow) : nat :=
  (length (records_with_oclc_num data)
   + length (records_with_zero_or_multiple_worldcat_matches data)
   + length (records_with_errors data))%nat.

(** What a run leaves: the DataFrame, whether the three files were written
    (from the DataFrame as it then was), and how [main] ended. *)
Record Run : Type := {
  run_data : list DataFrameRow;
  run_session : Session;
  output_files_written : bool;
  run_result : result unit
}.

(** The objects of [main] when the loop starts: no identifier met, an empty
    buffer constructed with the DataFrame. *)
Definition initial_state (rows : list Record_from_input_file) (s : Session) : t :=
  {| records_already_processed := ∅;
     records_buffer :=
       {| WorldCatSearchBuffer.record_list := [];
          WorldCatSearchBuffer.dataframe_for_input_file := read_input rows;
          WorldCatSearchBuffer.session := s |} |}.

(** [float(text)] for the texts that denote a number. *)
Context (float : string -> option Q).
(** The attributes [num_api_requests_made],
    [num_records_needing_one_api_request] and
    [num_records_needing_two_api_requests] of the buffer, which [main] reads
    for its log messages once the files are written. The class that [main]
    names, [RecordSearchBuffer], is not in the module; [WorldCatSearchBuffer]
    has none of the three, and on it the first read raises [AttributeError]
    ([no_request_counters] below). *)
Context (request_counters : WorldCatSearchBuffer.t -> result (Z * Z * Z)).

(** [main], from the DataFrame of the input file on: the result columns,
    the buffer, whose constructor reads the credentials, the loop, the
    three files, the log messages and the final assertion. *)
Definition main (rows : list Record_from_input_file) (s : Session) : Run :=
  match os_environ "OCLC_INSTITUTION_SYMBOL" s with
  | (Raise e, s) =>
      {| run_data := read_input rows; run_session := s;
         output_files_written := false; run_result := Raise e |}
  | (Ok _, s) =>
      match RecordsBuffer.__init__ float s with
      | (Raise e, s) =>
          {| run_data := read_input rows; run_session := s;
             output_files_written := false; run_result := Raise e |}
      | (Ok _, s) =>
          let d0 := initial_state rows s in
          match loop (itertuples (data d0)) d0 with
          | (Raised e, d) =>
              {| run_data := data d;
                 run_session := WorldCatSearchBuffer.session (records_buffer d);
                 output_files_written := false; run_result := Raise e |}
          | (_, d) =>
              {| run_data := data d;
                 run_session := WorldCatSearchBuffer.session (records_buffer d);
                 output_files_written := true;
                 run_result :=
                   match request_counters (records_buffer d) with
                   | Raise e => Raise e
                   | Ok _ =>
                       fst (py_assert
                              (Nat.eqb (length (data d))
                                 (total_records_in_output_files (data d)))
                              ("Total records in input file ("
                               +:+ pretty (length (data d))
                               +:+ ") do not equal total records in output files ("
                               +:+ pretty (total_records_in_output_files (data d))
                               +:+ ")." +:+ newline)
                              tt)
                   end |}
          end
      end
  end.

End Main.

(** The three attributes on a [WorldCatSearchBuffer]: it has none, and the
    first that [main] reads is [num_api_requests_made]. *)
Definition no_request_counters (records_buffer : WorldCatSearchBuffer.t)
  : result (Z * Z * Z) :=
  Raise (PyException
           "'WorldCatSearchBuffer' object has no attribute 'num_api_requests_made'").

End SearchWorldcat.

(** ** [libraries.xml] *)

(** [PyException] stands for the classes that the modules name nowhere, here
    the [AttributeError] of an attribute looked up on [None]. *)
Module Xml.

(** [prettify]: the body defines a function that it does not call, and
    returns nothing. *)
Definition prettify (xml_str : string) : option (list Byte.byte) := None.

Section Logging.
(** [bytes.decode("UTF-8")] *)
Context (decode : list Byte.byte -> result string).

(** [log_xml_string]: the state is the list of the messages passed to
    [logging_func]. *)
Definition log_xml_string (xml_as_bytes_obj : option (list Byte.byte)) (heading : string)
  : M (list string) unit :=
  match xml_as_bytes_obj with
  | None => raise (PyException "'NoneType' object has no attribute 'decode'")
  | Some b =>
      text <- (fun log => (decode b, log)) ;;
      modify (fun log => log ++ [heading +:+ ":" +:+ newline +:+ text])%list
  end.

(** [prettify_and_log_xml] *)
Definition prettify_and_log_xml (xml_str heading : string)
  : M (list string) (option (list Byte.byte)) :=
  let xml_as_pretty_printed_bytes_obj := prettify xml_str in
  log_xml_string xml_as_pretty_printed_bytes_obj heading ;;;
  ret xml_as_pretty_printed_bytes_obj.

End Logging.

End Xml.

(** * Properties *)

(** ** Reasoning about methods *)

Lemma bind_ok {S A B} (m : M S A) (k : A -> M S B) s a s' :
  m s = (Ok a, s') -> bind m k s = k a s'.
Proof. intros H. unfold bind. now rewrite H. Qed.

Lemma bind_raise {S A B} (m : M S A) (k : A -> M S B) s e s' :
  m s = (Raise e, s') -> bind m k s = (Raise e, s').
Proof. intros H. unfold bind. now rewrite H. Qed.

(** A [try] statement whose handler logs the text of the response and
    raises again: once the request has returned, the statement is its
    continuation; when the request raised, a caught exception is replaced by
    that of the unassigned variable. *)
Lemma try_except_binding_ok {S B} (m : M S Response) (k : Response -> M S B) classes
  unassigned s a s' :
  m s = (Ok a, s') ->
  try_except_binding m k classes (log_text_and_reraise unassigned) s = k a s'.
Proof.
  intros H. unfold try_except_binding, try_except, log_text_and_reraise. rewrite H.
  destruct (k a s') as [[b|e] s2]; [reflexivity|]. now destruct (classes e).
Qed.

Lemma try_except_binding_raise {S B} (m : M S Response) (k : Response -> M S B) classes
  unassigned s e s' :
  m s = (Raise e, s') ->
  try_except_binding m k classes (log_text_and_reraise unassigned) s
  = (Raise (if classes e then unassigned else e), s').
Proof.
  intros H. unfold try_except_binding, log_text_and_reraise. rewrite H.
  now destruct (classes e).
Qed.

Lemma dict_contains_keys {V} (k : string) (d : dict V) :
  dict_contains k d = true <-> k ∈ dict_keys d.
Proof.
  induction d as [|[k' v] d IH]; simpl.
  - split; [discriminate | intros H; inversion H].
  - rewrite orb_true_iff, IH, String.eqb_eq, elem_of_cons. intuition congruence.
Qed.

Lemma dict_get_contains {V} (k : string) (d : dict V) :
  dict_contains k d = true <-> is_Some (dict_get k d).
Proof.
  induction d as [|[k' v] d IH]; simpl.
  - split; [discriminate | intros [x Hx]; discriminate].
  - destruct (String.eqb k' k); simpl; [|exact IH].
    split; eauto.
Qed.

(** ** The precondition of [add] *)

Lemma alma_add_cases (b : AlmaRecordsBuffer.t) orig_oclc_num mms_id :
  (orig_oclc_num ∈ dict_keys (AlmaRecordsBuffer.oclc_num_dict b)
   /\ (exists msg, AlmaRecordsBuffer.add orig_oclc_num mms_id b
                    = (Raise (AssertionError msg), b)))
  \/ ((orig_oclc_num ∉ dict_keys (AlmaRecordsBuffer.oclc_num_dict b))
      /\ AlmaRecordsBuffer.add orig_oclc_num mms_id b
         = (Ok tt, AlmaRecordsBuffer.set_oclc_num_dict (dict_setitem orig_oclc_num mms_id) b)).
Proof.
  unfold AlmaRecordsBuffer.add, bind, gets, py_assert, raise, ret, modify.
  rewrite <- dict_contains_keys.
  destruct (dict_contains _ _); simpl; [left | right]; split; eauto; congruence.
Qed.

Lemma worldcat_add_cases (b : WorldCatRecordsBuffer.t) oclc_num :
  (oclc_num ∈ WorldCatRecordsBuffer.oclc_num_set b
   /\ (exists msg, WorldCatRecordsBuffer.add oclc_num b = (Raise (AssertionError msg), b)))
  \/ ((oclc_num ∉ WorldCatRecordsBuffer.oclc_num_set b)
      /\ WorldCatRecordsBuffer.add oclc_num b
         = (Ok tt, WorldCatRecordsBuffer.set_oclc_num_set
                     (fun members => {[oclc_num]} ∪ members) b)).
Proof.
  unfold WorldCatRecordsBuffer.add, bind, gets, py_assert, raise, ret, modify.
  destruct (bool_decide_reflect (oclc_num ∈ WorldCatRecordsBuffer.oclc_num_set b));
    simpl; [left | right]; split; eauto.
Qed.

Lemma search_add_cases (b : WorldCatSearchBuffer.t) record_data :
  (WorldCatSearchBuffer.record_list b <> []
   /\ (exists msg, WorldCatSearchBuffer.add record_data b = (Raise (AssertionError msg), b)))
  \/ (WorldCatSearchBuffer.record_list b = []
      /\ WorldCatSearchBuffer.add record_data b
         = (Ok tt, WorldCatSearchBuffer.set_record_list
                     (fun l => l ++ [record_data])%list b)).
Proof.
  unfold WorldCatSearchBuffer.add, WorldCatSearchBuffer.len, bind, gets, py_assert,
    raise, ret, modify.
  destruct (WorldCatSearchBuffer.record_list b); simpl; [right | left]; split; eauto;
    congruence.
Qed.

(** C6. In each of the three buffers [add] raises exactly when its
    precondition fails: the key is already in the dictionary (holdings
    check), the member is already in the set (set/unset), the list is not
    empty (search).  What it raises is an [AssertionError], and it then
    leaves the buffer as it was; in the search buffer an [add] that follows
    a successful [add] always raises. *)
Theorem C6_add_precondition :
  (forall (b : AlmaRecordsBuffer.t) orig_oclc_num mms_id,
      let r := AlmaRecordsBuffer.add orig_oclc_num mms_id b in
      (is_ok (fst r) = false <->
         orig_oclc_num ∈ dict_keys (AlmaRecordsBuffer.oclc_num_dict b))
      /\ (forall e, fst r = Raise e -> (exists msg, e = AssertionError msg) /\ snd r = b))
  /\ (forall (b : WorldCatRecordsBuffer.t) oclc_num,
      let r := WorldCatRecordsBuffer.add oclc_num b in
      (is_ok (fst r) = false <-> oclc_num ∈ WorldCatRecordsBuffer.oclc_num_set b)
      /\ (forall e, fst r = Raise e -> (exists msg, e = AssertionError msg) /\ snd r = b))
  /\ (forall (b : WorldCatSearchBuffer.t) record_data,
      let r := WorldCatSearchBuffer.add record_data b in
      (is_ok (fst r) = false <-> WorldCatSearchBuffer.record_list b <> [])
      /\ (forall e, fst r = Raise e -> (exists msg, e = AssertionError msg) /\ snd r = b))
  /\ (forall (b : WorldCatSearchBuffer.t) first second,
      let b' := snd (WorldCatSearchBuffer.add first b) in
      is_ok (fst (WorldCatSearchBuffer.add first b)) = true ->
      exists msg, WorldCatSearchBuffer.add second b' = (Raise (AssertionError msg), b')).
Proof.
  split; [|split; [|split]].
  - intros b k v r. subst r.
    destruct (alma_add_cases b k v) as [[Hin [msg ->]]|[Hnin ->]]; simpl.
    + split; [tauto|]. intros e [= <-]. eauto.
    + split; [split; [discriminate | tauto] | discriminate].
  - intros b k r. subst r.
    destruct (worldcat_add_cases b k) as [[Hin [msg ->]]|[Hnin ->]]; simpl.
    + split; [tauto|]. intros e [= <-]. eauto.
    + split; [split; [discriminate | tauto] | discriminate].
  - intros b x r. subst r.
    destruct (search_add_cases b x) as [[Hne [msg ->]]|[Hnil ->]]; simpl.
    + split; [tauto|]. intros e [= <-]. eauto.
    + split; [split; [discriminate | tauto] | discriminate].
  - intros b x y b'. subst b'.
    destruct (search_add_cases b x) as [[Hne [msg ->]]|[Hnil ->]]; simpl;
      [discriminate|].
    intros _.
    destruct (search_add_cases
                (WorldCatSearchBuffer.set_record_list (fun l => l ++ [x])%list b) y)
      as [[_ Hr]|[Hnil' _]]; [exact Hr|].
    simpl in Hnil'. rewrite Hnil in Hnil'. discriminate.
Qed.

(** ** What a method leaves unchanged *)

(** [preserves f m]: whatever [m] does and however it ends, the observation
    [f] of the state is the same after as before. *)
Definition preserves {S A X} (f : S -> X) (m : M S A) : Prop :=
  forall s, f (snd (m s)) = f s.

Create HintDb preserves.

Lemma preserves_ret {S A X} (f : S -> X) (a : A) : preserves f (ret a).
Proof. intros s. reflexivity. Qed.

Lemma preserves_raise {S A X} (f : S -> X) e : preserves f (raise (A := A) e).
Proof. intros s. reflexivity. Qed.

Lemma preserves_gets {S A X} (f : S -> X) (g : S -> A) : preserves f (gets g).
Proof. intros s. reflexivity. Qed.

Lemma preserves_bind {S A B X} (f : S -> X) (m : M S A) (k : A -> M S B) :
  preserves f m -> (forall a, preserves f (k a)) -> preserves f (bind m k).
Proof.
  intros Hm Hk s. unfold bind. specialize (Hm s).
  destruct (m s) as [[a|e] s']; simpl in *; [|assumption].
  now rewrite Hk.
Qed.

Lemma preserves_py_assert {S X} (f : S -> X) c msg : preserves f (py_assert c msg).
Proof. intros s. unfold py_assert. now destruct c. Qed.

Lemma preserves_if {S A X} (f : S -> X) (c : bool) (m1 m2 : M S A) :
  preserves f m1 -> preserves f m2 -> preserves f (if c then m1 else m2).
Proof. now destruct c. Qed.

Lemma preserves_try_except {S A X} (f : S -> X) (m : M S A) classes handler :
  preserves f m -> (forall e, preserves f (handler e)) ->
  preserves f (try_except m classes handler).
Proof.
  intros Hm Hh s. unfold try_except. specialize (Hm s).
  destruct (m s) as [[a|e] s']; simpl in *; [assumption|].
  destruct (classes e); simpl; [|assumption]. now rewrite Hh.
Qed.

Lemma preserves_for_each {S A X} (f : S -> X) (xs : list A) (body : A -> M S unit) :
  (forall x, preserves f (body x)) -> preserves f (for_each xs body).
Proof.
  intros H. induction xs; simpl.
  - apply preserves_ret.
  - apply preserves_bind; auto.
Qed.

Lemma preserves_zoom {S T A X} (f : S -> X) (get : S -> T) (set : T -> S -> S) (m : M T A) :
  (forall t s, f (set t s) = f s) -> preserves f (zoom get set m).
Proof. intros H s. unfold zoom. destruct (m (get s)); simpl. apply H. Qed.

Lemma preserves_token_item {S X} (f : S -> X) key field : preserves f (token_item key field).
Proof. intros s. unfold token_item. now destruct field. Qed.

Lemma preserves_os_environ {X} (f : Session -> X) k : preserves f (os_environ k).
Proof. intros s. unfold os_environ. now destruct (environ s !! k). Qed.

Lemma preserves_raise_for_status {S X} (f : S -> X) url r :
  preserves f (log_response_and_raise_for_status url r).
Proof.
  intros s. unfold log_response_and_raise_for_status.
  repeat case_bool_decide; reflexivity.
Qed.

Lemma preserves_response_json {S X} (f : S -> X) r : preserves f (response_json r).
Proof. intros s. unfold response_json. now destruct (resp_body r). Qed.

Lemma preserves_dict_getitem {S V X} (f : S -> X) k (d : dict V) :
  preserves f (dict_getitem k d).
Proof. intros s. unfold dict_getitem. now destruct (dict_get k d). Qed.

#[export] Hint Resolve preserves_ret preserves_raise preserves_gets preserves_bind
  preserves_py_assert preserves_if preserves_try_except preserves_for_each
  preserves_token_item preserves_os_environ preserves_raise_for_status
  preserves_response_json preserves_dict_getitem : preserves.

Lemma preserves_sent_set_env_var k v : preserves sent (set_env_var k v).
Proof. intros s. reflexivity. Qed.

Lemma preserves_grants_set_env_var k v : preserves grants (set_env_var k v).
Proof. intros s. reflexivity. Qed.

Lemma preserves_access_token_set_env_var k v : preserves access_token (set_env_var k v).
Proof. intros s. reflexivity. Qed.

#[export] Hint Resolve preserves_sent_set_env_var preserves_grants_set_env_var
  preserves_access_token_set_env_var : preserves.

Section RecordsBufferFacts.
Context (W : World).

Lemma preserves_sent_request_grant g : preserves sent (request_grant W g).
Proof. intros s. unfold request_grant. now destruct (token_endpoint _ _ _). Qed.

Lemma preserves_refresh_token_expires_at {X} (f : Session -> X) :
  preserves f (refresh_token_expires_at W).
Proof.
  intros s. unfold refresh_token_expires_at.
  destruct (environ s !! _); [destruct (strptime_timegm _ _)|]; reflexivity.
Qed.

Lemma preserves_sent_renew_access_token : preserves sent (renew_access_token W).
Proof.
  unfold renew_access_token.
  repeat (first [ apply preserves_bind; [|intros ?]
                | apply preserves_if
                | apply preserves_sent_request_grant
                | apply preserves_refresh_token_expires_at
                | solve [auto with preserves] ]).
Qed.

(** The URL that [make_api_request] sends, with the transaction id it
    builds on entry. *)
Definition url_with_transaction_id (api_url : string) (s : Session) : string :=
  let transaction_id := get_transaction_id W s in
  if negb (String.eqb transaction_id "") then
    api_url +:+ "&transactionID=" +:+ transaction_id
  else api_url.

Definition signed_request (m : Method) (url token : string) : Request :=
  {| req_method := m; req_url := url;
     req_headers := [("Accept", "application/json")];
     req_access_token := token |}.

(** One request sent and its status checked: what [make_api_request] does
    when the token has not expired, and again after a renewal. *)
Definition send_checked (m : Method) (url : string) : M Session Response :=
  response <- api_request W m url [("Accept", "application/json")] ;;
  log_response_and_raise_for_status url response ;;;
  ret response.

Lemma send_checked_state m url s :
  let s' := snd (send_checked m url s) in
  environ s' = environ s /\ dotenv_file s' = dotenv_file s /\ grants s' = grants s
  /\ access_token s' = access_token s
  /\ sent s' = (sent s ++ [signed_request m url (access_token s)])%list.
Proof.
  unfold send_checked, bind, api_request. fold (signed_request m url (access_token s)).
  destruct (transport W _ _) as [response|e]; simpl; [|auto].
  unfold log_response_and_raise_for_status.
  repeat case_bool_decide; simpl; auto.
Qed.

Lemma bind_assoc {S A B C} (m : M S A) (f : A -> M S B) (g : B -> M S C) s :
  bind (bind m f) g s = bind m (fun a => bind (f a) g) s.
Proof. unfold bind. destruct (m s) as [[a|e] s']; reflexivity. Qed.

(** The two courses of [make_api_request]: the request is sent once, or it
    meets [TokenExpiredError] and, after the renewal, is sent once more. *)
Lemma make_api_request_cases m api_url s :
  let url := url_with_transaction_id api_url s in
  let first := signed_request m url (access_token s) in
  match transport W (length (sent s)) first with
  | Raise (TokenExpiredError _) =>
      make_api_request W m api_url s =
        (renew_access_token W ;;; send_checked m url) (log_sent first s)
  | _ => make_api_request W m api_url s = send_checked m url s
  end.
Proof.
  intros url first.
  assert (Hunf : make_api_request W m api_url s =
                 (response <- request_renewing_token W m url [("Accept", "application/json")] ;;
                  log_response_and_raise_for_status url response ;;; ret response) s)
    by reflexivity.
  rewrite Hunf. clear Hunf.
  unfold send_checked.
  destruct (transport W (length (sent s)) first) as [response|e] eqn:E.
  - unfold bind at 1 3. unfold request_renewing_token, api_request.
    fold (signed_request m url (access_token s)). fold first. now rewrite E.
  - assert (Hplain : (response <- request_renewing_token W m url
                                    [("Accept", "application/json")] ;;
                      log_response_and_raise_for_status url response ;;; ret response) s
                     = (Raise e, log_sent first s) ->
                     (response <- request_renewing_token W m url
                                    [("Accept", "application/json")] ;;
                      log_response_and_raise_for_status url response ;;; ret response) s
                     = (response <- api_request W m url [("Accept", "application/json")] ;;
                        log_response_and_raise_for_status url response ;;; ret response) s).
    { intros ->. unfold bind at 1. unfold api_request.
      fold (signed_request m url (access_token s)). fold first. now rewrite E. }
    assert (Hreq : forall e', e = e' -> (forall msg, e' <> TokenExpiredError msg) ->
                   request_renewing_token W m url [("Accept", "application/json")] s
                   = (Raise e', log_sent first s)).
    { intros e' <- Hne. unfold request_renewing_token, api_request.
      fold (signed_request m url (access_token s)). fold first. rewrite E.
      destruct e; try reflexivity. now destruct (Hne msg). }
    destruct e;
      try (apply Hplain; unfold bind at 1; erewrite Hreq; [reflexivity|reflexivity|];
           intros ?; discriminate).
    rewrite <- bind_assoc. unfold bind at 1 3.
    unfold request_renewing_token at 1. unfold api_request at 1.
    fold (signed_request m url (access_token s)). fold first. rewrite E.
    reflexivity.
Qed.

End RecordsBufferFacts.

(** ** Concrete worlds and sessions *)

Module Examples.

Definition response (status_code : Z) (reason : string) (body : Body) : Response :=
  {| resp_status_code := status_code; resp_reason := reason; resp_text := "";
     resp_body := body |}.

Definition full_token : Token :=
  {| tok_access_token := "tk_new"; tok_token_type := "bearer";
     tok_expires_at := (1633044487 # 1)%Q;
     tok_refresh_token := Some "rt_new";
     tok_refresh_token_expires_at := Some "2021-10-07 22:43:07Z" |}.

(** A world whose network answers by the number of the request alone, whose
    token endpoint grants [full_token] and whose clock stands still. *)
Definition world (responses : nat -> result Response) (now : Q) : World :=
  {| transport := fun n _ => responses n;
     token_endpoint := fun _ _ => Ok full_token;
     time_time := fun _ => now;
     utc_timestamp := fun _ => "2021-09-30T22:00:00Z";
     strptime_timegm := fun v =>
       if String.eqb v "2021-09-30 22:43:07Z" then Some 1633041787 else None;
     str_float := fun _ => "1633044487.0" |}.

Definition session (variables : list (string * string)) : Session :=
  {| environ := list_to_map variables; dotenv_file := list_to_map variables;
     access_token := "tk_old"; sent := []; grants := [] |}.

Definition input_row (mms_id lccn_fixed lccn isbn : string) : Record_from_input_file :=
  {| Index := 0; mms_id := mms_id; lccn_fixed := lccn_fixed; lccn := lccn;
     isbn := isbn; issn := ""; gov_doc_class_num_086 := ""; gpo_item_num_074 := "" |}.

End Examples.

(** [float], on the one text that [Examples.world] writes. *)
Definition float_example (text : string) : option Q :=
  if String.eqb text "1633044487.0" then Some (1633044487 # 1)%Q else None.

(** ** The transaction id *)

Lemma string_app_assoc (a b c : string) : (a +:+ b) +:+ c = a +:+ b +:+ c.
Proof.
  induction a as [|x a IH]; [reflexivity|].
  change (String x ((a +:+ b) +:+ c) = String x (a +:+ b +:+ c)).
  now f_equal.
Qed.

(** The transaction id in the words of the specification: symbol, timestamp
    and principal id joined by underscores, the symbol left out with its
    underscore when it is absent, the principal id likewise, and the empty
    string when neither is configured. *)
Definition spec_transaction_id (institution_symbol principal_id : option string)
  (timestamp : string) : string :=
  match institution_symbol, principal_id with
  | None, None => ""
  | Some symbol, None => symbol +:+ "_" +:+ timestamp
  | None, Some principal => timestamp +:+ "_" +:+ principal
  | Some symbol, Some principal => symbol +:+ "_" +:+ timestamp +:+ "_" +:+ principal
  end.

(** A variable counts as absent when it is unset, or, on the other reading,
    when it is unset or empty. *)
Definition unset_is_absent (s : Session) (k : string) : option string := environ s !! k.

Definition unset_or_empty_is_absent (s : Session) (k : string) : option string :=
  match environ s !! k with
  | Some "" => None
  | v => v
  end.

(** C9, as stated, fails when the institution symbol is set to the empty
    string and no principal id is set: the code returns the bare timestamp,
    which is neither the joined string (symbol taken as configured) nor the
    empty string (symbol taken as absent). *)
Lemma C9_counterexample :
  let W := Examples.world (fun _ => Ok (Examples.response 200 "OK" (Undecodable ""))) (0 # 1)%Q in
  let s := Examples.session [("OCLC_INSTITUTION_SYMBOL", "")] in
  let timestamp := utc_timestamp W (length (sent s)) in
  get_transaction_id W s = "2021-09-30T22:00:00Z"
  /\ get_transaction_id W s <>
       spec_transaction_id (unset_is_absent s "OCLC_INSTITUTION_SYMBOL")
         (unset_is_absent s "WORLDCAT_PRINCIPAL_ID") timestamp
  /\ get_transaction_id W s <>
       spec_transaction_id (unset_or_empty_is_absent s "OCLC_INSTITUTION_SYMBOL")
         (unset_or_empty_is_absent s "WORLDCAT_PRINCIPAL_ID") timestamp.
Proof. vm_compute. repeat split; discriminate. Qed.


(** The timestamp with the parts that are present around it. *)
Definition joined_by_underscores (institution_symbol : option string) (timestamp : string)
  (principal_id : option string) : string :=
  let rest :=
    match principal_id with
    | Some principal => timestamp +:+ "_" +:+ principal
    | None => timestamp
    end in
  match institution_symbol with
  | Some symbol => symbol +:+ "_" +:+ rest
  | None => rest
  end.

Lemma spec_transaction_id_joined symbol principal timestamp :
  spec_transaction_id symbol principal timestamp =
    match symbol, principal with
    | None, None => ""
    | _, _ => joined_by_underscores symbol timestamp principal
    end.
Proof. destruct symbol, principal; reflexivity. Qed.

(** Every request that [make_api_request] sends, the first and the one
    after a renewal, goes to the URL with the transaction id built on entry
    attached, when that id is not empty. *)
Lemma make_api_request_urls (W : World) (s : Session) m api_url :
  exists new,
    sent (snd (make_api_request W m api_url s)) = (sent s ++ new)%list
    /\ new <> []
    /\ forall r, r ∈ new ->
         req_url r =
           if String.eqb (get_transaction_id W s) "" then api_url
           else api_url +:+ "&transactionID=" +:+ get_transaction_id W s.
Proof.
  pose proof (make_api_request_cases W m api_url s) as H. cbv zeta in H.
  assert (Hurl : url_with_transaction_id W api_url s =
                 if String.eqb (get_transaction_id W s) "" then api_url
                 else api_url +:+ "&transactionID=" +:+ get_transaction_id W s).
  { unfold url_with_transaction_id. now destruct (String.eqb _ _). }
  set (url := url_with_transaction_id W api_url s) in *.
  set (first := signed_request m url (access_token s)) in *.
  assert (Hplain : make_api_request W m api_url s = send_checked W m url s ->
                   exists new, sent (snd (make_api_request W m api_url s))
                               = (sent s ++ new)%list /\ new <> [] /\
                               forall r, r ∈ new -> req_url r =
                                 if String.eqb (get_transaction_id W s) "" then api_url
                                 else api_url +:+ "&transactionID="
                                      +:+ get_transaction_id W s).
  { intros ->. destruct (send_checked_state W m url s) as (_ & _ & _ & _ & Hs).
    exists [first]. split; [exact Hs|]. split; [discriminate|].
    intros r Hr. apply list_elem_of_singleton in Hr. subst r. exact Hurl. }
  destruct (transport W (length (sent s)) first) as [response|e]; [auto|].
  destruct e; auto.
  clear Hplain. rewrite H.
  pose proof (preserves_sent_renew_access_token W (log_sent first s)) as Hrenew.
  destruct (renew_access_token W (log_sent first s)) as [[[]|e] s2] eqn:Hrun;
    simpl in Hrenew;
    [rewrite (bind_ok _ _ _ _ _ Hrun) | rewrite (bind_raise _ _ _ _ _ Hrun)].
  - destruct (send_checked_state W m url s2) as (_ & _ & _ & _ & Hs).
    exists [first; signed_request m url (access_token s2)].
    split; [|split; [discriminate|]].
    + rewrite Hs, Hrenew. now rewrite <- app_assoc.
    + intros r Hr. apply elem_of_cons in Hr as [->|Hr]; [exact Hurl|].
      apply list_elem_of_singleton in Hr. subst r. exact Hurl.
  - exists [first]. split; [exact Hrenew|]. split; [discriminate|].
    intros r Hr. apply list_elem_of_singleton in Hr. subst r. exact Hurl.
Qed.

(** C9, amended. The transaction id is empty when neither variable is set;
    otherwise it is the timestamp, preceded by the institution symbol and an
    underscore when the symbol is set and not empty, and followed by an
    underscore and the principal id when that variable is set.  Every
    request that [make_api_request] sends goes to the URL with the
    transaction id attached as a query parameter if and only if the id is
    not empty. *)
Theorem C9_transaction_id_amended (W : World) (s : Session) :
  let timestamp := utc_timestamp W (length (sent s)) in
  get_transaction_id W s =
    match environ s !! "OCLC_INSTITUTION_SYMBOL", environ s !! "WORLDCAT_PRINCIPAL_ID" with
    | None, None => ""
    | _, _ =>
        joined_by_underscores
          (unset_or_empty_is_absent s "OCLC_INSTITUTION_SYMBOL") timestamp
          (unset_is_absent s "WORLDCAT_PRINCIPAL_ID")
    end
  /\ forall m api_url,
      exists new,
        sent (snd (make_api_request W m api_url s)) = (sent s ++ new)%list
        /\ new <> []
        /\ forall r, r ∈ new ->
             req_url r =
               if String.eqb (get_transaction_id W s) "" then api_url
               else api_url +:+ "&transactionID=" +:+ get_transaction_id W s.
Proof.
  intros timestamp. split.
  - unfold get_transaction_id, in_environ, os_getenv, unset_or_empty_is_absent,
      unset_is_absent, joined_by_underscores.
    fold timestamp.
    destruct (environ s !! "OCLC_INSTITUTION_SYMBOL") as [sym|],
             (environ s !! "WORLDCAT_PRINCIPAL_ID") as [p|];
      try reflexivity.
    + destruct sym as [|c sym]; [reflexivity|].
      cbn -[String.append]. now rewrite !string_app_assoc.
    + destruct sym as [|c sym]; [reflexivity|].
      cbn -[String.append]. now rewrite !string_app_assoc.
  - apply make_api_request_urls.
Qed.

(** ** Token renewal *)





(** The grant that the renewal asks for in a session. *)
Definition grant_chosen (W : World) (s : Session) (token_url : string) (expires_at : Q)
  : Grant :=
  if in_environ "WORLDCAT_METADATA_API_REFRESH_TOKEN" s
     && Qgtb (Qminus expires_at (time_time W (length (sent s)))) (inject_Z 25)
  then RefreshTokenGrant token_url (os_getenv "WORLDCAT_METADATA_API_REFRESH_TOKEN" "" s)
  else ClientCredentialsGrant token_url.



(** A renewal by the refresh token: the token has 787 seconds left. *)
Definition renewal_world : World :=
  Examples.world
    (fun n => match n with
              | O => Raise (TokenExpiredError "(token_expired) ")
              | _ => Ok (Examples.response 200 "OK" (Decoded (BriefBibs 1 ["40"])))
              end)
    (1633041000 # 1)%Q.

Definition renewal_session : Session :=
  Examples.session
    [("OCLC_AUTHORIZATION_SERVER_TOKEN_URL", "https://oauth.oclc.org/token");
     ("WORLDCAT_METADATA_API_REFRESH_TOKEN", "rt_old");
     ("WORLDCAT_METADATA_API_REFRESH_TOKEN_EXPIRES_AT", "2021-09-30 22:43:07Z")].


(** With exactly 25 seconds left the renewal is a full grant, and the new
    refresh token and its expiry are persisted. *)
Example renewal_at_25_seconds :
  let W := Examples.world
             (fun n => match n with
                       | O => Raise (TokenExpiredError "(token_expired) ")
                       | _ => Ok (Examples.response 200 "OK" (Decoded (BriefBibs 1 ["40"])))
                       end)
             (1633041762 # 1)%Q in
  let s' := snd (make_api_request W GET "https://worldcat.org/bib?x=1" renewal_session) in
  grants s' = [ClientCredentialsGrant "https://oauth.oclc.org/token"]
  /\ dotenv_file s' !! "WORLDCAT_METADATA_API_REFRESH_TOKEN" = Some "rt_new"
  /\ dotenv_file s' !! "WORLDCAT_METADATA_API_REFRESH_TOKEN_EXPIRES_AT"
     = Some "2021-10-07 22:43:07Z"
  /\ map req_access_token (sent s') = ["tk_old"; "tk_new"].
Proof. vm_compute. repeat split; reflexivity. Qed.

(** ** Undecodable responses *)

(** C7. In each of the three buffers, when the response of the API request
    cannot be decoded, [process_records] ends with the [JSONDecodeError]
    that [.json()] raised: the handler lets it go on to the caller.  The
    buffer is then as it was but for the session, which has sent the
    request: no row is written to a file, no counter moved, no cell of the
    DataFrame set. *)
Theorem C7_undecodable_response_reraised (W : World) :
  (forall (b : AlmaRecordsBuffer.t) (results : gmap string Z) api_url response s' msg,
      environ (AlmaRecordsBuffer.session b) !! "WORLDCAT_METADATA_API_URL" = Some api_url ->
      make_api_request W GET
        (api_url +:+ "/bib/checkcontrolnumbers" +:+ "?oclcNumbers="
         +:+ String.concat "," (dict_keys (AlmaRecordsBuffer.oclc_num_dict b)))
        (AlmaRecordsBuffer.session b) = (Ok response, s') ->
      resp_body response = Undecodable msg ->
      AlmaRecordsBuffer.process_records W (b, results)
      = (Raise (JSONDecodeError msg), (AlmaRecordsBuffer.set_session s' b, results)))
  /\ (forall (b : WorldCatRecordsBuffer.t) (results : gmap string Z) api_url response s' msg,
      let url := api_url +:+ "/ih/datalist?oclcNumbers="
                 +:+ String.concat "," (elements (WorldCatRecordsBuffer.oclc_num_set b)) in
      environ (WorldCatRecordsBuffer.session b) !! "WORLDCAT_METADATA_API_URL" = Some api_url ->
      (if String.eqb (WorldCatRecordsBuffer.set_or_unset_choice b) "set" then
         make_api_request W POST url (WorldCatRecordsBuffer.session b)
       else
         make_api_request W DELETE
           (url +:+ "&cascade=" +:+ WorldCatRecordsBuffer.cascade b)
           (WorldCatRecordsBuffer.session b)) = (Ok response, s') ->
      resp_body response = Undecodable msg ->
      WorldCatRecordsBuffer.process_records W (b, results)
      = (Raise (JSONDecodeError msg), (WorldCatRecordsBuffer.set_session s' b, results)))
  /\ (forall (b : WorldCatSearchBuffer.t) (results : bool) record search_url symbol
             response s' msg,
      WorldCatSearchBuffer.record_list b = [record] ->
      environ (WorldCatSearchBuffer.session b) !! "WORLDCAT_METADATA_API_URL_FOR_SEARCH"
        = Some search_url ->
      environ (WorldCatSearchBuffer.session b) !! "OCLC_INSTITUTION_SYMBOL" = Some symbol ->
      make_api_request W GET
        (search_url +:+ "/brief-bibs" +:+ "?q=nl:" +:+ lccn record
         +:+ "&heldBySymbol=" +:+ symbol)
        (WorldCatSearchBuffer.session b) = (Ok response, s') ->
      resp_body response = Undecodable msg ->
      WorldCatSearchBuffer.process_records W results b
      = (Raise (JSONDecodeError msg), WorldCatSearchBuffer.set_session s' b)).
Proof.
  split; [|split].
  - intros [d f1 f2 f3 s] results api_url response s' msg Henv Hreq Hbody.
    simpl in *.
    unfold AlmaRecordsBuffer.process_records, AlmaRecordsBuffer.on_self, bind, zoom,
      gets, try_except_binding,
      try_except, log_text_and_reraise, os_environ, response_json. simpl.
    rewrite Henv. simpl. rewrite Hreq. simpl. rewrite Hbody. reflexivity.
  - intros [members choice cascade f1 f2 f3 s] results api_url response s' msg url
      Henv Hreq Hbody.
    simpl in *. subst url.
    unfold WorldCatRecordsBuffer.process_records, WorldCatRecordsBuffer.on_self, bind,
      zoom, gets, try_except_binding,
      try_except, log_text_and_reraise, os_environ, response_json. simpl.
    rewrite Henv. simpl.
    destruct (String.eqb choice "set"); simpl; rewrite Hreq; simpl; rewrite Hbody;
      reflexivity.
  - intros [l data s] results record search_url symbol response s' msg Hl Hsearch Hsymbol
      Hreq Hbody.
    simpl in *. subst l.
    unfold WorldCatSearchBuffer.process_records, WorldCatSearchBuffer.first_record,
      WorldCatSearchBuffer.len, bind, zoom, gets, try_except_binding,
      try_except, log_text_and_reraise, os_environ, response_json,
      py_assert, ret. simpl.
    rewrite Hsearch. simpl. rewrite Hsymbol. simpl. rewrite Hreq. simpl.
    rewrite Hbody. reflexivity.
Qed.

(** ** Loops over the entries of a response *)

(** A loop whose body cannot fail on the elements it meets is the fold of
    the step the body takes. *)
Lemma for_each_fold {S A} (body : A -> M S unit) (step : A -> S -> S)
  (Q : A -> Prop) (P : S -> Prop) :
  (forall x s, Q x -> P s -> body x s = (Ok tt, step x s) /\ P (step x s)) ->
  forall xs s, Forall Q xs -> P s ->
    for_each xs body s = (Ok tt, fold_left (fun s x => step x s) xs s)
    /\ P (fold_left (fun s x => step x s) xs s).
Proof.
  intros Hbody xs. induction xs as [|x xs IH]; intros s HQ HP; simpl.
  - split; [reflexivity | assumption].
  - apply Forall_cons in HQ as [Hx Hxs].
    destruct (Hbody x s Hx HP) as [Hrun HP'].
    unfold bind. rewrite Hrun. apply IH; assumption.
Qed.

(** The rows that a run of the loop adds to a file. *)
Definition write_rows (header : list string) (rows : list (list string)) (file : CsvFile)
  : CsvFile :=
  fold_left (fun file row => writerow_with_header header row file) rows file.

(** The rows go to the end of the file in the order of the loop, after the
    header when the file was empty. *)
Lemma write_rows_spec header rows file :
  write_rows header rows file =
    match rows with
    | [] => file
    | _ :: _ => (match file with [] => [header] | _ => file end ++ rows)%list
    end.
Proof.
  unfold write_rows. revert file. induction rows as [|row rows IH]; intros file.
  - reflexivity.
  - simpl. rewrite IH. destruct rows as [|row' rows].
    + destruct file; reflexivity.
    + destruct file as [|l file]; simpl; [reflexivity|].
      destruct (file ++ [row])%list eqn:E.
      * destruct file; discriminate.
      * rewrite <- E. rewrite <- app_assoc. reflexivity.
Qed.

(** [results[key] += 1] where the key is present. *)
Definition incremented (key : string) (results : gmap string Z) : gmap string Z :=
  match results !! key with
  | Some n => <[key := n + 1]> results
  | None => results
  end.

Lemma results_increment_ok key (results : gmap string Z) :
  is_Some (results !! key) ->
  results_increment key results = (Ok tt, incremented key results).
Proof. intros [n Hn]. unfold results_increment, incremented. now rewrite Hn. Qed.

Lemma lookup_incremented key key' (results : gmap string Z) :
  incremented key results !! key' =
    if decide (key = key') then (fun n => n + 1) <$> results !! key'
    else results !! key'.
Proof.
  unfold incremented. destruct (results !! key) as [n|] eqn:E.
  - rewrite lookup_insert. destruct (decide (key = key')) as [<-|]; [|reflexivity].
    now rewrite E.
  - destruct (decide (key = key')) as [<-|]; [|reflexivity]. now rewrite E.
Qed.

(** ** Classification of the entries of a set/unset response *)

Module WorldCatRecordsBufferFacts.
Import WorldCatRecordsBuffer.

#[global] Instance Bucket_eq_dec : EqDecision Bucket.
Proof. solve_decision. Defined.

Definition counter_of (bucket : Bucket) : string :=
  match bucket with
  | Updated => "num_records_updated"
  | NoUpdateNeeded => "num_records_with_no_update_needed"
  | Error => "num_records_with_errors"
  end.

Definition header_of (bucket : Bucket) : list string :=
  match bucket with
  | Updated => ["Requested OCLC Number"; "New OCLC Number (if applicable)"; "Warning"]
  | _ => ["Requested OCLC Number"; "New OCLC Number (if applicable)"; "Error"]
  end.

Definition file_of (bucket : Bucket) (b : t) : CsvFile :=
  match bucket with
  | Updated => records_updated b
  | NoUpdateNeeded => records_with_no_update_needed b
  | Error => records_with_errors b
  end.

Definition set_file_of (bucket : Bucket) (f : CsvFile -> CsvFile) (b : t) : t :=
  match bucket with
  | Updated => set_records_updated f b
  | NoUpdateNeeded => set_records_with_no_update_needed f b
  | Error => set_records_with_errors f b
  end.

(** The entries of a response that go to a bucket, in the order of the
    response. *)
Definition entries_for (bucket : Bucket) (entry : list HoldingEntry) : list HoldingEntry :=
  filter (fun record => classify record = bucket) entry.

(** What one pass through the loop body does when it does not fail. *)
Definition step (record : HoldingEntry) (st : t * gmap string Z) : t * gmap string Z :=
  let bucket := classify record in
  (set_file_of bucket
     (writerow_with_header (header_of bucket) (row_of (set_or_unset_choice (fst st)) record))
     (fst st),
   incremented (counter_of bucket) (snd st)).

Definition counters_present (st : t * gmap string Z) : Prop :=
  forall bucket, is_Some (snd st !! counter_of bucket).

Lemma holdings_process_record_step record st :
  counters_present st ->
  process_record record st = (Ok tt, step record st) /\ counters_present (step record st).
Proof.
  intros Hc. split.
  - destruct st as [b results].
    pose proof (results_increment_ok _ _ (Hc Updated)) as H1.
    pose proof (results_increment_ok _ _ (Hc NoUpdateNeeded)) as H2.
    pose proof (results_increment_ok _ _ (Hc Error)) as H3.
    simpl in H1, H2, H3.
    unfold process_record, step, row_of, classify, on_self, on_results, bind, zoom, gets,
      modify. simpl.
    destruct (String.eqb (he_httpStatusCode record) "HTTP 200 OK") eqn:E200;
      [|destruct (String.eqb (he_httpStatusCode record) "HTTP 409 Conflict") eqn:E409].
    + simpl. rewrite H1. reflexivity.
    + simpl. rewrite H2. reflexivity.
    + simpl. rewrite H3. reflexivity.
  - intros bucket. unfold step. simpl. rewrite lookup_incremented.
    destruct (decide _) as [_|_]; [|apply Hc].
    destruct (Hc bucket) as [n ->]. simpl. eauto.
Qed.

Lemma holdings_step_choice record st :
  set_or_unset_choice (fst (step record st)) = set_or_unset_choice (fst st).
Proof. unfold step. simpl. now destruct (classify record). Qed.

Lemma holdings_step_file bucket record st :
  file_of bucket (fst (step record st)) =
    if decide (classify record = bucket) then
      writerow_with_header (header_of bucket)
        (row_of (set_or_unset_choice (fst st)) record) (file_of bucket (fst st))
    else file_of bucket (fst st).
Proof.
  unfold step. simpl.
  destruct (decide _) as [<-|Hne].
  - now destruct (classify record).
  - destruct (classify record), bucket; try reflexivity; congruence.
Qed.

Lemma holdings_step_rest record st :
  oclc_num_set (fst (step record st)) = oclc_num_set (fst st)
  /\ cascade (fst (step record st)) = cascade (fst st)
  /\ session (fst (step record st)) = session (fst st).
Proof. unfold step. simpl. now destruct (classify record). Qed.

Lemma holdings_counter_of_inj : Inj (=) (=) counter_of.
Proof. intros [] []; simpl; congruence. Qed.

Lemma holdings_step_counter bucket record st :
  snd (step record st) !! counter_of bucket =
    if decide (classify record = bucket) then
      (fun n => n + 1) <$> snd st !! counter_of bucket
    else snd st !! counter_of bucket.
Proof.
  unfold step. simpl. rewrite lookup_incremented.
  destruct (decide (counter_of _ = _)) as [E|E], (decide (classify _ = _)) as [E'|E'];
    try reflexivity.
  - apply holdings_counter_of_inj in E. contradiction.
  - congruence.
Qed.

(** The loop over the entries, as a whole. *)
Lemma holdings_fold_step entry : forall st,
  let st' := fold_left (fun st record => step record st) entry st in
  set_or_unset_choice (fst st') = set_or_unset_choice (fst st)
  /\ oclc_num_set (fst st') = oclc_num_set (fst st)
  /\ cascade (fst st') = cascade (fst st)
  /\ session (fst st') = session (fst st)
  /\ forall bucket,
      file_of bucket (fst st') =
        write_rows (header_of bucket)
          (map (row_of (set_or_unset_choice (fst st))) (entries_for bucket entry))
          (file_of bucket (fst st))
      /\ snd st' !! counter_of bucket =
           (fun n => n + Z.of_nat (length (entries_for bucket entry)))
             <$> snd st !! counter_of bucket.
Proof.
  induction entry as [|record entry IH]; intros st; simpl.
  - repeat split; try reflexivity.
    destruct (snd st !! counter_of bucket); simpl; [f_equal; lia | reflexivity].
  - specialize (IH (step record st)). cbv zeta in IH.
    destruct IH as (Hchoice & Hset & Hcascade & Hsession & Hbucket).
    destruct (holdings_step_rest record st) as (R1 & R2 & R3).
    rewrite Hchoice, Hset, Hcascade, Hsession, holdings_step_choice, R1, R2, R3.
    repeat split; try reflexivity.
    + destruct (Hbucket bucket) as [Hfile _]. rewrite Hfile, holdings_step_choice, holdings_step_file.
      unfold entries_for. rewrite filter_cons.
      destruct (decide (classify record = bucket)); reflexivity.
    + destruct (Hbucket bucket) as [_ Hcount]. rewrite Hcount, holdings_step_counter.
      unfold entries_for. rewrite filter_cons.
      destruct (decide (classify record = bucket)); [|reflexivity].
      destruct (snd st !! counter_of bucket); simpl; [f_equal; lia | reflexivity].
Qed.

Lemma holdings_classify_spec record :
  (classify record = Updated <-> he_httpStatusCode record = "HTTP 200 OK")
  /\ (classify record = NoUpdateNeeded <-> he_httpStatusCode record = "HTTP 409 Conflict")
  /\ (classify record = Error <->
        he_httpStatusCode record <> "HTTP 200 OK"
        /\ he_httpStatusCode record <> "HTTP 409 Conflict").
Proof.
  unfold classify.
  destruct (String.eqb_spec (he_httpStatusCode record) "HTTP 200 OK") as [E200|E200];
    [|destruct (String.eqb_spec (he_httpStatusCode record) "HTTP 409 Conflict")
        as [E409|E409]].
  - rewrite E200. repeat split; try congruence; try discriminate. intros [? _]. congruence.
  - rewrite E409. repeat split; try congruence; try discriminate. intros [_ ?]. congruence.
  - repeat split; try congruence; try discriminate.
Qed.

Lemma holdings_oclc_num_msg_spec record :
  oclc_num_msg record <> "" <->
  he_currentOclcNumber record <> he_requestedOclcNumber record.
Proof.
  unfold oclc_num_msg.
  destruct (String.eqb_spec (he_requestedOclcNumber record) (he_currentOclcNumber record)).
  - split; congruence.
  - split; [congruence | discriminate].
Qed.

End WorldCatRecordsBufferFacts.

Section SetUnsetClassification.
Import WorldCatRecordsBuffer WorldCatRecordsBufferFacts.

(** C4. When the set/unset request is answered with a decodable body whose
    [entry] list is [entry], and the three counters are in [results],
    [process_records] succeeds and each of the three files receives, in the
    order of the response, the rows of the entries whose [httpStatusCode]
    sends them there ([write_rows_spec]: after the rows already in the
    file), and the counter of the bucket grows by their number.  "HTTP 200
    OK" sends to Updated, with a warning in the third column exactly when
    the current number differs from the requested one; "HTTP 409 Conflict"
    sends to NoUpdateNeeded, with the error detail; any other status sends
    to Error, with the status and the error detail. *)
Theorem C4_set_unset_classification (W : World) (b : t) (results : gmap string Z)
  (api_url : string) (response : Response) (s' : Session) (entry : list HoldingEntry) :
  let choice := set_or_unset_choice b in
  let url := api_url +:+ "/ih/datalist?oclcNumbers="
             +:+ String.concat "," (elements (oclc_num_set b)) in
  environ (session b) !! "WORLDCAT_METADATA_API_URL" = Some api_url ->
  (if String.eqb choice "set" then make_api_request W POST url (session b)
   else make_api_request W DELETE (url +:+ "&cascade=" +:+ cascade b) (session b))
  = (Ok response, s') ->
  resp_body response = Decoded (HoldingsDatalist entry) ->
  (forall bucket, is_Some (results !! counter_of bucket)) ->
  (exists b' results',
      process_records W (b, results) = (Ok tt, (b', results'))
      /\ oclc_num_set b' = oclc_num_set b
      /\ forall bucket,
          file_of bucket b' =
            write_rows (header_of bucket) (map (row_of choice) (entries_for bucket entry))
              (file_of bucket b)
          /\ results' !! counter_of bucket =
               (fun n => n + Z.of_nat (length (entries_for bucket entry)))
                 <$> results !! counter_of bucket)
  /\ forall record,
      (classify record = Updated <-> he_httpStatusCode record = "HTTP 200 OK")
      /\ (classify record = NoUpdateNeeded <-> he_httpStatusCode record = "HTTP 409 Conflict")
      /\ (classify record = Error <->
            he_httpStatusCode record <> "HTTP 200 OK"
            /\ he_httpStatusCode record <> "HTTP 409 Conflict")
      /\ (oclc_num_msg record <> "" <->
            he_currentOclcNumber record <> he_requestedOclcNumber record)
      /\ row_of choice record =
           [he_requestedOclcNumber record; new_oclc_num record;
            match classify record with
            | Updated => oclc_num_msg record
            | NoUpdateNeeded =>
                api_response_error_msg choice +:+ ": " +:+ he_errorDetail record +:+ ". "
                +:+ oclc_num_msg record
            | Error =>
                api_response_error_msg choice +:+ ": " +:+ he_httpStatusCode record
                +:+ ": " +:+ he_errorDetail record +:+ ". " +:+ oclc_num_msg record
            end].
Proof.
  intros choice url Henv Hreq Hbody Hcounters. split.
  - pose proof (for_each_fold process_record step (fun _ => True) counters_present
                  (fun record st _ Hc => holdings_process_record_step record st Hc)) as Hloop.
    assert (Hc0 : counters_present (set_session s' b, results)) by exact Hcounters.
    assert (Hall : Forall (fun _ : HoldingEntry => True) entry)
      by (apply Forall_forall; auto).
    destruct (Hloop entry (set_session s' b, results) Hall Hc0) as [Hrun _].
    destruct (holdings_fold_step entry (set_session s' b, results))
      as (Hchoice & Hset & _ & _ & Hbucket). cbv zeta in Hbucket.
    set (st' := fold_left (fun st record => step record st) entry
                  (set_session s' b, results)) in *.
    exists (fst st'), (snd st'). split; [|split].
    + rewrite <- surjective_pairing, <- Hrun. clear Hrun Hbucket Hchoice Hset st' Hloop Hc0.
      destruct b as [members choice0 cascade0 f1 f2 f3 s]. simpl in *. subst choice url.
      unfold process_records, on_self, bind, zoom, gets, try_except_binding,
      try_except, log_text_and_reraise, os_environ,
        response_json, response_entries. simpl.
      rewrite Henv. simpl.
      assert (Hnot : forall xs st,
                 match for_each xs process_record st with
                 | (Raise e, st1) =>
                     if is_JSONDecodeError e then raise e st1 else (Raise e, st1)
                 | r => r
                 end = for_each xs process_record st).
      { intros xs st. destruct (for_each xs process_record st) as [[[]|e] st1];
          [reflexivity|]. now destruct (is_JSONDecodeError e). }
      destruct (String.eqb choice0 "set"); simpl; rewrite Hreq; simpl; rewrite Hbody;
        simpl; apply Hnot.
    + exact Hset.
    + intros bucket. destruct (Hbucket bucket) as [Hfile Hcount].
      split; [|exact Hcount].
      rewrite Hfile. simpl. now destruct bucket, b.
  - intros record.
    destruct (holdings_classify_spec record) as (C1 & C2 & C3).
    repeat split; try tauto.
    + apply holdings_oclc_num_msg_spec.
    + apply holdings_oclc_num_msg_spec.
    + unfold row_of. now destruct (classify record).
Qed.

End SetUnsetClassification.

(** ** Classification of the entries of a holdings-check response *)

Module AlmaRecordsBufferFacts.
Import AlmaRecordsBuffer.

#[global] Instance Bucket_eq_dec : EqDecision Bucket.
Proof. solve_decision. Defined.

Definition counter_of (bucket : Bucket) : string :=
  match bucket with
  | Current => "num_records_with_current_oclc_num"
  | Old => "num_records_with_old_oclc_num"
  | Error => "num_records_with_errors"
  end.

Definition header_of (bucket : Bucket) : list string :=
  match bucket with
  | Current => ["MMS ID"; "Current OCLC Number"]
  | Old => ["MMS ID"; "Current OCLC Number"; "Original OCLC Number"]
  | Error => ["MMS ID"; "OCLC Number"; "Error"]
  end.

Definition file_of (bucket : Bucket) (b : t) : CsvFile :=
  match bucket with
  | Current => records_with_current_oclc_num b
  | Old => records_with_old_oclc_num b
  | Error => records_with_errors b
  end.

Definition set_file_of (bucket : Bucket) (f : CsvFile -> CsvFile) (b : t) : t :=
  match bucket with
  | Current => set_records_with_current_oclc_num f b
  | Old => set_records_with_old_oclc_num f b
  | Error => set_records_with_errors f b
  end.

(** The row that the loop body writes for an entry, by destination; the
    record key is the MMS ID under which the requested number was added. *)
Definition row_of (d : dict string) (record : CheckEntry) : list string :=
  let mms_id := default "" (dict_get (ce_requestedOclcNumber record) d) in
  match classify record with
  | Error =>
      [mms_id; ce_requestedOclcNumber record;
       api_response_error_msg +:+ ": OCLC number not found"]
  | Current => [mms_id; ce_currentOclcNumber record]
  | Old => [mms_id; ce_currentOclcNumber record; ce_requestedOclcNumber record]
  end.

Definition entries_for (bucket : Bucket) (entry : list CheckEntry) : list CheckEntry :=
  filter (fun record => classify record = bucket) entry.


Definition step (record : CheckEntry) (st : t * gmap string Z) : t * gmap string Z :=
  let bucket := classify record in
  (set_file_of bucket
     (writerow_with_header (header_of bucket) (row_of (oclc_num_dict (fst st)) record))
     (fst st),
   incremented (counter_of bucket) (snd st)).

Definition ready (d : dict string) (st : t * gmap string Z) : Prop :=
  oclc_num_dict (fst st) = d /\ forall bucket, is_Some (snd st !! counter_of bucket).

Lemma check_step_rest record st :
  oclc_num_dict (fst (step record st)) = oclc_num_dict (fst st)
  /\ session (fst (step record st)) = session (fst st).
Proof. unfold step. simpl. now destruct (classify record). Qed.

Lemma check_process_record_step d record st :
  ce_requestedOclcNumber record ∈ dict_keys d ->
  ready d st ->
  process_record record st = (Ok tt, step record st) /\ ready d (step record st).
Proof.
  intros Hkey [Hd Hc]. split.
  - destruct st as [b results]. simpl in Hd.
    pose proof (results_increment_ok _ _ (Hc Current)) as H1.
    pose proof (results_increment_ok _ _ (Hc Old)) as H2.
    pose proof (results_increment_ok _ _ (Hc Error)) as H3.
    simpl in H1, H2, H3.
    apply dict_contains_keys, dict_get_contains in Hkey. destruct Hkey as [mms_id Hget].
    unfold process_record, step, row_of, classify, on_self, on_results, bind, zoom, gets,
      modify, dict_getitem. simpl.
    rewrite Hd, Hget. simpl.
    destruct (ce_found record); simpl; [destruct (ce_merged record); simpl|].
    + rewrite H2. reflexivity.
    + rewrite H1. reflexivity.
    + rewrite H3. reflexivity.
  - split.
    + destruct (check_step_rest record st) as [-> _]. exact Hd.
    + intros bucket. unfold step. simpl. rewrite lookup_incremented.
      destruct (decide _) as [_|_]; [|apply Hc].
      destruct (Hc bucket) as [n ->]. simpl. eauto.
Qed.

Lemma check_step_file bucket record st :
  file_of bucket (fst (step record st)) =
    if decide (classify record = bucket) then
      writerow_with_header (header_of bucket)
        (row_of (oclc_num_dict (fst st)) record) (file_of bucket (fst st))
    else file_of bucket (fst st).
Proof.
  unfold step. simpl.
  destruct (decide _) as [<-|Hne].
  - now destruct (classify record).
  - destruct (classify record), bucket; try reflexivity; congruence.
Qed.

Lemma check_counter_of_inj : Inj (=) (=) counter_of.
Proof. intros [] []; simpl; congruence. Qed.

Lemma check_step_counter bucket record st :
  snd (step record st) !! counter_of bucket =
    if decide (classify record = bucket) then
      (fun n => n + 1) <$> snd st !! counter_of bucket
    else snd st !! counter_of bucket.
Proof.
  unfold step. simpl. rewrite lookup_incremented.
  destruct (decide (counter_of _ = _)) as [E|E], (decide (classify _ = _)) as [E'|E'];
    try reflexivity.
  - apply check_counter_of_inj in E. contradiction.
  - congruence.
Qed.

Lemma check_fold_step entry : forall st,
  let st' := fold_left (fun st record => step record st) entry st in
  oclc_num_dict (fst st') = oclc_num_dict (fst st)
  /\ session (fst st') = session (fst st)
  /\ forall bucket,
      file_of bucket (fst st') =
        write_rows (header_of bucket)
          (map (row_of (oclc_num_dict (fst st))) (entries_for bucket entry))
          (file_of bucket (fst st))
      /\ snd st' !! counter_of bucket =
           (fun n => n + Z.of_nat (length (entries_for bucket entry)))
             <$> snd st !! counter_of bucket.
Proof.
  induction entry as [|record entry IH]; intros st; simpl.
  - repeat split; try reflexivity.
    destruct (snd st !! counter_of bucket); simpl; [f_equal; lia | reflexivity].
  - specialize (IH (step record st)). cbv zeta in IH.
    destruct IH as (Hdict & Hsession & Hbucket).
    destruct (check_step_rest record st) as (R1 & R2).
    rewrite Hdict, Hsession, R1, R2.
    repeat split; try reflexivity.
    + destruct (Hbucket bucket) as [Hfile _]. rewrite Hfile, R1, check_step_file.
      unfold entries_for. rewrite filter_cons.
      destruct (decide (classify record = bucket)); reflexivity.
    + destruct (Hbucket bucket) as [_ Hcount]. rewrite Hcount, check_step_counter.
      unfold entries_for. rewrite filter_cons.
      destruct (decide (classify record = bucket)); [|reflexivity].
      destruct (snd st !! counter_of bucket); simpl; [f_equal; lia | reflexivity].
Qed.



End AlmaRecordsBufferFacts.

Section HoldingsCheckClassification.
Import AlmaRecordsBuffer AlmaRecordsBufferFacts.

Definition empty_results : gmap string Z :=
  list_to_map [("num_records_with_current_oclc_num", 0);
               ("num_records_with_old_oclc_num", 0);
               ("num_records_with_errors", 0)].

Definition check_buffer (d : dict string) : t :=
  {| oclc_num_dict := d;
     records_with_current_oclc_num := [];
     records_with_old_oclc_num := [];
     records_with_errors := [];
     session := Examples.session [("WORLDCAT_METADATA_API_URL", "https://worldcat.org")] |}.

Definition check_world (entry : list CheckEntry) : World :=
  Examples.world
    (fun _ => Ok (Examples.response 200 "OK" (Decoded (CheckControlNumbers entry))))
    (0 # 1)%Q.



End HoldingsCheckClassification.

(** ** The search buffer *)

Module WorldCatSearchBufferFacts.
Import WorldCatSearchBuffer.

(** What a call of [process_records] can do to the buffer: the list of
    records stays, and the DataFrame is touched only when the call
    succeeds, in one cell of the row of the record. *)
Lemma process_records_effect (W : World) {R} (results : R) (b : t) :
  let r := process_records W results b in
  record_list (snd r) = record_list b
  /\ match fst r with
     | Raise _ => dataframe_for_input_file (snd r) = dataframe_for_input_file b
     | Ok _ =>
         exists record,
           record_list b = [record]
           /\ ((exists v, dataframe_for_input_file (snd r)
                          = loc_set (Index record) (set_oclc_num v)
                              (dataframe_for_input_file b))
               \/ dataframe_for_input_file (snd r)
                  = loc_set (Index record) (set_found_multiple_oclc_nums true)
                      (dataframe_for_input_file b))
     end.
Proof.
  destruct b as [l data s].
  unfold process_records, first_record, len, bind, zoom, gets, try_except_binding,
      try_except, log_text_and_reraise, os_environ,
    response_json, response_numberOfRecords, response_first_oclcNumber, py_assert, ret,
    raise, modify.
  simpl.
  destruct l as [|record [|record' l]]; simpl; [auto| |auto].
  destruct (environ s !! "WORLDCAT_METADATA_API_URL_FOR_SEARCH") as [search_url|];
    simpl; [|auto].
  destruct (environ s !! "OCLC_INSTITUTION_SYMBOL") as [symbol|]; simpl; [|auto].
  destruct (make_api_request W GET _ s) as [[response|e] s']; simpl;
    [|destruct (is_JSONDecodeError e); simpl; auto].
  destruct (resp_body response) as [[entry|entry|n records]|msg]; simpl; auto.
  destruct (Z.eqb n 0); simpl; [auto|].
  destruct (Z.eqb n 1); simpl.
  - destruct records as [|v records]; simpl; [auto|].
    split; [reflexivity|]. exists record. split; [reflexivity|]. left. eauto.
  - split; [reflexivity|]. exists record. split; [reflexivity|]. right. reflexivity.
Qed.

(** The call does the same whatever is passed for [results]. *)
Lemma process_records_ignores_results (W : World) (b : t) (first second : bool) :
  process_records W first b = process_records W second b.
Proof. reflexivity. Qed.

End WorldCatSearchBufferFacts.

(** ** The loop of the driver *)

Module SearchWorldcatFacts.
Import SearchWorldcat.

Section Loop.
Context (W : World).
Context (get_valid_record_identifier : string -> string -> result string).
Context (search_my_library_holdings_first : bool).

#[local] Abbreviation try_suite :=
  (try_suite W get_valid_record_identifier search_my_library_holdings_first).
#[local] Abbreviation try_statement :=
  (try_statement W get_valid_record_identifier search_my_library_holdings_first).
#[local] Abbreviation loop_body :=
  (loop_body W get_valid_record_identifier search_my_library_holdings_first).
#[local] Abbreviation loop :=
  (loop W get_valid_record_identifier search_my_library_holdings_first).
#[local] Abbreviation process_records :=
  (on_buffer (WorldCatSearchBuffer.process_records W search_my_library_holdings_first)).

Lemma loop_app (before after : list Record_from_input_file) (d : t) :
  loop (before ++ after) d =
    match loop before d with
    | (Exhausted, d') => loop after d'
    | r => r
    end.
Proof.
  revert d. induction before as [|row before IH]; intros d; simpl.
  - reflexivity.
  - destruct (loop_body row d) as [[| |e] d']; [apply IH | reflexivity | reflexivity].
Qed.

Lemma preserves_processed_on_buffer {A} (m : M WorldCatSearchBuffer.t A) :
  preserves records_already_processed (on_buffer m).
Proof. apply preserves_zoom. reflexivity. Qed.

(** The set of identifiers met only grows, and after the suite it holds the
    identifier of the row whenever the row has a valid one. *)
Lemma try_suite_processed row d :
  let r := try_suite row d in
  records_already_processed d ⊆ records_already_processed (snd r)
  /\ forall v, get_valid_record_identifier (mms_id row) "MMS ID" = Ok v ->
               v ∈ records_already_processed (snd r).
Proof.
  intros r. destruct r as [res d1] eqn:Hr. subst r. simpl.
  unfold SearchWorldcat.try_suite in Hr. unfold bind at 1 in Hr.
  destruct (get_valid_record_identifier (mms_id row) "MMS ID") as [v|e];
    [|inversion Hr; subst; split; [reflexivity | discriminate]].
  unfold bind at 1 in Hr. unfold gets at 1 in Hr.
  unfold bind at 1 in Hr. unfold py_assert at 1 in Hr.
  destruct (bool_decide_reflect (v ∈ records_already_processed d)) as [Hin|Hnin];
    simpl in Hr.
  - inversion Hr; subst. split; [reflexivity|]. now intros ? [= <-].
  - unfold bind at 1 in Hr. unfold modify at 1 in Hr.
    set (d0 := set_records_already_processed _ d) in Hr.
    set (rest := bind (gets _) _) in Hr.
    assert (Hrest : preserves records_already_processed rest).
    { unfold rest. apply preserves_bind; [apply preserves_gets|]. intros n.
      apply preserves_bind; [apply preserves_py_assert|]. intros _.
      apply preserves_bind; intros; apply preserves_processed_on_buffer. }
    pose proof (Hrest d0) as Hd0. rewrite Hr in Hd0. simpl in Hd0. rewrite Hd0.
    split; [apply union_subseteq_r|]. intros ? [= <-].
    apply elem_of_union_l, elem_of_singleton. reflexivity.
Qed.

Lemma try_statement_processed row d :
  records_already_processed (snd (try_statement row d))
  = records_already_processed (snd (try_suite row d)).
Proof.
  unfold SearchWorldcat.try_statement.
  destruct (try_suite row d) as [[[]|e] d1]; [reflexivity|].
  unfold except_clauses.
  destruct e; try reflexivity.
  destruct (status_starts_with_5 status_code); [|reflexivity].
  pose proof (preserves_processed_on_buffer
                (WorldCatSearchBuffer.process_records W search_my_library_holdings_first) d1)
    as Hp.
  destruct (process_records d1) as [[[]|e] d2]; simpl in *; [exact Hp|].
  destruct e; exact Hp.
Qed.

Lemma finally_clause_processed row l d :
  records_already_processed (snd (finally_clause row l d)) = records_already_processed d.
Proof.
  unfold finally_clause.
  destruct (error_occurred l), (consecutive_errors_occurred l), (uncaught l); reflexivity.
Qed.

Lemma loop_body_processed row d :
  let r := loop_body row d in
  records_already_processed d ⊆ records_already_processed (snd r)
  /\ forall v, get_valid_record_identifier (mms_id row) "MMS ID" = Ok v ->
               v ∈ records_already_processed (snd r).
Proof.
  unfold SearchWorldcat.loop_body.
  pose proof (try_statement_processed row d) as H1.
  pose proof (try_suite_processed row d) as H2. cbv zeta in H2.
  destruct (try_statement row d) as [l d1]. simpl in H1.
  rewrite finally_clause_processed, H1. exact H2.
Qed.

Lemma loop_processed rows : forall d,
  let r := loop rows d in
  records_already_processed d ⊆ records_already_processed (snd r)
  /\ (fst r = Exhausted ->
      forall row v, row ∈ rows ->
        get_valid_record_identifier (mms_id row) "MMS ID" = Ok v ->
        v ∈ records_already_processed (snd r)).
Proof.
  induction rows as [|row rows IH]; intros d; simpl.
  - split; [reflexivity|]. intros _ row v Hin. inversion Hin.
  - pose proof (loop_body_processed row d) as Hbody. cbv zeta in Hbody.
    destruct (loop_body row d) as [[| |e] d1]; simpl in *.
    + pose proof (IH d1) as [Hsub Hall]. destruct Hbody as [Hsub1 Hrow].
      split; [now transitivity (records_already_processed d1)|].
      intros Hend row' v Hin Hvalid. apply elem_of_cons in Hin as [->|Hin].
      * apply Hsub. now apply Hrow.
      * now apply (Hall Hend row').
    + split; [tauto | discriminate].
    + split; [tauto | discriminate].
Qed.

(** A row whose identifier is already in the set: the suite stops at the
    assertion, before [add] and [process_records], and leaves every object
    as it was. *)
Lemma try_suite_duplicate row d v :
  get_valid_record_identifier (mms_id row) "MMS ID" = Ok v ->
  v ∈ records_already_processed d ->
  try_suite row d
  = (Raise (AssertionError ("Record with MMS ID " +:+ v +:+ " has already been processed.")),
     d).
Proof.
  intros Hvalid Hin. unfold SearchWorldcat.try_suite, bind, gets, py_assert.
  rewrite Hvalid. now rewrite bool_decide_eq_true_2.
Qed.

(** The state in which the suite calls [process_records]: the identifier
    is in the set and the row is the one record of the buffer. *)
Definition with_row_added (v : string) (row : Record_from_input_file) (d : t) : t :=
  set_records_buffer
    (WorldCatSearchBuffer.set_record_list (fun l => l ++ [row])%list (records_buffer d))
    (set_records_already_processed (fun processed => {[v]} ∪ processed) d).

(** The suite, from a state in which the buffer is empty. *)
Lemma try_suite_unfold row d :
  WorldCatSearchBuffer.record_list (records_buffer d) = [] ->
  try_suite row d =
    match get_valid_record_identifier (mms_id row) "MMS ID" with
    | Raise e => (Raise e, d)
    | Ok v =>
        if bool_decide (v ∈ records_already_processed d) then
          (Raise (AssertionError
                    ("Record with MMS ID " +:+ v +:+ " has already been processed.")), d)
        else process_records (with_row_added v row d)
    end.
Proof.
  intros Hnil. unfold SearchWorldcat.try_suite, bind, gets, py_assert, modify.
  destruct (get_valid_record_identifier (mms_id row) "MMS ID") as [v|e]; [|reflexivity].
  destruct (bool_decide (v ∈ records_already_processed d)); simpl; [reflexivity|].
  unfold WorldCatSearchBuffer.len. simpl. rewrite Hnil. simpl.
  unfold on_buffer at 1. unfold zoom.
  destruct (search_add_cases (records_buffer (set_records_already_processed
              (fun processed => {[v]} ∪ processed) d)) row) as [[Hne _]|[_ Hadd]].
  - simpl in Hne. contradiction.
  - rewrite Hadd. reflexivity.
Qed.

(** A change of one cell of a row, as the loop body makes it. *)
Inductive cell_change : (DataFrameRow -> DataFrameRow) -> Prop :=
| change_oclc_num v : cell_change (set_oclc_num v)
| change_found_multiple : cell_change (set_found_multiple_oclc_nums true)
| change_error msg : cell_change (set_error msg).

(** What a call of [process_records] from the loop does, when the buffer
    holds the row or nothing. *)
Lemma process_records_in_loop row d :
  WorldCatSearchBuffer.record_list (records_buffer d) = [row]
  \/ WorldCatSearchBuffer.record_list (records_buffer d) = [] ->
  let r := process_records d in
  WorldCatSearchBuffer.record_list (records_buffer (snd r))
  = WorldCatSearchBuffer.record_list (records_buffer d)
  /\ match fst r with
     | Raise _ => data (snd r) = data d
     | Ok _ =>
         exists g,
           ((exists v, g = set_oclc_num v) \/ g = set_found_multiple_oclc_nums true)
           /\ data (snd r) = loc_set (Index row) g (data d)
     end.
Proof.
  intros Hlist r. subst r.
  pose proof (WorldCatSearchBufferFacts.process_records_effect W
                search_my_library_holdings_first (records_buffer d)) as H.
  cbv zeta in H. unfold on_buffer, zoom, data.
  destruct (WorldCatSearchBuffer.process_records W search_my_library_holdings_first
              (records_buffer d)) as [[[]|e] b']; simpl in *.
  - destruct H as [Hl (record & Hrec & Hdata)]. split; [exact Hl|].
    assert (record = row) as -> by (destruct Hlist as [E|E]; congruence).
    destruct Hdata as [[v Hv]|Hm]; eauto.
  - exact H.
Qed.

(** The [except] clauses, after a suite that left the DataFrame as it was
    and the buffer with the row or empty: at most one cell of the row is
    set, by the second call of [process_records] when it succeeds, and
    otherwise the error is reported in the locals. *)
Lemma except_clauses_effect row e d1 :
  WorldCatSearchBuffer.record_list (records_buffer d1) = [row]
  \/ WorldCatSearchBuffer.record_list (records_buffer d1) = [] ->
  let r := except_clauses W search_my_library_holdings_first e d1 in
  (error_occurred (fst r) = true /\ data (snd r) = data d1)
  \/ (error_occurred (fst r) = false
      /\ exists g, cell_change g /\ data (snd r) = loc_set (Index row) g (data d1)).
Proof.
  intros Hlist. unfold except_clauses.
  destruct e; simpl; auto.
  destruct (status_starts_with_5 status_code); simpl; auto.
  pose proof (process_records_in_loop row d1 Hlist) as [_ H].
  destruct (process_records d1) as [[[]|e] d2]; simpl in *.
  - right. split; [reflexivity|].
    destruct H as (g & [[v ->]| ->] & Hdata); eexists; split; try exact Hdata; constructor.
  - left. destruct e; simpl; auto.
Qed.

(** One pass through the loop body, from a state in which the buffer is
    empty: the DataFrame is as before, or has one more cell set in the row
    of the pass; and unless the pass ends the loop the buffer is empty
    again. *)
Lemma loop_body_effect row d :
  WorldCatSearchBuffer.record_list (records_buffer d) = [] ->
  let r := loop_body row d in
  (fst r = Next -> WorldCatSearchBuffer.record_list (records_buffer (snd r)) = [])
  /\ (data (snd r) = data d
      \/ exists g, cell_change g /\ data (snd r) = loc_set (Index row) g (data d)).
Proof.
  intros Hnil r. subst r.
  assert (Hfinally : forall l d1,
             let r := finally_clause row l d1 in
             (fst r = Next -> WorldCatSearchBuffer.record_list (records_buffer (snd r)) = [])
             /\ data (snd r) =
                  if error_occurred l
                  then loc_set (Index row) (set_error (default "None" (error_msg l))) (data d1)
                  else data d1).
  { intros l d1. unfold finally_clause.
    destruct (error_occurred l), (consecutive_errors_occurred l), (uncaught l); simpl;
      (split; [try discriminate; reflexivity | reflexivity]). }
  assert (Hhandled : forall e d1,
             data d1 = data d ->
             (WorldCatSearchBuffer.record_list (records_buffer d1) = [row]
              \/ WorldCatSearchBuffer.record_list (records_buffer d1) = []) ->
             let r := (let '(l, d2) := except_clauses W search_my_library_holdings_first e d1
                       in finally_clause row l d2) in
             (fst r = Next -> WorldCatSearchBuffer.record_list (records_buffer (snd r)) = [])
             /\ (data (snd r) = data d
                 \/ exists g, cell_change g /\ data (snd r) = loc_set (Index row) g (data d))).
  { intros e d1 Hdata Hlist.
    pose proof (except_clauses_effect row e d1 Hlist) as H. cbv zeta in H.
    destruct (except_clauses W search_my_library_holdings_first e d1) as [l d2].
    simpl in H. destruct (Hfinally l d2) as [Hnext Hd]. cbv zeta.
    split; [exact Hnext|]. rewrite Hd.
    destruct H as [[-> ->]|[-> (g & Hg & ->)]]; rewrite Hdata.
    - right. eexists. split; [constructor | reflexivity].
    - right. eauto. }
  unfold SearchWorldcat.loop_body, SearchWorldcat.try_statement.
  rewrite (try_suite_unfold row d Hnil).
  destruct (get_valid_record_identifier (mms_id row) "MMS ID") as [v|e].
  - destruct (bool_decide (v ∈ records_already_processed d)).
    + apply Hhandled; auto.
    + assert (Hadded : WorldCatSearchBuffer.record_list
                         (records_buffer (with_row_added v row d)) = [row]).
      { unfold with_row_added. simpl. now rewrite Hnil. }
      pose proof (process_records_in_loop row _ (or_introl Hadded)) as [Hlist H].
      rewrite Hadded in Hlist.
      destruct (process_records (with_row_added v row d)) as [[[]|e] d1];
        simpl in H, Hlist; cbv beta iota zeta.
      * destruct (Hfinally no_error d1) as [Hnext Hd]. split; [exact Hnext|].
        rewrite Hd. simpl.
        destruct H as (g & [[x ->]| ->] & ->); right; eexists;
          (split; [constructor | reflexivity]).
      * apply Hhandled; auto.
  - apply Hhandled; auto.
Qed.

End Loop.

(** *** The buckets of the output *)

(** The number of output files a row of the DataFrame goes to. *)
Definition bucket_count (r : DataFrameRow) : nat :=
  ((if bool_decide (is_Some (oclc_num r)) then 1 else 0)
   + (if bool_decide (is_Some (num_records_held_by_symbol r)
                      \/ is_Some (num_records_total r)) then 1 else 0)
   + (if bool_decide (is_Some (error r)) then 1 else 0))%nat.

(** A row that no pass of the loop has written to. *)
Definition untouched (r : DataFrameRow) : Prop :=
  oclc_num r = None /\ num_records_held_by_symbol r = None
  /\ num_records_total r = None /\ error r = None.

Lemma cell_change_bucket_count g r :
  cell_change g -> untouched r -> (bucket_count (g r) <= 1)%nat.
Proof.
  intros Hg (H1 & H2 & H3 & H4). unfold bucket_count.
  destruct Hg; simpl; rewrite ?H1, ?H2, ?H3, ?H4;
    repeat case_bool_decide; simpl; try lia;
    repeat match goal with
           | H : _ \/ _ |- _ => destruct H
           | H : is_Some None |- _ => destruct H; discriminate
           end.
Qed.

Lemma untouched_bucket_count r : untouched r -> bucket_count r = 0%nat.
Proof.
  intros (H1 & H2 & H3 & H4). unfold bucket_count. rewrite H1, H2, H3, H4.
  repeat case_bool_decide; simpl; try lia;
    repeat match goal with
           | H : _ \/ _ |- _ => destruct H
           | H : is_Some None |- _ => destruct H; discriminate
           end.
Qed.

Lemma total_is_sum (data : list DataFrameRow) :
  total_records_in_output_files data = sum_list (bucket_count <$> data).
Proof.
  unfold total_records_in_output_files, records_with_oclc_num,
    records_with_zero_or_multiple_worldcat_matches, records_with_errors.
  induction data as [|r data IH]; [reflexivity|].
  change (sum_list (bucket_count <$> r :: data))
    with (bucket_count r + sum_list (bucket_count <$> data))%nat.
  rewrite <- IH, !filter_cons. unfold bucket_count.
  repeat case_bool_decide; repeat destruct (decide _); simpl; try lia; tauto.
Qed.

(** When no row is in two files, the count of the rows equals the count of
    the rows in the files exactly when every row is in a file. *)
Lemma sum_bucket_count_cons r (data : list DataFrameRow) :
  sum_list (bucket_count <$> r :: data)
  = (bucket_count r + sum_list (bucket_count <$> data))%nat.
Proof. reflexivity. Qed.

Lemma sum_bucket_count_le (data : list DataFrameRow) :
  (forall r, r ∈ data -> (bucket_count r <= 1)%nat) ->
  (sum_list (bucket_count <$> data) <= length data)%nat.
Proof.
  induction data as [|x data IH]; intros Hmost.
  - reflexivity.
  - rewrite sum_bucket_count_cons, length_cons.
    assert ((bucket_count x <= 1)%nat) by (apply Hmost; left).
    assert ((sum_list (bucket_count <$> data) <= length data)%nat)
      by (apply IH; intros; apply Hmost; now right).
    lia.
Qed.

Lemma reconciles_iff (data : list DataFrameRow) :
  (forall r, r ∈ data -> (bucket_count r <= 1)%nat) ->
  (length data = total_records_in_output_files data
   <-> forall r, r ∈ data -> bucket_count r = 1%nat).
Proof.
  rewrite total_is_sum.
  induction data as [|r data IH]; intros Hmost.
  - split; [intros _ r Hr; inversion Hr | reflexivity].
  - rewrite sum_bucket_count_cons, length_cons.
    assert (Hr : (bucket_count r <= 1)%nat) by (apply Hmost; left).
    assert (Hrest : forall r', r' ∈ data -> (bucket_count r' <= 1)%nat)
      by (intros; apply Hmost; now right).
    pose proof (sum_bucket_count_le data Hrest) as Hle.
    pose proof (IH Hrest) as [IH1 IH2]. split.
    + intros Heq r' Hin. apply elem_of_cons in Hin as [->|Hin].
      * lia.
      * apply IH1; [lia | exact Hin].
    + intros Hall.
      assert (bucket_count r = 1%nat) by (apply Hall; left).
      assert (length data = sum_list (bucket_count <$> data))
        by (apply IH2; intros; apply Hall; now right).
      lia.
Qed.

Section LoopInvariant.
Context (W : World).
Context (get_valid_record_identifier : string -> string -> result string).
Context (search_my_library_holdings_first : bool).

(** No row is ever in two output files: each pass sets at most one cell, in
    the row of the pass, which no earlier pass has written to. *)
Lemma loop_at_most_one rows : forall d,
  NoDup (Index <$> rows) ->
  WorldCatSearchBuffer.record_list (records_buffer d) = [] ->
  (forall r, r ∈ data d -> (bucket_count r <= 1)%nat) ->
  (forall row r, row ∈ rows -> data d !! Index row = Some r -> untouched r) ->
  forall r,
    r ∈ data (snd (loop W get_valid_record_identifier search_my_library_holdings_first
                     rows d)) ->
    (bucket_count r <= 1)%nat.
Proof.
  induction rows as [|row rows IH]; intros d Hnodup Hnil Hmost Huntouched.
  - exact Hmost.
  - rewrite fmap_cons in Hnodup. apply NoDup_cons in Hnodup as [Hfresh Hnodup].
    pose proof (loop_body_effect W get_valid_record_identifier
                  search_my_library_holdings_first row d Hnil) as [Hnext Hdata].
    simpl.
    destruct (loop_body W get_valid_record_identifier search_my_library_holdings_first
                row d) as [flow d'].
    simpl in Hnext, Hdata.
    assert (Hmost' : forall r, r ∈ data d' -> (bucket_count r <= 1)%nat).
    { destruct Hdata as [->|(g & Hg & ->)]; [exact Hmost|].
      intros r Hr. apply list_elem_of_lookup in Hr as [j Hj]. unfold loc_set in Hj.
      destruct (decide (Index row = j)) as [<-|Hne].
      - rewrite list_lookup_alter_eq in Hj.
        destruct (data d !! Index row) as [r0|] eqn:E; [|discriminate].
        injection Hj as <-. apply cell_change_bucket_count; [exact Hg|].
        apply (Huntouched row r0); [left | exact E].
      - rewrite list_lookup_alter_ne in Hj by exact Hne.
        apply Hmost. now apply list_elem_of_lookup_2 in Hj. }
    destruct flow as [| |e]; simpl; [|exact Hmost'|exact Hmost'].
    apply IH; auto.
    intros row' r Hin Hlookup. apply (Huntouched row' r); [now right|].
    destruct Hdata as [<-|(g & _ & Hd)]; [exact Hlookup|].
    rewrite Hd in Hlookup. unfold loc_set in Hlookup.
    rewrite list_lookup_alter_ne in Hlookup; [exact Hlookup|].
    intros Heq. apply Hfresh. rewrite Heq. apply list_elem_of_fmap. eauto.
Qed.

(** The loop changes the DataFrame only in the rows it is given, and never
    its length. *)
Lemma loop_other_rows rows : forall d,
  WorldCatSearchBuffer.record_list (records_buffer d) = [] ->
  let r := loop W get_valid_record_identifier search_my_library_holdings_first rows d in
  length (data (snd r)) = length (data d)
  /\ forall i, i ∉ Index <$> rows -> data (snd r) !! i = data d !! i.
Proof.
  induction rows as [|row rows IH]; intros d Hnil.
  - split; reflexivity.
  - pose proof (loop_body_effect W get_valid_record_identifier
                  search_my_library_holdings_first row d Hnil) as [Hnext Hdata].
    simpl.
    destruct (loop_body W get_valid_record_identifier search_my_library_holdings_first
                row d) as [flow d'].
    simpl in Hnext, Hdata.
    assert (Hlength : length (data d') = length (data d)).
    { destruct Hdata as [->|(g & _ & ->)]; [reflexivity|].
      unfold loc_set. apply length_alter. }
    assert (Hother : forall i, i ∉ Index <$> row :: rows -> data d' !! i = data d !! i).
    { intros i Hi. rewrite fmap_cons, not_elem_of_cons in Hi. destruct Hi as [Hi _].
      destruct Hdata as [->|(g & _ & ->)]; [reflexivity|].
      unfold loc_set. now rewrite list_lookup_alter_ne. }
    destruct flow as [| |e]; simpl; [|split; assumption|split; assumption].
    destruct (IH d' (Hnext eq_refl)) as [IHlength IHother]. split.
    + now rewrite IHlength.
    + intros i Hi. rewrite IHother; [now apply Hother|].
      apply not_elem_of_cons in Hi. tauto.
Qed.

(** A loop that ends early ends at one row: the rows before it are passed
    through to the last, the pass of the row itself ends the loop, and the
    rows after it are given to no pass. *)
Lemma loop_ends rows : forall d,
  let r := loop W get_valid_record_identifier search_my_library_holdings_first rows d in
  fst r <> Exhausted ->
  exists before last after d1,
    rows = (before ++ last :: after)%list
    /\ loop W get_valid_record_identifier search_my_library_holdings_first before d
       = (Exhausted, d1)
    /\ loop_body W get_valid_record_identifier search_my_library_holdings_first last d1
       = (match fst r with Raised e => Propagate e | _ => Break end, snd r).
Proof.
  induction rows as [|row rows IH]; intros d; simpl.
  - intros Hend. now contradiction Hend.
  - destruct (loop_body W get_valid_record_identifier search_my_library_holdings_first
                row d) as [[| |e] d'] eqn:Hbody; intros Hend.
    + destruct (IH d' Hend) as (before & last & after & d1 & -> & Hbefore & Hlast).
      exists (row :: before), last, after, d1. split; [reflexivity|].
      split; [|exact Hlast]. simpl. now rewrite Hbody.
    + exists [], row, rows, d. repeat split. exact Hbody.
    + exists [], row, rows, d. repeat split. exact Hbody.
Qed.

Lemma read_input_untouched rows r : r ∈ read_input rows -> untouched r.
Proof.
  intros Hr. apply list_elem_of_lookup in Hr as [i Hi]. unfold read_input in Hi.
  rewrite list_lookup_imap in Hi. destruct (rows !! i); [|discriminate].
  injection Hi as <-. repeat split.
Qed.

Lemma itertuples_Index rows :
  Index <$> itertuples (read_input rows) = seq 0 (length rows).
Proof.
  apply list_eq. intros i. unfold itertuples, read_input.
  rewrite !list_lookup_fmap, list_lookup_imap.
  destruct (rows !! i) as [row|] eqn:E; simpl.
  - rewrite lookup_seq_lt; [reflexivity|]. now apply lookup_lt_Some in E.
  - rewrite lookup_seq_ge; [reflexivity|]. now apply lookup_ge_None in E.
Qed.

Lemma main_at_most_one rows s :
  forall r,
    r ∈ data (snd (loop W get_valid_record_identifier search_my_library_holdings_first
                     (itertuples (read_input rows)) (initial_state rows s))) ->
    (bucket_count r <= 1)%nat.
Proof.
  apply loop_at_most_one.
  - rewrite itertuples_Index. apply NoDup_seq.
  - reflexivity.
  - intros r Hr. rewrite untouched_bucket_count; [lia|].
    now apply read_input_untouched in Hr.
  - intros row r _ Hlookup. apply read_input_untouched with (rows := rows).
    now apply list_elem_of_lookup_2 in Hlookup.
Qed.

(** In a run, a row that is given to no pass is as it was read. *)
Lemma main_row_not_passed rows s passed row rest d :
  itertuples (read_input rows) = (passed ++ row :: rest)%list ->
  data d = data (snd (loop W get_valid_record_identifier search_my_library_holdings_first
                        passed (initial_state rows s))) ->
  exists r, data d !! Index row = Some r /\ untouched r /\ df_input r = row.
Proof.
  intros Hsplit Hdata.
  assert (Hnodup : NoDup (Index <$> (passed ++ row :: rest)%list)).
  { rewrite <- Hsplit, itertuples_Index. apply NoDup_seq. }
  rewrite fmap_app, fmap_cons in Hnodup. apply NoDup_app in Hnodup as (_ & Hdisjoint & _).
  assert (Hout : Index row ∉ Index <$> passed).
  { intros Hin. apply (Hdisjoint (Index row) Hin). left. }
  destruct (loop_other_rows passed (initial_state rows s) eq_refl) as [_ Hother].
  rewrite Hdata, (Hother _ Hout).
  change (data (initial_state rows s)) with (read_input rows).
  assert (Hrow : itertuples (read_input rows) !! length passed = Some row).
  { rewrite Hsplit. now rewrite list_lookup_middle. }
  unfold itertuples in Hrow. rewrite list_lookup_fmap in Hrow.
  destruct (read_input rows !! length passed) as [r|] eqn:Hr; [|discriminate].
  injection Hrow as Hrow.
  assert (Hindex : Index row = length passed).
  { unfold read_input in Hr. rewrite list_lookup_imap in Hr.
    destruct (rows !! length passed); [|discriminate].
    injection Hr as <-. now subst row. }
  rewrite Hindex. exists r. split; [exact Hr|]. split; [|exact Hrow].
  apply read_input_untouched with (rows := rows). now apply list_elem_of_lookup_2 in Hr.
Qed.

(** When the loop of a run ends early, it ends at one row, and the rows
    after it are as they were read. *)
Lemma main_rows_after rows s :
  let r := loop W get_valid_record_identifier search_my_library_holdings_first
             (itertuples (read_input rows)) (initial_state rows s) in
  fst r <> Exhausted ->
  exists before last after d1,
    itertuples (read_input rows) = (before ++ last :: after)%list
    /\ loop W get_valid_record_identifier search_my_library_holdings_first before
         (initial_state rows s) = (Exhausted, d1)
    /\ loop_body W get_valid_record_identifier search_my_library_holdings_first last d1
       = (match fst r with Raised e => Propagate e | _ => Break end, snd r)
    /\ forall row, row ∈ after ->
         exists x, data (snd r) !! Index row = Some x /\ untouched x /\ bucket_count x = 0%nat.
Proof.
  intros r Hend.
  destruct (loop_ends (itertuples (read_input rows)) (initial_state rows s) Hend)
    as (before & last & after & d1 & Hsplit & Hbefore & Hlast).
  exists before, last, after, d1. repeat split; try assumption.
  intros row Hrow. apply list_elem_of_split in Hrow as (l1 & l2 & ->).
  assert (Hrun : snd r = snd (loop W get_valid_record_identifier
                                search_my_library_holdings_first (before ++ last :: l1)
                                (initial_state rows s))).
  { subst r. rewrite Hsplit.
    rewrite (loop_app W get_valid_record_identifier search_my_library_holdings_first
               before (last :: l1 ++ row :: l2)).
    rewrite (loop_app W get_valid_record_identifier search_my_library_holdings_first
               before (last :: l1)).
    rewrite Hbefore. simpl.
    assert (Hflow : fst (loop_body W get_valid_record_identifier
                           search_my_library_holdings_first last d1) <> Next).
    { rewrite Hlast. simpl. now destruct (fst _). }
    destruct (loop_body W get_valid_record_identifier search_my_library_holdings_first
                last d1) as [[| |e] d']; [now contradiction Hflow|reflexivity|reflexivity]. }
  destruct (main_row_not_passed rows s (before ++ last :: l1) row l2 (snd r))
    as (x & Hx & Huntouched & _).
  - rewrite Hsplit. now rewrite <- app_assoc.
  - now rewrite Hrun.
  - exists x. repeat split; try assumption; try apply Huntouched.
    now apply untouched_bucket_count.
Qed.

End LoopInvariant.

End SearchWorldcatFacts.

Section DuplicateRows.
Import SearchWorldcat SearchWorldcatFacts.

(** C10. In a run that reaches a row whose MMS ID is that of an earlier row,
    and is a valid identifier, the suite of the [try] statement stops at the
    assertion on the set of identifiers already met: every object is left as
    it was, so the row is not added to the buffer and no request is sent.
    The loop body then writes "Assertion Error: ..." to the [error] cell of
    the row, which was empty as were its other result cells, and these stay
    empty; no other row of the DataFrame is changed, nor anything else but
    the buffer, which is cleared; and the loop goes on with the rows that
    follow. *)
Theorem C10_duplicate_mms_id (W : World)
  (get_valid_record_identifier : string -> string -> result string)
  (search_my_library_holdings_first : bool)
  (rows : list Record_from_input_file) (s : Session)
  (before after : list Record_from_input_file) (earlier row : Record_from_input_file)
  (d1 : t) (v : string) :
  let msg := "Record with MMS ID " +:+ v +:+ " has already been processed." in
  let d0 := initial_state rows s in
  itertuples (read_input rows) = (before ++ row :: after)%list ->
  loop W get_valid_record_identifier search_my_library_holdings_first before d0
    = (Exhausted, d1) ->
  earlier ∈ before ->
  mms_id earlier = mms_id row ->
  get_valid_record_identifier (mms_id row) "MMS ID" = Ok v ->
  try_suite W get_valid_record_identifier search_my_library_holdings_first row d1
    = (Raise (AssertionError msg), d1)
  /\ exists d2 r r',
      loop_body W get_valid_record_identifier search_my_library_holdings_first row d1
        = (Next, d2)
      /\ data d1 !! Index row = Some r
      /\ error r = None
      /\ data d2 !! Index row = Some r'
      /\ error r' = Some ("Assertion Error: " +:+ msg)
      /\ df_input r' = row
      /\ oclc_num r' = None
      /\ num_records_held_by_symbol r' = None
      /\ num_records_total r' = None
      /\ found_multiple_oclc_nums r' = found_multiple_oclc_nums r
      /\ (forall i, i <> Index row -> data d2 !! i = data d1 !! i)
      /\ data d2 = loc_set (Index row) (set_error ("Assertion Error: " +:+ msg)) (data d1)
      /\ WorldCatSearchBuffer.session (records_buffer d2)
         = WorldCatSearchBuffer.session (records_buffer d1)
      /\ WorldCatSearchBuffer.record_list (records_buffer d2) = []
      /\ records_already_processed d2 = records_already_processed d1
      /\ loop W get_valid_record_identifier search_my_library_holdings_first
           (before ++ row :: after) d0
         = loop W get_valid_record_identifier search_my_library_holdings_first after d2.
Proof.
  intros msg d0 Hsplit Hbefore Hearlier Hsame Hvalid.
  assert (Hin : v ∈ records_already_processed d1).
  { pose proof (loop_processed W get_valid_record_identifier
                  search_my_library_holdings_first before d0) as Hp.
    cbv zeta in Hp. rewrite Hbefore in Hp. destruct Hp as [_ Hall].
    apply (Hall eq_refl earlier v Hearlier). now rewrite Hsame. }
  pose proof (try_suite_duplicate W get_valid_record_identifier
                search_my_library_holdings_first row d1 v Hvalid Hin) as Hsuite.
  split; [exact Hsuite|].
  assert (Hbody : exists d2,
             loop_body W get_valid_record_identifier search_my_library_holdings_first row d1
             = (Next, d2)
             /\ data d2 = loc_set (Index row) (set_error ("Assertion Error: " +:+ msg)) (data d1)
             /\ WorldCatSearchBuffer.session (records_buffer d2)
                = WorldCatSearchBuffer.session (records_buffer d1)
             /\ WorldCatSearchBuffer.record_list (records_buffer d2) = []
             /\ records_already_processed d2 = records_already_processed d1).
  { unfold loop_body, try_statement. rewrite Hsuite.
    unfold finally_clause, error_with. simpl. eexists. split; [reflexivity|].
    repeat split. }
  destruct Hbody as (d2 & Hrun & Hdata & Hsession & Hlist & Hprocessed).
  destruct (main_row_not_passed W get_valid_record_identifier
              search_my_library_holdings_first rows s before row after d1 Hsplit)
    as (r & Hr & (Hoclc & Hheld & Htotal & Herror) & Hinput).
  { fold d0. now rewrite Hbefore. }
  exists d2, r, (set_error ("Assertion Error: " +:+ msg) r).
  split; [exact Hrun|]. split; [exact Hr|]. split; [exact Herror|].
  split. { rewrite Hdata. unfold loc_set. rewrite list_lookup_alter_eq, Hr. reflexivity. }
  split; [reflexivity|]. split; [exact Hinput|]. split; [exact Hoclc|].
  split; [exact Hheld|]. split; [exact Htotal|]. split; [reflexivity|].
  split. { intros i Hi. rewrite Hdata. unfold loc_set. now rewrite list_lookup_alter_ne. }
  repeat split; try assumption.
  rewrite loop_app, Hbefore. simpl. now rewrite Hrun.
Qed.

End DuplicateRows.

(** ** The end of a run *)

Section EndOfRun.
Import SearchWorldcat SearchWorldcatFacts.

Definition search_session : Session :=
  Examples.session
    [("OCLC_INSTITUTION_SYMBOL", "XYZ");
     ("WORLDCAT_METADATA_API_URL_FOR_SEARCH",
      "https://americas.metadata.api.oclc.org/worldcat/search/v1");
     ("WORLDCAT_METADATA_API_KEY", "key");
     ("WORLDCAT_METADATA_API_SECRET", "secret");
     ("WORLDCAT_METADATA_API_ACCESS_TOKEN", "tk_old");
     ("WORLDCAT_METADATA_API_ACCESS_TOKEN_EXPIRES_AT", "1633044487.0");
     ("WORLDCAT_METADATA_API_ACCESS_TOKEN_TYPE", "bearer")].

(** A buffer that has the three attributes that [main] reads for its log
    messages; nothing after the messages depends on their values. *)
Definition some_request_counters (records_buffer : WorldCatSearchBuffer.t)
  : result (Z * Z * Z) :=
  Ok (0, 0, 0)%Z.

(** Every cell with an identifier is taken as it stands. *)
Definition identifier_as_given (record_identifier identifier_name : string) : result string :=
  Ok record_identifier.

Definition two_rows : list Record_from_input_file :=
  [Examples.input_row "991" "" "n78890351" ""; Examples.input_row "992" "" "n79021164" ""].

Definition service_unavailable : Response :=
  Examples.response 503 "Service Unavailable" (Undecodable "Expecting value").

(** C8, as stated, fails on a run that is halted: with two rows and a
    server that answers 503 to the request of the first row and to its
    retry, the loop ends at the first row and the three files are written
    with the second row in none of them, one row of two in all.  With the
    buffer of the module [main] then ends by the [AttributeError] of its log
    messages, before the check; with a buffer that has the attributes the
    check is made and raises. *)
Lemma C8_counterexample :
  let W := Examples.world (fun _ => Ok service_unavailable) (0 # 1)%Q in
  let run := main W identifier_as_given false float_example no_request_counters
               two_rows search_session in
  let checked := main W identifier_as_given false float_example some_request_counters
                   two_rows search_session in
  output_files_written run = true
  /\ length (run_data run) = 2%nat
  /\ total_records_in_output_files (run_data run) = 1%nat
  /\ bucket_count <$> run_data run = [1; 0]%nat
  /\ run_result run
     = Raise (PyException
                "'WorldCatSearchBuffer' object has no attribute 'num_api_requests_made'")
  /\ run_data checked = run_data run
  /\ output_files_written checked = true
  /\ run_result checked
     = Raise (AssertionError
                ("Total records in input file (2) do not equal total records in "
                 +:+ "output files (1)." +:+ newline)).
Proof. vm_compute. repeat split; reflexivity. Qed.

(** C8, amended. In a run that reaches the loop, the DataFrame keeps one
    row for each row of the input, and at the end no row is in more than one
    of the three output files.  If the loop ends early, it ends in the pass
    of one row, after the rows before it were passed through, and every row
    after that one is in the DataFrame as it was read, in none of the files.
    When the loop ends by exhausting the rows or by the halt, [main] writes
    the three files and then reads the request counters of the buffer for
    its log messages: if that raises, [main] ends with the exception and
    makes no check; otherwise it asserts that the number of rows of the
    input equals the number of rows in the three files, the assertion holds
    exactly when every row is in a file, and [main] ends with its
    [AssertionError] otherwise.  When the loop ends by an exception that no
    handler caught, the files are not written and no check is made. *)
Theorem C8_reconciliation_amended (W : World)
  (get_valid_record_identifier : string -> string -> result string)
  (search_my_library_holdings_first : bool)
  (float : string -> option Q)
  (request_counters : WorldCatSearchBuffer.t -> result (Z * Z * Z))
  (rows : list Record_from_input_file) (s s1 : Session) (symbol : string)
  (args : OAuth2SessionArgs) :
  let run := main W get_valid_record_identifier search_my_library_holdings_first
               float request_counters rows s in
  let d0 := initial_state rows s1 in
  let ended := loop W get_valid_record_identifier search_my_library_holdings_first
                 (itertuples (read_input rows)) d0 in
  environ s !! "OCLC_INSTITUTION_SYMBOL" = Some symbol ->
  RecordsBuffer.__init__ float s = (Ok args, s1) ->
  run_data run = data (snd ended)
  /\ length (run_data run) = length rows
  /\ (forall r, r ∈ run_data run -> (bucket_count r <= 1)%nat)
  /\ total_records_in_output_files (run_data run) = sum_list (bucket_count <$> run_data run)
  /\ (fst ended <> Exhausted ->
      exists before last after d1,
        itertuples (read_input rows) = (before ++ last :: after)%list
        /\ loop W get_valid_record_identifier search_my_library_holdings_first before d0
           = (Exhausted, d1)
        /\ loop_body W get_valid_record_identifier search_my_library_holdings_first last d1
           = (match fst ended with Raised e => Propagate e | _ => Break end, snd ended)
        /\ forall row, row ∈ after ->
             exists r, run_data run !! Index row = Some r
                       /\ untouched r /\ bucket_count r = 0%nat)
  /\ match fst ended with
     | Raised e => output_files_written run = false /\ run_result run = Raise e
     | _ =>
         output_files_written run = true
         /\ match request_counters (records_buffer (snd ended)) with
            | Raise e => run_result run = Raise e
            | Ok _ =>
                (run_result run = Ok tt
                 <-> forall r, r ∈ run_data run -> bucket_count r = 1%nat)
                /\ (run_result run <> Ok tt ->
                    exists msg, run_result run = Raise (AssertionError msg))
            end
     end.
Proof.
  intros run d0 ended Hsymbol Hinit.
  pose proof (main_at_most_one W get_valid_record_identifier
                search_my_library_holdings_first rows s1) as Hmost.
  assert (Hcheck : forall d : t,
             (forall r, r ∈ data d -> (bucket_count r <= 1)%nat) ->
             let result :=
               fst (py_assert (S := unit)
                      (Nat.eqb (length (data d)) (total_records_in_output_files (data d)))
                      ("Total records in input file (" +:+ pretty (length (data d))
                       +:+ ") do not equal total records in output files ("
                       +:+ pretty (total_records_in_output_files (data d)) +:+ ")."
                       +:+ newline) tt) in
             (result = Ok tt <-> forall r, r ∈ data d -> bucket_count r = 1%nat)
             /\ (result <> Ok tt -> exists msg, result = Raise (AssertionError msg))).
  { intros d Hd result. subst result. unfold py_assert.
    pose proof (reconciles_iff (data d) Hd) as Hiff.
    destruct (Nat.eqb_spec (length (data d)) (total_records_in_output_files (data d)))
      as [Heq|Hne]; simpl.
    - split; [|congruence]. split; [intros _; now apply Hiff | reflexivity].
    - split; [|eauto]. split; [discriminate|]. intros Hall. now apply Hiff in Hall. }
  pose proof (main_rows_after W get_valid_record_identifier
                search_my_library_holdings_first rows s1) as Hafter.
  destruct (loop_other_rows W get_valid_record_identifier search_my_library_holdings_first
              (itertuples (read_input rows)) (initial_state rows s1) eq_refl)
    as [Hlength _].
  change (data (initial_state rows s1)) with (read_input rows) in Hlength.
  unfold read_input in Hlength at 2. rewrite length_imap in Hlength.
  cbv zeta in Hafter.
  assert (Hdata : run_data run = data (snd ended)
                  /\ match fst ended with
                     | Raised e => output_files_written run = false /\ run_result run = Raise e
                     | _ =>
                         output_files_written run = true
                         /\ run_result run
                            = match request_counters (records_buffer (snd ended)) with
                              | Raise e => Raise e
                              | Ok _ =>
                                  fst (py_assert (S := unit)
                                         (Nat.eqb (length (data (snd ended)))
                                            (total_records_in_output_files
                                               (data (snd ended))))
                                         ("Total records in input file ("
                                          +:+ pretty (length (data (snd ended)))
                                          +:+ ") do not equal total records in output files ("
                                          +:+ pretty (total_records_in_output_files
                                                        (data (snd ended)))
                                          +:+ ")." +:+ newline) tt)
                              end
                     end).
  { subst run ended d0. unfold main, os_environ. rewrite Hsymbol, Hinit.
    change (itertuples (data (initial_state rows s1))) with (itertuples (read_input rows)).
    destruct (loop W get_valid_record_identifier search_my_library_holdings_first
                (itertuples (read_input rows)) (initial_state rows s1)) as [[| |e] d];
      simpl; repeat split. }
  destruct Hdata as [Hdata Hresult]. fold d0 in Hmost, Hafter, Hlength. fold ended in Hmost,
    Hafter, Hlength.
  rewrite Hdata.
  split; [reflexivity|]. split; [exact Hlength|]. split; [exact Hmost|].
  split; [apply total_is_sum|]. split; [exact Hafter|].
  pose proof (Hcheck (snd ended) Hmost) as Hchecked. cbv zeta in Hchecked.
  destruct (fst ended) as [| |e].
  - destruct Hresult as [Hfiles Hresult]. split; [exact Hfiles|].
    destruct (request_counters (records_buffer (snd ended))); rewrite Hresult;
      [exact Hchecked | reflexivity].
  - destruct Hresult as [Hfiles Hresult]. split; [exact Hfiles|].
    destruct (request_counters (records_buffer (snd ended))); rewrite Hresult;
      [exact Hchecked | reflexivity].
  - exact Hresult.
Qed.

End EndOfRun.

(** ** The retry after a server error *)

Section RetryPolicy.
Import SearchWorldcat SearchWorldcatFacts.
Context (W : World).
Context (get_valid_record_identifier : string -> string -> result string).
Context (search_my_library_holdings_first : bool).

(** [data.loc[row.Index, 'error'] = error_msg] *)
Definition with_error (row : Record_from_input_file) (msg : string) (d : t) : t :=
  set_records_buffer
    (WorldCatSearchBuffer.set_dataframe (loc_set (Index row) (set_error msg))
       (records_buffer d)) d.

(** [records_buffer.remove_all_records()] *)
Definition cleared (d : t) : t :=
  set_records_buffer
    (WorldCatSearchBuffer.set_record_list (fun _ => []) (records_buffer d)) d.

(** Among the statuses that make an [HTTPError], the test on the first
    digit picks the server errors. *)
Lemma status_starts_with_5_spec (code : Z) :
  400 <= code < 600 ->
  status_starts_with_5 (Some code) = bool_decide (500 <= code).
Proof.
  intros Hrange.
  assert (Hall : forallb (fun c => Bool.eqb (status_starts_with_5 (Some c))
                                     (bool_decide (500 <= c)))
                   (seqZ 400 200) = true) by (vm_compute; reflexivity).
  rewrite forallb_forall in Hall.
  specialize (Hall code). rewrite <- list_elem_of_In, elem_of_seqZ in Hall.
  apply Bool.eqb_prop, Hall. lia.
Qed.

(** What the loop body does after a suite that raised [HTTPError]: without
    a server status the error is recorded and the loop goes on; with one,
    [process_records] is called once more, in the state the failed call
    left, and the pass ends by the outcome of that call. *)
Lemma loop_body_after_http_error row d status_code first_http_err d1 :
  try_suite W get_valid_record_identifier search_my_library_holdings_first row d
    = (Raise (HTTPError status_code first_http_err), d1) ->
  loop_body W get_valid_record_identifier search_my_library_holdings_first row d =
    if status_starts_with_5 status_code then
      match on_buffer (WorldCatSearchBuffer.process_records W
                         search_my_library_holdings_first) d1 with
      | (Ok _, d2) => (Next, cleared d2)
      | (Raise (HTTPError _ second_http_err), d2) =>
          (Break, with_error row ("HTTP Error: " +:+ second_http_err) d2)
      | (Raise e, d2) =>
          (Propagate e, cleared (with_error row ("HTTP Error: " +:+ first_http_err) d2))
      end
    else (Next, cleared (with_error row ("HTTP Error: " +:+ first_http_err) d1)).
Proof.
  intros Hsuite. unfold loop_body, try_statement. rewrite Hsuite.
  unfold except_clauses.
  destruct (status_starts_with_5 status_code); [|reflexivity].
  destruct (on_buffer _ d1) as [[[]|e] d2]; [reflexivity|].
  destruct e; reflexivity.
Qed.

(** A suite that raises leaves the DataFrame as it was, and the buffer with
    the row or empty: the second call works on the record of the first. *)
Lemma failed_suite_state row d e d1 :
  WorldCatSearchBuffer.record_list (records_buffer d) = [] ->
  try_suite W get_valid_record_identifier search_my_library_holdings_first row d
    = (Raise e, d1) ->
  data d1 = data d
  /\ (WorldCatSearchBuffer.record_list (records_buffer d1) = [row]
      \/ d1 = d).
Proof.
  intros Hnil Hsuite.
  rewrite (try_suite_unfold W get_valid_record_identifier search_my_library_holdings_first
             row d Hnil) in Hsuite.
  destruct (get_valid_record_identifier (mms_id row) "MMS ID") as [v|e'];
    [|inversion Hsuite; auto].
  destruct (bool_decide (v ∈ records_already_processed d)); [inversion Hsuite; auto|].
  assert (Hadded : WorldCatSearchBuffer.record_list
                     (records_buffer (with_row_added v row d)) = [row]).
  { unfold with_row_added. simpl. now rewrite Hnil. }
  pose proof (process_records_in_loop W search_my_library_holdings_first row _
                (or_introl Hadded)) as [Hlist H].
  rewrite Hsuite in Hlist, H. cbn [fst snd] in Hlist, H. rewrite Hadded in Hlist. auto.
Qed.

(** A retry that fails otherwise than by [HTTPError] ends the run: the
    exception leaves the loop and [main], and the files are not written. *)
Lemma uncaught_in_retry_ends_main float request_counters rows s symbol args s1 e d :
  environ s !! "OCLC_INSTITUTION_SYMBOL" = Some symbol ->
  RecordsBuffer.__init__ float s = (Ok args, s1) ->
  loop W get_valid_record_identifier search_my_library_holdings_first
    (itertuples (read_input rows)) (initial_state rows s1) = (Raised e, d) ->
  let run := main W get_valid_record_identifier search_my_library_holdings_first
               float request_counters rows s in
  run_result run = Raise e /\ output_files_written run = false.
Proof.
  intros Hsymbol Hinit Hloop. unfold main, os_environ. rewrite Hsymbol, Hinit.
  change (itertuples (data (initial_state rows s1))) with (itertuples (read_input rows)).
  rewrite Hloop. split; reflexivity.
Qed.

End RetryPolicy.

Definition unavailable_then_no_match : World :=
  Examples.world
    (fun n => match n with
              | O => Ok service_unavailable
              | _ => Ok (Examples.response 200 "OK" (Decoded (BriefBibs 0 [])))
              end)
    (0 # 1)%Q.

(** C3, at the failing input: two rows, a server that answers 503 to the
    first request and to the retry 200 with no match.  The retry raises the
    [AssertionError] of the empty result inside the handler of the first
    [HTTPError]; no clause catches it, the loop and [main] end with it after
    two requests, the second row is never processed and no output file is
    written.  The run is halted although no second HTTP error occurred. *)
Theorem C3_retry_failing_without_http_error_ends_run :
  let run := SearchWorldcat.main unavailable_then_no_match identifier_as_given false
               float_example SearchWorldcat.no_request_counters two_rows search_session in
  SearchWorldcat.run_result run = Raise (AssertionError "No records found in WorldCat.")
  /\ SearchWorldcat.output_files_written run = false
  /\ length (sent (SearchWorldcat.run_session run)) = 2%nat
  /\ error <$> SearchWorldcat.run_data run
     = [Some ("HTTP Error: 503 Server Error: Service Unavailable for url: "
              +:+ "https://americas.metadata.api.oclc.org/worldcat/search/v1/brief-bibs"
              +:+ "?q=nl:n78890351&heldBySymbol=XYZ&transactionID=XYZ_2021-09-30T22:00:00Z");
        None]
  /\ SearchWorldcatFacts.bucket_count <$> SearchWorldcat.run_data run = [1; 0]%nat.
Proof. vm_compute. repeat split; reflexivity. Qed.

(** ** The request and the outcome of a search *)

Section Search.
Import WorldCatSearchBuffer.

(** The one URL that a search is sent to. *)
Definition search_url_of (search_url symbol : string) (record : Record_from_input_file)
  : string :=
  search_url +:+ "/brief-bibs" +:+ "?q=nl:" +:+ lccn record +:+ "&heldBySymbol=" +:+ symbol.

(** The session after [process_records] is the session after its call of
    [make_api_request]. *)
Lemma search_session_after (W : World) {R} (results : R) (b : t) record search_url symbol :
  record_list b = [record] ->
  environ (session b) !! "WORLDCAT_METADATA_API_URL_FOR_SEARCH" = Some search_url ->
  environ (session b) !! "OCLC_INSTITUTION_SYMBOL" = Some symbol ->
  session (snd (process_records W results b))
  = snd (make_api_request W GET (search_url_of search_url symbol record) (session b)).
Proof.
  destruct b as [l data s]. simpl. intros -> Hsearch Hsymbol.
  unfold process_records, first_record, len, bind, zoom, gets, try_except_binding,
      try_except, log_text_and_reraise, os_environ,
    response_json, response_numberOfRecords, response_first_oclcNumber, py_assert, ret,
    raise, modify, search_url_of.
  simpl. rewrite Hsearch. simpl. rewrite Hsymbol. simpl.
  destruct (make_api_request W GET _ s) as [[response|e] s']; simpl;
    [|destruct (is_JSONDecodeError e); reflexivity].
  destruct (resp_body response) as [[entry|entry|n records]|msg]; simpl; try reflexivity.
  destruct (Z.eqb n 0); simpl; [reflexivity|].
  destruct (Z.eqb n 1); simpl; [|reflexivity].
  destruct records; reflexivity.
Qed.

(** Whatever the caller passes for the search order and whichever other
    identifiers the record has, every request of a search asks for the raw
    LCCN of the record, held by the institution. *)
Lemma search_request_url (W : World) (results : bool) (b : t) record search_url symbol :
  record_list b = [record] ->
  environ (session b) !! "WORLDCAT_METADATA_API_URL_FOR_SEARCH" = Some search_url ->
  environ (session b) !! "OCLC_INSTITUTION_SYMBOL" = Some symbol ->
  exists new,
    sent (session (snd (process_records W results b))) = (sent (session b) ++ new)%list
    /\ new <> []
    /\ forall r, r ∈ new ->
         req_url r =
           if String.eqb (get_transaction_id W (session b)) "" then
             search_url_of search_url symbol record
           else search_url_of search_url symbol record +:+ "&transactionID="
                +:+ get_transaction_id W (session b).
Proof.
  intros Hl Hsearch Hsymbol.
  rewrite (search_session_after W results b record search_url symbol Hl Hsearch Hsymbol).
  apply make_api_request_urls.
Qed.

(** The outcome of a search whose response decodes to a count and a list
    of brief records: a count of zero is an [AssertionError], a count of one
    sets [oclc_num] in the row of the record, any other count sets
    [found_multiple_oclc_nums] there and leaves [oclc_num] alone. *)
Lemma search_outcome (W : World) (results : bool) (b : t) record search_url symbol
  response s' n records :
  record_list b = [record] ->
  environ (session b) !! "WORLDCAT_METADATA_API_URL_FOR_SEARCH" = Some search_url ->
  environ (session b) !! "OCLC_INSTITUTION_SYMBOL" = Some symbol ->
  make_api_request W GET (search_url_of search_url symbol record) (session b)
    = (Ok response, s') ->
  resp_body response = Decoded (BriefBibs n records) ->
  process_records W results b =
    if Z.eqb n 0 then
      (Raise (AssertionError "No records found in WorldCat."), set_session s' b)
    else if Z.eqb n 1 then
      match records with
      | oclcNumber :: _ =>
          (Ok tt, set_dataframe (loc_set (Index record) (set_oclc_num oclcNumber))
                    (set_session s' b))
      | [] => (Raise (IndexError "list index out of range"), set_session s' b)
      end
    else
      (Ok tt, set_dataframe (loc_set (Index record) (set_found_multiple_oclc_nums true))
                (set_session s' b)).
Proof.
  destruct b as [l data s]. simpl. intros -> Hsearch Hsymbol Hreq Hbody.
  unfold process_records, first_record, len, bind, zoom, gets, try_except_binding,
      try_except, log_text_and_reraise, os_environ,
    response_json, response_numberOfRecords, response_first_oclcNumber, py_assert, ret,
    raise, modify, search_url_of in *.
  simpl. rewrite Hsearch. simpl. rewrite Hsymbol. simpl. rewrite Hreq. simpl.
  rewrite Hbody. simpl.
  destruct (Z.eqb n 0); simpl; [reflexivity|].
  destruct (Z.eqb n 1); simpl; [|reflexivity].
  destruct records; reflexivity.
Qed.

End Search.

(** C5, at the failing input: a record with a fixed LCCN and an ISBN and no
    raw LCCN, searched without the request to search the holdings of the
    library first.  The one request that [process_records] sends asks for
    the empty raw LCCN, filtered by the institution: neither the fixed LCCN
    nor the ISBN is searched for, and the filter is applied unasked. *)
Theorem C5_search_ignores_identifier_priority :
  let W := Examples.world
             (fun _ => Ok (Examples.response 200 "OK" (Decoded (BriefBibs 1 ["40"]))))
             (0 # 1)%Q in
  let record := Examples.input_row "991" "2001012345" "" "9780131103627" in
  let b := {| WorldCatSearchBuffer.record_list := [record];
              WorldCatSearchBuffer.dataframe_for_input_file :=
                SearchWorldcat.read_input [record];
              WorldCatSearchBuffer.session := search_session |} in
  req_url <$> sent (WorldCatSearchBuffer.session
                      (snd (WorldCatSearchBuffer.process_records W false b)))
  = ["https://americas.metadata.api.oclc.org/worldcat/search/v1/brief-bibs"
     +:+ "?q=nl:&heldBySymbol=XYZ&transactionID=XYZ_2021-09-30T22:00:00Z"]
  /\ WorldCatSearchBuffer.process_records W false b
     = WorldCatSearchBuffer.process_records W true b.
Proof. vm_compute. split; reflexivity. Qed.

(** ** The theorems at concrete inputs *)

Section Witnesses.

(** Three identifiers, answered current, merged and not found, in an order
    that is not the order of the batch. *)
Definition three_entries : list CheckEntry :=
  [{| ce_requestedOclcNumber := "2"; ce_currentOclcNumber := "20";
      ce_found := true; ce_merged := true |};
   {| ce_requestedOclcNumber := "3"; ce_currentOclcNumber := "";
      ce_found := false; ce_merged := false |};
   {| ce_requestedOclcNumber := "1"; ce_currentOclcNumber := "1";
      ce_found := true; ce_merged := false |}].

Definition three_identifiers : dict string := [("1", "991"); ("2", "992"); ("3", "993")].


Definition holdings_results : gmap string Z :=
  list_to_map [("num_records_updated", 0);
               ("num_records_with_no_update_needed", 0);
               ("num_records_with_errors", 0)].

Definition holdings_entries : list HoldingEntry :=
  [{| he_requestedOclcNumber := "2"; he_currentOclcNumber := "2";
      he_httpStatusCode := "HTTP 409 Conflict"; he_errorDetail := "Holding already set" |};
   {| he_requestedOclcNumber := "1"; he_currentOclcNumber := "10";
      he_httpStatusCode := "HTTP 200 OK"; he_errorDetail := "" |};
   {| he_requestedOclcNumber := "3"; he_currentOclcNumber := "3";
      he_httpStatusCode := "HTTP 404 Not Found"; he_errorDetail := "Record not found" |}].

Definition holdings_world : World :=
  Examples.world
    (fun _ => Ok (Examples.response 200 "OK" (Decoded (HoldingsDatalist holdings_entries))))
    (0 # 1)%Q.

Definition holdings_buffer : WorldCatRecordsBuffer.t :=
  {| WorldCatRecordsBuffer.oclc_num_set := {["1"; "2"; "3"]};
     WorldCatRecordsBuffer.set_or_unset_choice := "set";
     WorldCatRecordsBuffer.cascade := "0";
     WorldCatRecordsBuffer.records_with_no_update_needed := [];
     WorldCatRecordsBuffer.records_updated := [];
     WorldCatRecordsBuffer.records_with_errors := [];
     WorldCatRecordsBuffer.session :=
       Examples.session [("WORLDCAT_METADATA_API_URL", "https://worldcat.org")] |}.

Lemma C4_set_unset_classification_witness :
  exists b' results',
    WorldCatRecordsBuffer.process_records holdings_world (holdings_buffer, holdings_results)
      = (Ok tt, (b', results'))
    /\ WorldCatRecordsBuffer.records_updated b'
       = [["Requested OCLC Number"; "New OCLC Number (if applicable)"; "Warning"];
          ["1"; "10";
           "Warning: OCLC number 1 has been updated to 10. Consider updating Alma record."]]
    /\ WorldCatRecordsBuffer.records_with_no_update_needed b'
       = [["Requested OCLC Number"; "New OCLC Number (if applicable)"; "Error"];
          ["2"; ""; "Problem with Set Holding API response: Holding already set. "]]
    /\ WorldCatRecordsBuffer.records_with_errors b'
       = [["Requested OCLC Number"; "New OCLC Number (if applicable)"; "Error"];
          ["3"; "";
           "Problem with Set Holding API response: HTTP 404 Not Found: Record not found. "]]
    /\ results' !! "num_records_updated" = Some 1.
Proof.
  destruct (C4_set_unset_classification holdings_world holdings_buffer holdings_results
              "https://worldcat.org"
              (Examples.response 200 "OK" (Decoded (HoldingsDatalist holdings_entries)))
              (snd (make_api_request holdings_world POST
                      ("https://worldcat.org/ih/datalist?oclcNumbers="
                       +:+ String.concat ","
                             (elements (WorldCatRecordsBuffer.oclc_num_set holdings_buffer)))
                      (WorldCatRecordsBuffer.session holdings_buffer)))
              holdings_entries eq_refl eq_refl eq_refl)
    as [(b' & results' & Hrun & _ & Hbucket) _].
  - intros []; vm_compute; eauto.
  - exists b', results'. split; [exact Hrun|].
    destruct (Hbucket WorldCatRecordsBuffer.Updated) as [Hupdated Hn1].
    destruct (Hbucket WorldCatRecordsBuffer.NoUpdateNeeded) as [Hnone _].
    destruct (Hbucket WorldCatRecordsBuffer.Error) as [Herror _].
    repeat split; assumption.
Defined.

Definition one_match : World :=
  Examples.world
    (fun _ => Ok (Examples.response 200 "OK" (Decoded (BriefBibs 1 ["40"])))) (0 # 1)%Q.

(** What the constructor reads in [search_session]. *)
Definition search_credentials : OAuth2SessionArgs :=
  {| auth := ("key", "secret"); client_id := "key";
     scope := ["WorldCatMetadataAPI refresh_token"];
     token := {| tok_access_token := "tk_old"; tok_token_type := "bearer";
                 tok_expires_at := (1633044487 # 1)%Q;
                 tok_refresh_token := None;
                 tok_refresh_token_expires_at := None |} |}.

Lemma C8_reconciliation_amended_witness :
  let W := Examples.world (fun _ => Ok service_unavailable) (0 # 1)%Q in
  let run := SearchWorldcat.main W identifier_as_given false float_example
               some_request_counters two_rows search_session in
  environ search_session !! "OCLC_INSTITUTION_SYMBOL" = Some "XYZ"
  /\ RecordsBuffer.__init__ float_example search_session
     = (Ok search_credentials, search_session)
  /\ fst (SearchWorldcat.loop W identifier_as_given false
            (SearchWorldcat.itertuples (SearchWorldcat.read_input two_rows))
            (SearchWorldcat.initial_state two_rows search_session))
     = SearchWorldcat.Halted
  /\ length (SearchWorldcat.run_data run) = 2%nat
  /\ (forall r, r ∈ SearchWorldcat.run_data run ->
                (SearchWorldcatFacts.bucket_count r <= 1)%nat)
  /\ (exists r, SearchWorldcat.run_data run !! 1%nat = Some r
                /\ SearchWorldcatFacts.bucket_count r = 0%nat)
  /\ SearchWorldcat.output_files_written run = true
  /\ (exists msg, SearchWorldcat.run_result run = Raise (AssertionError msg)).
Proof.
  intros W run.
  assert (Hended : fst (SearchWorldcat.loop W identifier_as_given false
                          (SearchWorldcat.itertuples (SearchWorldcat.read_input two_rows))
                          (SearchWorldcat.initial_state two_rows search_session))
                   = SearchWorldcat.Halted) by (vm_compute; reflexivity).
  assert (Hinit : RecordsBuffer.__init__ float_example search_session
                  = (Ok search_credentials, search_session)) by (vm_compute; reflexivity).
  pose proof (C8_reconciliation_amended W identifier_as_given false float_example
                some_request_counters two_rows search_session search_session "XYZ"
                search_credentials eq_refl Hinit) as H.
  cbv zeta in H. fold run in H.
  destruct H as (_ & Hlength & Hmost & _ & Hafter & Hcheck).
  rewrite Hended in Hafter, Hcheck.
  split; [reflexivity|].
  split; [exact Hinit|].
  split; [exact Hended|]. split; [exact Hlength|]. split; [exact Hmost|].
  unfold some_request_counters in Hcheck. destruct Hcheck as (Hfiles & _ & Hraised).
  split; [|split; [exact Hfiles | apply Hraised; vm_compute; discriminate]].
  destruct (Hafter ltac:(discriminate)) as (before & last & after & d1 & Hsplit & Hbefore
                                            & _ & Hrows).
  destruct before as [|first [|second before]].
  - injection Hsplit as _ Hsplit. subst after.
    destruct (Hrows _ (list_elem_of_here _ _)) as (r & Hr & _ & Hnone).
    exists r. split; [exact Hr | exact Hnone].
  - injection Hsplit as Hfirst _. subst first.
    assert (Hnot : fst (SearchWorldcat.loop W identifier_as_given false
                          [SearchWorldcat.with_Index 0
                             (Examples.input_row "991" "" "n78890351" "")]
                          (SearchWorldcat.initial_state two_rows search_session))
                   = SearchWorldcat.Halted) by (vm_compute; reflexivity).
    rewrite Hbefore in Hnot. discriminate.
  - injection Hsplit as _ _ Hsplit. destruct before; discriminate.
Defined.

Definition same_identifier_twice : list Record_from_input_file :=
  [SearchWorldcat.with_Index 0 (Examples.input_row "991" "" "n78890351" "");
   SearchWorldcat.with_Index 1 (Examples.input_row "991" "" "n78890351" "")].

Lemma C10_duplicate_mms_id_witness :
  let first := SearchWorldcat.with_Index 0 (Examples.input_row "991" "" "n78890351" "") in
  let second := SearchWorldcat.with_Index 1 (Examples.input_row "991" "" "n78890351" "") in
  let d0 := SearchWorldcat.initial_state same_identifier_twice search_session in
  let d1 := snd (SearchWorldcat.loop one_match identifier_as_given false [first] d0) in
  let d2 := snd (SearchWorldcat.loop_body one_match identifier_as_given false second d1) in
  SearchWorldcat.itertuples (SearchWorldcat.read_input same_identifier_twice)
    = [first; second]
  /\ SearchWorldcat.loop one_match identifier_as_given false [first] d0
     = (SearchWorldcat.Exhausted, d1)
  /\ SearchWorldcat.try_suite one_match identifier_as_given false second d1
     = (Raise (AssertionError "Record with MMS ID 991 has already been processed."), d1)
  /\ (exists r, SearchWorldcat.data d1 !! 1%nat = Some r /\ error r = None)
  /\ (exists r',
        SearchWorldcat.data d2 !! 1%nat = Some r'
        /\ error r'
           = Some "Assertion Error: Record with MMS ID 991 has already been processed."
        /\ oclc_num r' = None)
  /\ SearchWorldcat.data d2 !! 0%nat = SearchWorldcat.data d1 !! 0%nat
  /\ sent (WorldCatSearchBuffer.session (SearchWorldcat.records_buffer d2))
     = sent (WorldCatSearchBuffer.session (SearchWorldcat.records_buffer d1)).
Proof.
  intros first second d0 d1 d2.
  assert (Hrows : SearchWorldcat.itertuples (SearchWorldcat.read_input same_identifier_twice)
                  = ([first] ++ second :: [])%list) by reflexivity.
  assert (Hreached : SearchWorldcat.loop one_match identifier_as_given false [first] d0
                     = (SearchWorldcat.Exhausted, d1)) by (vm_compute; reflexivity).
  destruct (C10_duplicate_mms_id one_match identifier_as_given false same_identifier_twice
              search_session [first] [] first second d1 "991" Hrows Hreached
              (list_elem_of_here _ _) eq_refl eq_refl)
    as (Hsuite & d2' & r & r' & Hbody & Hr & Hnone & Hr' & Herror & _ & Hoclc & _ & _ & _
        & Hother & _ & Hsession & _).
  assert (Hd2 : d2 = d2') by (subst d2; now rewrite Hbody).
  rewrite Hd2.
  split; [exact Hrows|]. split; [exact Hreached|]. split; [exact Hsuite|].
  split; [exists r; split; assumption|].
  split; [exists r'; repeat split; assumption|].
  split; [apply Hother; discriminate | now rewrite Hsession].
Defined.

Definition undecodable : World :=
  Examples.world
    (fun _ => Ok (Examples.response 200 "OK" (Undecodable "Expecting value")))
    (0 # 1)%Q.

Definition search_buffer (record : Record_from_input_file) : WorldCatSearchBuffer.t :=
  {| WorldCatSearchBuffer.record_list := [record];
     WorldCatSearchBuffer.dataframe_for_input_file := SearchWorldcat.read_input [record];
     WorldCatSearchBuffer.session := search_session |}.

Lemma C7_undecodable_response_reraised_witness :
  fst (AlmaRecordsBuffer.process_records undecodable
         (check_buffer three_identifiers, empty_results))
  = Raise (JSONDecodeError "Expecting value")
  /\ fst (WorldCatRecordsBuffer.process_records undecodable
            (holdings_buffer, holdings_results))
     = Raise (JSONDecodeError "Expecting value")
  /\ fst (WorldCatSearchBuffer.process_records undecodable false
            (search_buffer (Examples.input_row "991" "" "n78890351" "")))
     = Raise (JSONDecodeError "Expecting value").
Proof.
  destruct (C7_undecodable_response_reraised undecodable) as (Halma & Hworldcat & Hsearch).
  split; [|split].
  - rewrite (Halma (check_buffer three_identifiers) empty_results "https://worldcat.org"
               (Examples.response 200 "OK" (Undecodable "Expecting value"))
               (snd (make_api_request undecodable GET
                       "https://worldcat.org/bib/checkcontrolnumbers?oclcNumbers=1,2,3"
                       (AlmaRecordsBuffer.session (check_buffer three_identifiers))))
               "Expecting value" eq_refl eq_refl eq_refl).
    reflexivity.
  - rewrite (Hworldcat holdings_buffer holdings_results "https://worldcat.org"
               (Examples.response 200 "OK" (Undecodable "Expecting value"))
               (snd (make_api_request undecodable POST
                       ("https://worldcat.org/ih/datalist?oclcNumbers="
                        +:+ String.concat ","
                              (elements (WorldCatRecordsBuffer.oclc_num_set holdings_buffer)))
                       (WorldCatRecordsBuffer.session holdings_buffer)))
               "Expecting value" eq_refl eq_refl eq_refl).
    reflexivity.
  - rewrite (Hsearch (search_buffer (Examples.input_row "991" "" "n78890351" "")) false
               (Examples.input_row "991" "" "n78890351" "")
               "https://americas.metadata.api.oclc.org/worldcat/search/v1" "XYZ"
               (Examples.response 200 "OK" (Undecodable "Expecting value"))
               (snd (make_api_request undecodable GET
                       (search_url_of
                          "https://americas.metadata.api.oclc.org/worldcat/search/v1" "XYZ"
                          (Examples.input_row "991" "" "n78890351" ""))
                       search_session))
               "Expecting value" eq_refl eq_refl eq_refl eq_refl eq_refl).
    reflexivity.
Defined.

Lemma C6_add_precondition_witness :
  is_ok (fst (AlmaRecordsBuffer.add "1" "994" (check_buffer three_identifiers))) = false
  /\ is_ok (fst (WorldCatRecordsBuffer.add "1" holdings_buffer)) = false
  /\ is_ok (fst (WorldCatSearchBuffer.add (Examples.input_row "992" "" "" "")
                   (search_buffer (Examples.input_row "991" "" "n78890351" ""))))
     = false.
Proof.
  destruct C6_add_precondition as (Halma & Hworldcat & Hsearch & _).
  split; [|split].
  - apply (Halma (check_buffer three_identifiers) "1" "994"). apply list_elem_of_here.
  - apply (Hworldcat holdings_buffer "1"). vm_compute. reflexivity.
  - apply (Hsearch (search_buffer (Examples.input_row "991" "" "n78890351" ""))
             (Examples.input_row "992" "" "" "")).
    discriminate.
Defined.

End Witnesses.

(** A search with several matches sets [found_multiple_oclc_nums], a column
    that none of the three output files is selected by: the row is in no
    file and the check at the end of [main], with a buffer that lets [main]
    reach it, raises. *)
Example multiple_matches_row_in_no_file :
  let W := Examples.world
             (fun _ => Ok (Examples.response 200 "OK" (Decoded (BriefBibs 2 ["40"; "41"]))))
             (0 # 1)%Q in
  let run := SearchWorldcat.main W identifier_as_given false float_example
               some_request_counters [Examples.input_row "991" "" "n78890351" ""]
               search_session in
  found_multiple_oclc_nums <$> SearchWorldcat.run_data run = [Some true]
  /\ SearchWorldcatFacts.bucket_count <$> SearchWorldcat.run_data run = [0%nat]
  /\ SearchWorldcat.run_result run
     = Raise (AssertionError
                ("Total records in input file (1) do not equal total records in "
                 +:+ "output files (0)." +:+ newline)).
Proof. vm_compute. repeat split; reflexivity. Qed.

(** The same with a retry whose body cannot be decoded: the
    [JSONDecodeError] that the first attempt would have had recorded
    against the row ends the run. *)
Example retry_undecodable_ends_run :
  let W := Examples.world
             (fun n => match n with
                       | O => Ok service_unavailable
                       | _ => Ok (Examples.response 200 "OK" (Undecodable "Expecting value"))
                       end)
             (0 # 1)%Q in
  let run := SearchWorldcat.main W identifier_as_given false float_example
               SearchWorldcat.no_request_counters two_rows search_session in
  SearchWorldcat.run_result run = Raise (JSONDecodeError "Expecting value")
  /\ SearchWorldcat.output_files_written run = false.
Proof. vm_compute. split; reflexivity. Qed.

(** * Further properties of the buffers and of the driver *)

(** ** Requests that do not meet an expired token, and renewals that fail *)

Section Requests.
Context (W : World).

(** The result of [log_response_and_raise_for_status] followed by
    [return response]. *)
Definition status_checked (url : string) (response : Response) : result Response :=
  fst ((log_response_and_raise_for_status (S := unit) url response ;;; ret response) tt).

Lemma status_checked_spec url response :
  let code := resp_status_code response in
  (~ 400 <= code < 600 -> status_checked url response = Ok response)
  /\ (400 <= code < 600 ->
      exists msg, status_checked url response = Raise (HTTPError (Some code) msg)).
Proof.
  unfold status_checked, log_response_and_raise_for_status, bind, raise, ret.
  repeat case_bool_decide; simpl; split; intros H'; try lia; eauto.
Qed.

Lemma send_checked_eq m url s :
  send_checked W m url s =
    (match transport W (length (sent s)) (signed_request m url (access_token s)) with
     | Ok response => status_checked url response
     | Raise e => Raise e
     end,
     log_sent (signed_request m url (access_token s)) s).
Proof.
  unfold send_checked, bind, api_request, status_checked.
  fold (signed_request m url (access_token s)).
  destruct (transport W _ _) as [response|e]; [|reflexivity].
  unfold log_response_and_raise_for_status, bind, raise, ret.
  repeat case_bool_decide; reflexivity.
Qed.

(** X1. A request that is not met by [TokenExpiredError] is sent exactly
    once and touches no credential: the session after the call is the
    session before with the one request logged.  An exception of the
    transport is passed on; a response is returned unless its status is in
    400..599, which raises [HTTPError] with that status. *)
Theorem X1_unexpired_request_sent_once (m : Method) (api_url : string) (s : Session) :
  let url := url_with_transaction_id W api_url s in
  let first := signed_request m url (access_token s) in
  let r := make_api_request W m api_url s in
  (forall msg, transport W (length (sent s)) first <> Raise (TokenExpiredError msg)) ->
  snd r = log_sent first s
  /\ match transport W (length (sent s)) first with
     | Raise e => fst r = Raise e
     | Ok response =>
         (~ 400 <= resp_status_code response < 600 -> fst r = Ok response)
         /\ (400 <= resp_status_code response < 600 ->
             exists msg, fst r = Raise (HTTPError (Some (resp_status_code response)) msg))
     end.
Proof.
  intros url first r Hfresh. subst r.
  pose proof (make_api_request_cases W m api_url s) as Hcases. cbv zeta in Hcases.
  fold url in Hcases. fold first in Hcases.
  pose proof (send_checked_eq m url s) as Hsend. fold first in Hsend.
  destruct (transport W (length (sent s)) first) as [response|e] eqn:E.
  - rewrite Hcases, Hsend. split; [reflexivity|]. apply status_checked_spec.
  - destruct e; try (rewrite Hcases, Hsend; split; reflexivity).
    now destruct (Hfresh msg).
Qed.

(** The session in which the renewal runs: the first request is logged. *)
Definition after_first (m : Method) (api_url : string) (s : Session) : Session :=
  log_sent (signed_request m (url_with_transaction_id W api_url s) (access_token s)) s.

(** A renewal that raises ends [make_api_request]: the request is not sent
    again. *)
Lemma renewal_raises m api_url s msg e s2 :
  transport W (length (sent s))
    (signed_request m (url_with_transaction_id W api_url s) (access_token s))
  = Raise (TokenExpiredError msg) ->
  renew_access_token W (after_first m api_url s) = (Raise e, s2) ->
  make_api_request W m api_url s = (Raise e, s2).
Proof.
  intros Hexpired Hrenew.
  pose proof (make_api_request_cases W m api_url s) as Hcases. cbv zeta in Hcases.
  rewrite Hexpired in Hcases. rewrite Hcases.
  apply bind_raise. exact Hrenew.
Qed.

Lemma refresh_token_expires_at_after_first m api_url s :
  fst (refresh_token_expires_at W (after_first m api_url s))
  = fst (refresh_token_expires_at W s).
Proof.
  unfold refresh_token_expires_at, after_first. simpl.
  destruct (environ s !! "WORLDCAT_METADATA_API_REFRESH_TOKEN_EXPIRES_AT") as [v|];
    [destruct (strptime_timegm W v)|]; reflexivity.
Qed.

(** X2. When the token has expired and the token endpoint refuses the
    grant, [make_api_request] ends with the exception of the endpoint: the
    request is not sent again, nothing is persisted and the session keeps
    its old access token.  One request and one grant have been logged. *)
Theorem X2_refused_grant_is_not_retried (m : Method) (api_url : string) (s : Session)
  (msg token_url : string) (expires_at : Q) (e : exn) :
  let s1 := after_first m api_url s in
  let g := grant_chosen W s1 token_url expires_at in
  transport W (length (sent s))
    (signed_request m (url_with_transaction_id W api_url s) (access_token s))
  = Raise (TokenExpiredError msg) ->
  environ s !! "OCLC_AUTHORIZATION_SERVER_TOKEN_URL" = Some token_url ->
  refresh_token_expires_at W s = (Ok expires_at, s) ->
  token_endpoint W (length (grants s)) g = Raise e ->
  make_api_request W m api_url s = (Raise e, log_grant g s1).
Proof.
  intros s1 g Hexpired Hurl Hexp Hrefused.
  apply (renewal_raises m api_url s msg); [exact Hexpired|]. fold s1.
  assert (Hexp1 : refresh_token_expires_at W s1 = (Ok expires_at, s1)).
  { pose proof (refresh_token_expires_at_after_first m api_url s) as H.
    fold s1 in H. rewrite Hexp in H. simpl in H.
    pose proof (preserves_refresh_token_expires_at W (fun s => s) s1) as Hs.
    simpl in Hs. destruct (refresh_token_expires_at W s1) as [x s']. simpl in *.
    congruence. }
  unfold renew_access_token, bind, gets. rewrite Hexp1. cbv beta iota.
  unfold grant_chosen in g.
  destruct (in_environ "WORLDCAT_METADATA_API_REFRESH_TOKEN" s1
            && Qgtb (Qminus expires_at (time_time W (length (sent s1)))) (inject_Z 25));
    unfold os_environ; change (environ s1) with (environ s); rewrite Hurl; cbv beta iota;
    unfold request_grant; fold g; change (grants s1) with (grants s);
    rewrite Hrefused; reflexivity.
Qed.

(** X3. When the token has expired and the stored expiry of the refresh
    token does not parse, [make_api_request] ends with the [ValueError] of
    the parse: no grant is asked for, not even the full one, the request is
    not sent again and nothing is persisted. *)
Theorem X3_unreadable_expiry_blocks_renewal (m : Method) (api_url : string) (s : Session)
  (msg v : string) :
  transport W (length (sent s))
    (signed_request m (url_with_transaction_id W api_url s) (access_token s))
  = Raise (TokenExpiredError msg) ->
  environ s !! "WORLDCAT_METADATA_API_REFRESH_TOKEN_EXPIRES_AT" = Some v ->
  strptime_timegm W v = None ->
  exists text,
    make_api_request W m api_url s = (Raise (ValueError text), after_first m api_url s).
Proof.
  intros Hexpired Hv Hparse. eexists.
  apply (renewal_raises m api_url s msg); [exact Hexpired|].
  unfold renew_access_token, bind, refresh_token_expires_at.
  change (environ (after_first m api_url s)) with (environ s).
  rewrite Hv, Hparse. reflexivity.
Qed.

(** X4. When the token has expired and the URL of the token endpoint is not
    configured, [make_api_request] ends with the [KeyError] of the missing
    variable, whichever grant was due: no grant is asked for, the request
    is not sent again and nothing is persisted. *)
Theorem X4_missing_token_url_blocks_renewal (m : Method) (api_url : string) (s : Session)
  (msg : string) (expires_at : Q) :
  transport W (length (sent s))
    (signed_request m (url_with_transaction_id W api_url s) (access_token s))
  = Raise (TokenExpiredError msg) ->
  refresh_token_expires_at W s = (Ok expires_at, s) ->
  environ s !! "OCLC_AUTHORIZATION_SERVER_TOKEN_URL" = None ->
  make_api_request W m api_url s
  = (Raise (KeyError "OCLC_AUTHORIZATION_SERVER_TOKEN_URL"), after_first m api_url s).
Proof.
  intros Hexpired Hexp Hurl.
  apply (renewal_raises m api_url s msg); [exact Hexpired|].
  set (s1 := after_first m api_url s).
  assert (Hexp1 : refresh_token_expires_at W s1 = (Ok expires_at, s1)).
  { pose proof (refresh_token_expires_at_after_first m api_url s) as H.
    fold s1 in H. rewrite Hexp in H. simpl in H.
    pose proof (preserves_refresh_token_expires_at W (fun s => s) s1) as Hs.
    simpl in Hs. destruct (refresh_token_expires_at W s1) as [x s']. simpl in *.
    congruence. }
  unfold renew_access_token, bind, gets. rewrite Hexp1. cbv beta iota.
  destruct (in_environ "WORLDCAT_METADATA_API_REFRESH_TOKEN" s1 && Qgtb _ _);
    unfold os_environ; change (environ s1) with (environ s); rewrite Hurl; reflexivity.
Qed.

(** X5. When the full grant is given but its token has no refresh token,
    [make_api_request] ends with [KeyError] after the session has taken the
    new access token and before anything is persisted: the environment and
    the [.env] file still hold the old credentials, and the request is not
    sent again. *)
Theorem X5_full_grant_without_refresh_token (m : Method) (api_url : string) (s : Session)
  (msg token_url : string) (expires_at : Q) (token : Token) :
  let s1 := after_first m api_url s in
  let r := make_api_request W m api_url s in
  transport W (length (sent s))
    (signed_request m (url_with_transaction_id W api_url s) (access_token s))
  = Raise (TokenExpiredError msg) ->
  environ s !! "OCLC_AUTHORIZATION_SERVER_TOKEN_URL" = Some token_url ->
  refresh_token_expires_at W s = (Ok expires_at, s) ->
  grant_chosen W s1 token_url expires_at = ClientCredentialsGrant token_url ->
  token_endpoint W (length (grants s)) (ClientCredentialsGrant token_url) = Ok token ->
  tok_refresh_token token = None ->
  fst r = Raise (KeyError "refresh_token")
  /\ access_token (snd r) = tok_access_token token
  /\ environ (snd r) = environ s
  /\ dotenv_file (snd r) = dotenv_file s
  /\ sent (snd r) = sent s1
  /\ grants (snd r) = (grants s ++ [ClientCredentialsGrant token_url])%list.
Proof.
  intros s1 r Hexpired Hurl Hexp Hfull Hgiven Hnone. subst r.
  rewrite (renewal_raises m api_url s msg (KeyError "refresh_token")
             (set_access_token (tok_access_token token)
                (log_grant (ClientCredentialsGrant token_url) s1)) Hexpired).
  { repeat split. }
  fold s1.
  assert (Hexp1 : refresh_token_expires_at W s1 = (Ok expires_at, s1)).
  { pose proof (refresh_token_expires_at_after_first m api_url s) as H.
    fold s1 in H. rewrite Hexp in H. simpl in H.
    pose proof (preserves_refresh_token_expires_at W (fun s => s) s1) as Hs.
    simpl in Hs. destruct (refresh_token_expires_at W s1) as [x s']. simpl in *.
    congruence. }
  unfold renew_access_token, bind, gets. rewrite Hexp1. cbv beta iota.
  unfold grant_chosen in Hfull.
  destruct (in_environ "WORLDCAT_METADATA_API_REFRESH_TOKEN" s1 && Qgtb _ _);
    [discriminate|].
  unfold os_environ. change (environ s1) with (environ s). rewrite Hurl. cbv beta iota.
  unfold request_grant. change (grants s1) with (grants s). rewrite Hgiven.
  cbv beta iota. unfold token_item. rewrite Hnone. reflexivity.
Qed.

End Requests.

(** ** What a request never does *)

Section RequestFrame.
Context (W : World).

(** The variables that a renewal may write. *)
Definition credential_variables : list string :=
  ["WORLDCAT_METADATA_API_REFRESH_TOKEN";
   "WORLDCAT_METADATA_API_REFRESH_TOKEN_EXPIRES_AT";
   "WORLDCAT_METADATA_API_ACCESS_TOKEN";
   "WORLDCAT_METADATA_API_ACCESS_TOKEN_TYPE";
   "WORLDCAT_METADATA_API_ACCESS_TOKEN_EXPIRES_AT"].

(** The value of a variable in [os.environ] and in the [.env] file. *)
Definition variable (k : string) (s : Session) : option string * option string :=
  (environ s !! k, dotenv_file s !! k).

Lemma preserves_variable_set_env_var k k' v :
  k' <> k -> preserves (variable k) (set_env_var k' v).
Proof.
  intros Hne s. unfold variable, set_env_var, modify. simpl.
  now rewrite !lookup_insert_ne.
Qed.

Lemma preserves_variable_request_grant k g : preserves (variable k) (request_grant W g).
Proof. intros s. unfold request_grant. now destruct (token_endpoint _ _ _). Qed.

Lemma preserves_variable_api_request k m url headers :
  preserves (variable k) (api_request W m url headers).
Proof. intros s. reflexivity. Qed.

Lemma preserves_variable_renew k :
  k ∉ credential_variables -> preserves (variable k) (renew_access_token W).
Proof.
  intros Hk. unfold credential_variables in Hk.
  repeat (apply not_elem_of_cons in Hk as [? Hk]).
  unfold renew_access_token.
  repeat (first [ apply preserves_bind; [|intros ?]
                | apply preserves_if
                | apply preserves_variable_request_grant
                | apply preserves_refresh_token_expires_at
                | apply preserves_variable_set_env_var; congruence
                | solve [auto with preserves] ]).
Qed.

(** A call of [make_api_request] writes no variable but the credential
    variables. *)
Lemma make_api_request_variable (m : Method) (api_url : string) (s : Session) (k : string) :
  k ∉ credential_variables ->
  variable k (snd (make_api_request W m api_url s)) = variable k s.
Proof.
  intros Hk.
  pose proof (make_api_request_cases W m api_url s) as Hcases. cbv zeta in Hcases.
  set (url := url_with_transaction_id W api_url s) in *.
  set (first := signed_request m url (access_token s)) in *.
  assert (Hsend : forall s0, variable k (snd (send_checked W m url s0)) = variable k s0).
  { intros s0. destruct (send_checked_state W m url s0) as (E1 & E2 & _).
    unfold variable. now rewrite E1, E2. }
  destruct (transport W (length (sent s)) first) as [response|e].
  - rewrite Hcases. apply Hsend.
  - destruct e; try (rewrite Hcases; apply Hsend).
    rewrite Hcases.
    pose proof (preserves_bind (variable k) (renew_access_token W)
                  (fun _ => send_checked W m url) (preserves_variable_renew k Hk)
                  (fun _ => Hsend)) as Hp.
    now rewrite Hp.
Qed.

(** X6. Whatever the outcome of [make_api_request], a variable other than
    the five credential variables has after the call the value it had
    before, in [os.environ] and in the [.env] file. *)
Theorem X6_request_keeps_other_variables (m : Method) (api_url : string) (s : Session)
  (k : string) :
  k ∉ credential_variables ->
  environ (snd (make_api_request W m api_url s)) !! k = environ s !! k
  /\ dotenv_file (snd (make_api_request W m api_url s)) !! k = dotenv_file s !! k.
Proof.
  intros Hk. pose proof (make_api_request_variable m api_url s k Hk) as H.
  unfold variable in H. now inversion H.
Qed.

(** The grants that a renewal logs: none when it stops before the token
    endpoint, one otherwise, and one when it succeeds. *)
Lemma renew_access_token_grants s :
  let r := renew_access_token W s in
  (is_ok (fst r) = false /\ grants (snd r) = grants s)
  \/ exists g, grants (snd r) = (grants s ++ [g])%list.
Proof.
  unfold renew_access_token, bind, gets, refresh_token_expires_at.
  destruct (environ s !! "WORLDCAT_METADATA_API_REFRESH_TOKEN_EXPIRES_AT") as [v|];
    [destruct (strptime_timegm W v) as [t|]; [|left; split; reflexivity]|];
    cbv beta iota;
    (destruct (in_environ "WORLDCAT_METADATA_API_REFRESH_TOKEN" s && Qgtb _ _);
     unfold os_environ;
     (destruct (environ s !! "OCLC_AUTHORIZATION_SERVER_TOKEN_URL") as [token_url|];
      [|left; split; reflexivity]);
     cbv beta iota; unfold request_grant;
     lazymatch goal with
     | |- context [token_endpoint W (length (grants s)) ?g] =>
         right; exists g;
         destruct (token_endpoint W (length (grants s)) g) as [token|e];
         cbv beta iota; [|reflexivity];
         unfold token_item;
         try (destruct (tok_refresh_token token);
              [destruct (tok_refresh_token_expires_at token)|]);
         reflexivity
     end).
Qed.

(** X7. One call of [make_api_request] sends the request once or twice,
    never more, each time with the same method, URL and headers; it sends
    it twice only after [TokenExpiredError] and a renewal that logged one
    grant, and then signs the second with the token the session holds at
    the end.  It never logs more than one grant. *)
Theorem X7_request_sent_at_most_twice (m : Method) (api_url : string) (s : Session) :
  let url := url_with_transaction_id W api_url s in
  let first := signed_request m url (access_token s) in
  let s' := snd (make_api_request W m api_url s) in
  (sent s' = (sent s ++ [first])%list
   /\ (grants s' = grants s \/ exists g, grants s' = (grants s ++ [g])%list))
  \/ (sent s' = (sent s ++ [first; signed_request m url (access_token s')])%list
      /\ (exists msg, transport W (length (sent s)) first = Raise (TokenExpiredError msg))
      /\ exists g, grants s' = (grants s ++ [g])%list).
Proof.
  intros url first s'. subst s'.
  pose proof (make_api_request_cases W m api_url s) as Hcases. cbv zeta in Hcases.
  fold url in Hcases. fold first in Hcases.
  assert (Hplain : make_api_request W m api_url s = send_checked W m url s ->
                   sent (snd (make_api_request W m api_url s)) = (sent s ++ [first])%list
                   /\ (grants (snd (make_api_request W m api_url s)) = grants s
                       \/ exists g, grants (snd (make_api_request W m api_url s))
                                    = (grants s ++ [g])%list)).
  { intros ->. destruct (send_checked_state W m url s) as (_ & _ & E3 & _ & E5). auto. }
  destruct (transport W (length (sent s)) first) as [response|e];
    [left; apply Hplain; exact Hcases|].
  destruct e; try (left; apply Hplain; exact Hcases).
  clear Hplain. rewrite Hcases.
  pose proof (renew_access_token_grants (log_sent first s)) as Hgrants.
  pose proof (preserves_sent_renew_access_token W (log_sent first s)) as Hsent.
  cbv zeta in Hgrants.
  destruct (renew_access_token W (log_sent first s)) as [[[]|e] s2] eqn:Hrenew;
    simpl in Hgrants, Hsent;
    [rewrite (bind_ok _ _ _ _ _ Hrenew) | rewrite (bind_raise _ _ _ _ _ Hrenew)].
  - right. destruct (send_checked_state W m url s2) as (_ & _ & E3 & E4 & E5).
    destruct Hgrants as [[Hfalse _]|[g Hg]]; [discriminate|].
    split; [|split; [eauto|]].
    + rewrite E5, E4, Hsent. now rewrite <- app_assoc.
    + exists g. now rewrite E3.
  - left. simpl. split; [exact Hsent|].
    destruct Hgrants as [[_ Hg]|[g Hg]]; eauto.
Qed.

(** The requests of one call: one or two, alike but for the token. *)
Lemma make_api_request_requests (m : Method) (api_url : string) (s : Session) :
  exists new,
    sent (snd (make_api_request W m api_url s)) = (sent s ++ new)%list
    /\ (1 <= length new <= 2)%nat
    /\ Forall (fun r => req_method r = m
                        /\ req_url r = url_with_transaction_id W api_url s
                        /\ req_headers r = [("Accept", "application/json")]) new.
Proof.
  pose proof (make_api_request_cases W m api_url s) as Hcases. cbv zeta in Hcases.
  set (url := url_with_transaction_id W api_url s) in *.
  set (first := signed_request m url (access_token s)) in *.
  assert (Hplain : make_api_request W m api_url s = send_checked W m url s ->
                   exists new,
                     sent (snd (make_api_request W m api_url s)) = (sent s ++ new)%list
                     /\ (1 <= length new <= 2)%nat
                     /\ Forall (fun r => req_method r = m /\ req_url r = url
                                         /\ req_headers r = [("Accept", "application/json")])
                          new).
  { intros ->. destruct (send_checked_state W m url s) as (_ & _ & _ & _ & E5).
    exists [first]. split; [exact E5|]. split; [simpl; lia|].
    repeat constructor. }
  destruct (transport W (length (sent s)) first) as [response|e]; [auto|].
  destruct e; auto.
  clear Hplain. rewrite Hcases.
  pose proof (preserves_sent_renew_access_token W (log_sent first s)) as Hsent.
  destruct (renew_access_token W (log_sent first s)) as [[[]|e] s2] eqn:Hrenew;
    simpl in Hsent;
    [rewrite (bind_ok _ _ _ _ _ Hrenew) | rewrite (bind_raise _ _ _ _ _ Hrenew)].
  - destruct (send_checked_state W m url s2) as (_ & _ & _ & _ & E5).
    exists [first; signed_request m url (access_token s2)].
    split; [rewrite E5, Hsent; now rewrite <- app_assoc|].
    split; [simpl; lia|]. repeat constructor.
  - exists [first]. split; [exact Hsent|]. split; [simpl; lia|]. repeat constructor.
Qed.

End RequestFrame.

(** ** Instances of the request properties *)

Section RequestWitnesses.

#[local] Abbreviation bib_url := "https://worldcat.org/bib?x=1".

Definition unavailable_world : World :=
  Examples.world
    (fun _ => Ok (Examples.response 503 "Service Unavailable" (Undecodable ""))) (0 # 1)%Q.

Lemma X1_unexpired_request_sent_once_witness :
  let s := Examples.session [] in
  let r := make_api_request unavailable_world GET bib_url s in
  (forall msg, transport unavailable_world 0
                 (signed_request GET (url_with_transaction_id unavailable_world bib_url s)
                    "tk_old")
               <> Raise (TokenExpiredError msg))
  /\ length (sent (snd r)) = 1%nat
  /\ exists msg, fst r = Raise (HTTPError (Some 503) msg).
Proof.
  assert (H : forall msg : string,
             transport unavailable_world 0
               (signed_request GET
                  (url_with_transaction_id unavailable_world bib_url (Examples.session []))
                  "tk_old")
             <> Raise (TokenExpiredError msg)) by (intros msg [=]).
  split; [exact H|].
  destruct (X1_unexpired_request_sent_once unavailable_world GET bib_url
              (Examples.session []) H) as [Hstate [_ Hstatus]].
  split; [now rewrite Hstate|].
  apply Hstatus. simpl. lia.
Defined.

(** A world whose token endpoint refuses every grant. *)
Definition refusing_world : World :=
  {| transport := transport renewal_world;
     token_endpoint := fun _ _ => Raise (PyException "(invalid_client) ");
     time_time := time_time renewal_world;
     utc_timestamp := utc_timestamp renewal_world;
     strptime_timegm := strptime_timegm renewal_world;
     str_float := str_float renewal_world |}.

Lemma X2_refused_grant_is_not_retried_witness :
  make_api_request refusing_world GET bib_url renewal_session
  = (Raise (PyException "(invalid_client) "),
     log_grant (RefreshTokenGrant "https://oauth.oclc.org/token" "rt_old")
       (after_first refusing_world GET bib_url renewal_session)).
Proof.
  exact (X2_refused_grant_is_not_retried refusing_world GET bib_url renewal_session
           "(token_expired) " "https://oauth.oclc.org/token" (1633041787 # 1)%Q
           (PyException "(invalid_client) ") eq_refl eq_refl eq_refl eq_refl).
Defined.

Definition unreadable_expiry_session : Session :=
  Examples.session
    [("OCLC_AUTHORIZATION_SERVER_TOKEN_URL", "https://oauth.oclc.org/token");
     ("WORLDCAT_METADATA_API_REFRESH_TOKEN", "rt_old");
     ("WORLDCAT_METADATA_API_REFRESH_TOKEN_EXPIRES_AT", "2021-09-30T22:43:07Z")].

Lemma X3_unreadable_expiry_blocks_renewal_witness :
  exists text,
    make_api_request renewal_world GET bib_url unreadable_expiry_session
    = (Raise (ValueError text),
       after_first renewal_world GET bib_url unreadable_expiry_session).
Proof.
  exact (X3_unreadable_expiry_blocks_renewal renewal_world GET bib_url
           unreadable_expiry_session "(token_expired) " "2021-09-30T22:43:07Z"
           eq_refl eq_refl eq_refl).
Defined.

Lemma X4_missing_token_url_blocks_renewal_witness :
  let s := Examples.session [("WORLDCAT_METADATA_API_REFRESH_TOKEN", "rt_old")] in
  make_api_request renewal_world GET bib_url s
  = (Raise (KeyError "OCLC_AUTHORIZATION_SERVER_TOKEN_URL"),
     after_first renewal_world GET bib_url s).
Proof.
  exact (X4_missing_token_url_blocks_renewal renewal_world GET bib_url
           (Examples.session [("WORLDCAT_METADATA_API_REFRESH_TOKEN", "rt_old")])
           "(token_expired) " (inject_Z 0) eq_refl eq_refl eq_refl).
Defined.

(** A world whose token endpoint grants a token without a refresh token. *)
Definition bare_token : Token :=
  {| tok_access_token := "tk_new"; tok_token_type := "bearer";
     tok_expires_at := (1633044487 # 1)%Q;
     tok_refresh_token := None; tok_refresh_token_expires_at := None |}.

Definition bare_token_world : World :=
  {| transport := transport renewal_world;
     token_endpoint := fun _ _ => Ok bare_token;
     time_time := time_time renewal_world;
     utc_timestamp := utc_timestamp renewal_world;
     strptime_timegm := strptime_timegm renewal_world;
     str_float := str_float renewal_world |}.

Definition token_url_only : Session :=
  Examples.session [("OCLC_AUTHORIZATION_SERVER_TOKEN_URL", "https://oauth.oclc.org/token")].

Lemma X5_full_grant_without_refresh_token_witness :
  let r := make_api_request bare_token_world GET bib_url token_url_only in
  fst r = Raise (KeyError "refresh_token")
  /\ access_token (snd r) = "tk_new"
  /\ environ (snd r) !! "WORLDCAT_METADATA_API_ACCESS_TOKEN" = None
  /\ length (sent (snd r)) = 1%nat.
Proof.
  destruct (X5_full_grant_without_refresh_token bare_token_world GET bib_url token_url_only
              "(token_expired) " "https://oauth.oclc.org/token" (inject_Z 0) bare_token
              eq_refl eq_refl eq_refl eq_refl eq_refl eq_refl)
    as (Hr & Htoken & Henv & _ & Hsent & _).
  split; [exact Hr|]. split; [exact Htoken|].
  split; [now rewrite Henv|now rewrite Hsent].
Defined.

Lemma X6_request_keeps_other_variables_witness :
  let s' := snd (make_api_request renewal_world GET bib_url renewal_session) in
  ("OCLC_AUTHORIZATION_SERVER_TOKEN_URL" ∉ credential_variables)
  /\ environ s' !! "OCLC_AUTHORIZATION_SERVER_TOKEN_URL" = Some "https://oauth.oclc.org/token"
  /\ dotenv_file s' !! "OCLC_AUTHORIZATION_SERVER_TOKEN_URL"
     = Some "https://oauth.oclc.org/token".
Proof.
  assert (H : "OCLC_AUTHORIZATION_SERVER_TOKEN_URL" ∉ credential_variables)
    by (apply (bool_decide_unpack _); vm_compute; exact I).
  split; [exact H|].
  exact (X6_request_keeps_other_variables renewal_world GET bib_url renewal_session
           "OCLC_AUTHORIZATION_SERVER_TOKEN_URL" H).
Defined.

End RequestWitnesses.

(** ** Adding to the buffers and emptying them *)

Lemma dict_setitem_new {V} (k : string) (v : V) (d : dict V) :
  k ∉ dict_keys d -> dict_setitem k v d = (d ++ [(k, v)])%list.
Proof.
  induction d as [|[k' v'] d IH]; simpl; intros Hk; [reflexivity|].
  apply not_elem_of_cons in Hk as [Hne Hk].
  destruct (String.eqb_spec k' k) as [->|_]; [congruence|].
  now rewrite IH.
Qed.

Lemma dict_get_last {V} (k k' : string) (v : V) (d : dict V) :
  k ∉ dict_keys d ->
  dict_get k' (d ++ [(k, v)])%list = if String.eqb k k' then Some v else dict_get k' d.
Proof.
  induction d as [|[k0 v0] d IH]; simpl; intros Hk; [reflexivity|].
  apply not_elem_of_cons in Hk as [Hne Hk].
  destruct (String.eqb_spec k0 k') as [->|_]; [|now apply IH].
  destruct (String.eqb_spec k k') as [->|_]; [congruence | reflexivity].
Qed.

(** X8. A record added to the holdings-check buffer under an OCLC number
    that the buffer does not hold is found under that number with its MMS
    ID, the records already held keep theirs, and the number goes last in
    the order in which the request lists them; the buffer is one longer,
    and the files and the session are as before. *)
Theorem X8_added_record_is_found (b : AlmaRecordsBuffer.t) (orig_oclc_num mms_id : string) :
  let r := AlmaRecordsBuffer.add orig_oclc_num mms_id b in
  let d := AlmaRecordsBuffer.oclc_num_dict b in
  let d' := AlmaRecordsBuffer.oclc_num_dict (snd r) in
  orig_oclc_num ∉ dict_keys d ->
  fst r = Ok tt
  /\ dict_get orig_oclc_num d' = Some mms_id
  /\ (forall k, k <> orig_oclc_num -> dict_get k d' = dict_get k d)
  /\ dict_keys d' = (dict_keys d ++ [orig_oclc_num])%list
  /\ AlmaRecordsBuffer.len (snd r) = S (AlmaRecordsBuffer.len b)
  /\ AlmaRecordsBuffer.records_with_current_oclc_num (snd r)
     = AlmaRecordsBuffer.records_with_current_oclc_num b
  /\ AlmaRecordsBuffer.records_with_old_oclc_num (snd r)
     = AlmaRecordsBuffer.records_with_old_oclc_num b
  /\ AlmaRecordsBuffer.records_with_errors (snd r) = AlmaRecordsBuffer.records_with_errors b
  /\ AlmaRecordsBuffer.session (snd r) = AlmaRecordsBuffer.session b.
Proof.
  intros r d d' Hnew. subst r d d'.
  destruct (alma_add_cases b orig_oclc_num mms_id) as [[Hin _]|[_ ->]]; [contradiction|].
  simpl. rewrite (dict_setitem_new _ _ _ Hnew).
  split; [reflexivity|]. split; [|split; [|split; [|split]]].
  - rewrite (dict_get_last _ _ _ _ Hnew). now rewrite String.eqb_refl.
  - intros k Hk. rewrite (dict_get_last _ _ _ _ Hnew).
    destruct (String.eqb_spec orig_oclc_num k); [congruence | reflexivity].
  - unfold dict_keys. now rewrite map_app.
  - unfold AlmaRecordsBuffer.len. simpl.
    rewrite (dict_setitem_new _ _ _ Hnew), length_app. simpl. lia.
  - repeat split.
Qed.

(** X9. A number added to the set/unset buffer that the buffer does not
    hold is a member afterwards, the members are the old ones and the new
    one, and the buffer is one larger; the choice, the cascade value, the
    files and the session are as before. *)
Theorem X9_added_number_is_member (b : WorldCatRecordsBuffer.t) (oclc_num : string) :
  let r := WorldCatRecordsBuffer.add oclc_num b in
  oclc_num ∉ WorldCatRecordsBuffer.oclc_num_set b ->
  fst r = Ok tt
  /\ (forall k, k ∈ WorldCatRecordsBuffer.oclc_num_set (snd r)
                <-> k = oclc_num \/ k ∈ WorldCatRecordsBuffer.oclc_num_set b)
  /\ WorldCatRecordsBuffer.len (snd r) = S (WorldCatRecordsBuffer.len b)
  /\ WorldCatRecordsBuffer.set_or_unset_choice (snd r)
     = WorldCatRecordsBuffer.set_or_unset_choice b
  /\ WorldCatRecordsBuffer.cascade (snd r) = WorldCatRecordsBuffer.cascade b
  /\ WorldCatRecordsBuffer.records_with_no_update_needed (snd r)
     = WorldCatRecordsBuffer.records_with_no_update_needed b
  /\ WorldCatRecordsBuffer.records_updated (snd r) = WorldCatRecordsBuffer.records_updated b
  /\ WorldCatRecordsBuffer.records_with_errors (snd r)
     = WorldCatRecordsBuffer.records_with_errors b
  /\ WorldCatRecordsBuffer.session (snd r) = WorldCatRecordsBuffer.session b.
Proof.
  intros r Hnew. subst r.
  destruct (worldcat_add_cases b oclc_num) as [[Hin _]|[_ ->]]; [contradiction|].
  simpl. split; [reflexivity|]. split; [|split].
  - intros k. rewrite elem_of_union, elem_of_singleton. reflexivity.
  - unfold WorldCatRecordsBuffer.len. simpl.
    rewrite size_union by (apply disjoint_singleton_l; exact Hnew).
    now rewrite size_singleton.
  - repeat split.
Qed.

(** X10. In each of the three buffers [remove_all_records] leaves a buffer
    of length 0 to which any record can be added, whatever the buffer held
    before; it touches neither the files, nor the DataFrame, nor the
    session. *)
Theorem X10_emptied_buffer_takes_any_record :
  (forall (b : AlmaRecordsBuffer.t) orig_oclc_num mms_id,
      let b0 := snd (AlmaRecordsBuffer.remove_all_records b) in
      AlmaRecordsBuffer.len b0 = 0%nat
      /\ b0 = AlmaRecordsBuffer.set_oclc_num_dict (fun _ => []) b
      /\ fst (AlmaRecordsBuffer.add orig_oclc_num mms_id b0) = Ok tt
      /\ AlmaRecordsBuffer.oclc_num_dict (snd (AlmaRecordsBuffer.add orig_oclc_num mms_id b0))
         = [(orig_oclc_num, mms_id)])
  /\ (forall (b : WorldCatRecordsBuffer.t) oclc_num,
      let b0 := snd (WorldCatRecordsBuffer.remove_all_records b) in
      WorldCatRecordsBuffer.len b0 = 0%nat
      /\ b0 = WorldCatRecordsBuffer.set_oclc_num_set (fun _ => ∅) b
      /\ fst (WorldCatRecordsBuffer.add oclc_num b0) = Ok tt
      /\ WorldCatRecordsBuffer.oclc_num_set (snd (WorldCatRecordsBuffer.add oclc_num b0))
         = {[oclc_num]})
  /\ (forall (b : WorldCatSearchBuffer.t) record_data,
      let b0 := snd (WorldCatSearchBuffer.remove_all_records b) in
      WorldCatSearchBuffer.len b0 = 0%nat
      /\ b0 = WorldCatSearchBuffer.set_record_list (fun _ => []) b
      /\ fst (WorldCatSearchBuffer.add record_data b0) = Ok tt
      /\ WorldCatSearchBuffer.record_list (snd (WorldCatSearchBuffer.add record_data b0))
         = [record_data]).
Proof.
  split; [|split].
  - intros b k v b0. subst b0. repeat split.
  - intros b k b0. subst b0.
    destruct (worldcat_add_cases (snd (WorldCatRecordsBuffer.remove_all_records b)) k)
      as [[Hin _]|[_ Hadd]]; [simpl in Hin; now apply not_elem_of_empty in Hin|].
    rewrite Hadd.
    split; [change (size (∅ : gset string) = 0%nat); apply size_empty|].
    split; [reflexivity|].
    split; [reflexivity|]. simpl. apply union_empty_r_L.
  - intros b x b0. subst b0. repeat split.
Qed.

(** ** The requests of the holdings check and of set/unset *)

Lemma for_each_app {S A} (body : A -> M S unit) (xs ys : list A) (s : S) :
  for_each (xs ++ ys) body s =
    match for_each xs body s with
    | (Ok _, s') => for_each ys body s'
    | r => r
    end.
Proof.
  revert s. induction xs as [|x xs IH]; intros s; simpl; [reflexivity|].
  unfold bind. destruct (body x s) as [[[]|e] s']; [apply IH | reflexivity].
Qed.

Section BufferRequests.
Context (W : World).

(** The URL of the holdings check, before the transaction id. *)
Definition check_url (api_url : string) (d : dict string) : string :=
  api_url +:+ "/bib/checkcontrolnumbers" +:+ "?oclcNumbers="
  +:+ String.concat "," (dict_keys d).

(** The method and the URL of set/unset, before the transaction id. *)
Definition holdings_method (choice : string) : Method :=
  if String.eqb choice "set" then POST else DELETE.

Definition holdings_url (api_url : string) (b : WorldCatRecordsBuffer.t) : string :=
  let url := api_url +:+ "/ih/datalist?oclcNumbers="
             +:+ String.concat "," (elements (WorldCatRecordsBuffer.oclc_num_set b)) in
  if String.eqb (WorldCatRecordsBuffer.set_or_unset_choice b) "set" then url
  else url +:+ "&cascade=" +:+ WorldCatRecordsBuffer.cascade b.

(** [process_records] of the holdings check, once the URL of the API is
    read: the request, and on its response the loop over the entries. *)
Lemma check_process_records_unfold (b : AlmaRecordsBuffer.t) (results : gmap string Z)
  (api_url : string) :
  environ (AlmaRecordsBuffer.session b) !! "WORLDCAT_METADATA_API_URL" = Some api_url ->
  AlmaRecordsBuffer.process_records W (b, results) =
    match make_api_request W GET (check_url api_url (AlmaRecordsBuffer.oclc_num_dict b))
            (AlmaRecordsBuffer.session b) with
    | (Ok api_response, s') =>
        (json_response <- response_json api_response ;;
         entry <- AlmaRecordsBuffer.response_entries json_response ;;
         for_each entry AlmaRecordsBuffer.process_record)
          (AlmaRecordsBuffer.set_session s' b, results)
    | (Raise e, s') =>
        (Raise (if is_JSONDecodeError e then unbound_api_response else e),
         (AlmaRecordsBuffer.set_session s' b, results))
    end.
Proof.
  intros Henv. destruct b as [d f1 f2 f3 s]. simpl in Henv.
  unfold AlmaRecordsBuffer.process_records.
  unfold bind at 1. unfold AlmaRecordsBuffer.on_self at 1. unfold zoom at 1 2.
  unfold os_environ. simpl. rewrite Henv. simpl.
  unfold bind at 1. unfold AlmaRecordsBuffer.on_self at 1. unfold zoom at 1.
  unfold gets at 1. simpl.
  unfold check_url. simpl.
  destruct (make_api_request W GET _ s) as [[response|e] s'] eqn:Hreq.
  - erewrite try_except_binding_ok.
    2:{ unfold AlmaRecordsBuffer.on_self, zoom. simpl. rewrite Hreq. reflexivity. }
    reflexivity.
  - erewrite try_except_binding_raise.
    2:{ unfold AlmaRecordsBuffer.on_self, zoom. simpl. rewrite Hreq. reflexivity. }
    reflexivity.
Qed.

Lemma holdings_process_records_unfold (b : WorldCatRecordsBuffer.t)
  (results : gmap string Z) (api_url : string) :
  environ (WorldCatRecordsBuffer.session b) !! "WORLDCAT_METADATA_API_URL" = Some api_url ->
  WorldCatRecordsBuffer.process_records W (b, results) =
    match make_api_request W (holdings_method (WorldCatRecordsBuffer.set_or_unset_choice b))
            (holdings_url api_url b) (WorldCatRecordsBuffer.session b) with
    | (Ok api_response, s') =>
        (json_response <- response_json api_response ;;
         entry <- WorldCatRecordsBuffer.response_entries json_response ;;
         for_each entry WorldCatRecordsBuffer.process_record)
          (WorldCatRecordsBuffer.set_session s' b, results)
    | (Raise e, s') =>
        (Raise (if is_JSONDecodeError e then none_has_no_text else e),
         (WorldCatRecordsBuffer.set_session s' b, results))
    end.
Proof.
  intros Henv. destruct b as [members choice cascade f1 f2 f3 s]. simpl in Henv.
  unfold WorldCatRecordsBuffer.process_records.
  unfold bind at 1. unfold WorldCatRecordsBuffer.on_self at 1. unfold zoom at 1.
  unfold gets at 1. simpl.
  unfold bind at 1. unfold WorldCatRecordsBuffer.on_self at 1. unfold zoom at 1 2.
  unfold os_environ. simpl. rewrite Henv. simpl.
  unfold bind at 1. unfold WorldCatRecordsBuffer.on_self at 1. unfold zoom at 1.
  unfold gets at 1. simpl.
  unfold holdings_method, holdings_url. simpl.
  destruct (String.eqb choice "set").
  - destruct (make_api_request W POST _ s) as [[response|e] s'] eqn:Hreq.
    + erewrite try_except_binding_ok.
      2:{ unfold WorldCatRecordsBuffer.on_self, zoom. simpl. rewrite Hreq. reflexivity. }
      reflexivity.
    + erewrite try_except_binding_raise.
      2:{ unfold WorldCatRecordsBuffer.on_self, zoom. simpl. rewrite Hreq. reflexivity. }
      reflexivity.
  - destruct (make_api_request W DELETE _ s) as [[response|e] s'] eqn:Hreq.
    + erewrite try_except_binding_ok.
      2:{ unfold WorldCatRecordsBuffer.on_self, bind, zoom, gets. simpl. rewrite Hreq.
          reflexivity. }
      reflexivity.
    + erewrite try_except_binding_raise.
      2:{ unfold WorldCatRecordsBuffer.on_self, bind, zoom, gets. simpl. rewrite Hreq.
          reflexivity. }
      reflexivity.
Qed.

(** The loop bodies write to the files and the counters only. *)
Lemma check_process_record_frame (record : CheckEntry) :
  preserves (fun st : AlmaRecordsBuffer.t * gmap string Z =>
               (AlmaRecordsBuffer.oclc_num_dict (fst st), AlmaRecordsBuffer.session (fst st)))
    (AlmaRecordsBuffer.process_record record).
Proof.
  intros [b results].
  unfold AlmaRecordsBuffer.process_record, AlmaRecordsBuffer.on_self,
    AlmaRecordsBuffer.on_results, bind, zoom, gets, modify, dict_getitem, results_increment.
  simpl.
  destruct (dict_get _ _); simpl; [|reflexivity].
  destruct (ce_found record), (ce_merged record); simpl;
    destruct (results !! _); reflexivity.
Qed.

Lemma holdings_process_record_frame (record : HoldingEntry) :
  preserves (fun st : WorldCatRecordsBuffer.t * gmap string Z =>
               (WorldCatRecordsBuffer.oclc_num_set (fst st),
                WorldCatRecordsBuffer.set_or_unset_choice (fst st),
                WorldCatRecordsBuffer.cascade (fst st),
                WorldCatRecordsBuffer.session (fst st)))
    (WorldCatRecordsBuffer.process_record record).
Proof.
  intros [b results].
  unfold WorldCatRecordsBuffer.process_record, WorldCatRecordsBuffer.on_self,
    WorldCatRecordsBuffer.on_results, bind, zoom, gets, modify, results_increment.
  simpl.
  destruct (String.eqb _ "HTTP 200 OK"); simpl;
    [|destruct (String.eqb _ "HTTP 409 Conflict"); simpl];
    destruct (results !! _); reflexivity.
Qed.

Lemma preserves_check_response_entries {S X} (f : S -> X) j :
  preserves f (AlmaRecordsBuffer.response_entries j).
Proof. intros s. destruct j as [entry|[|]|]; reflexivity. Qed.

Lemma preserves_holdings_response_entries {S X} (f : S -> X) j :
  preserves f (WorldCatRecordsBuffer.response_entries j).
Proof. intros s. destruct j as [[|]|entry|]; reflexivity. Qed.

(** X11. [process_records] of the holdings check and of set/unset writes
    nothing unless its request succeeds.  Without the variable
    [WORLDCAT_METADATA_API_URL] it raises [KeyError] and sends no request:
    the buffer, the session and the counters are as before.  An exception
    of [make_api_request] that is not a [JSONDecodeError] goes to the caller
    as it is.  A [JSONDecodeError] raised by the request itself is caught by
    the handler, which reads [api_response.text] of a variable that the
    request never assigned: the caller gets the exception of that read
    ([UnboundLocalError] in the holdings check, [AttributeError] on [None]
    in set/unset), not the [JSONDecodeError].  In both cases the files and
    the counters are as before, and the session is the one the request
    left. *)
Theorem X11_failed_request_writes_nothing :
  (forall (b : AlmaRecordsBuffer.t) (results : gmap string Z),
      (environ (AlmaRecordsBuffer.session b) !! "WORLDCAT_METADATA_API_URL" = None ->
       AlmaRecordsBuffer.process_records W (b, results)
       = (Raise (KeyError "WORLDCAT_METADATA_API_URL"), (b, results)))
      /\ forall api_url e s',
          environ (AlmaRecordsBuffer.session b) !! "WORLDCAT_METADATA_API_URL"
            = Some api_url ->
          make_api_request W GET (check_url api_url (AlmaRecordsBuffer.oclc_num_dict b))
            (AlmaRecordsBuffer.session b) = (Raise e, s') ->
          ((forall msg, e <> JSONDecodeError msg) ->
           AlmaRecordsBuffer.process_records W (b, results)
           = (Raise e, (AlmaRecordsBuffer.set_session s' b, results)))
          /\ ((exists msg, e = JSONDecodeError msg) ->
              exists text,
                AlmaRecordsBuffer.process_records W (b, results)
                = (Raise (PyException text), (AlmaRecordsBuffer.set_session s' b, results))))
  /\ (forall (b : WorldCatRecordsBuffer.t) (results : gmap string Z),
      (environ (WorldCatRecordsBuffer.session b) !! "WORLDCAT_METADATA_API_URL" = None ->
       WorldCatRecordsBuffer.process_records W (b, results)
       = (Raise (KeyError "WORLDCAT_METADATA_API_URL"), (b, results)))
      /\ forall api_url e s',
          environ (WorldCatRecordsBuffer.session b) !! "WORLDCAT_METADATA_API_URL"
            = Some api_url ->
          make_api_request W
            (holdings_method (WorldCatRecordsBuffer.set_or_unset_choice b))
            (holdings_url api_url b) (WorldCatRecordsBuffer.session b) = (Raise e, s') ->
          ((forall msg, e <> JSONDecodeError msg) ->
           WorldCatRecordsBuffer.process_records W (b, results)
           = (Raise e, (WorldCatRecordsBuffer.set_session s' b, results)))
          /\ ((exists msg, e = JSONDecodeError msg) ->
              exists text,
                WorldCatRecordsBuffer.process_records W (b, results)
                = (Raise (PyException text),
                   (WorldCatRecordsBuffer.set_session s' b, results)))).
Proof.
  assert (Hother : forall e, (forall msg, e <> JSONDecodeError msg) ->
                             is_JSONDecodeError e = false).
  { intros e He. destruct e; try reflexivity. now destruct (He msg). }
  split; intros b results; split.
  - intros Henv. destruct b as [d f1 f2 f3 s]. simpl in Henv.
    unfold AlmaRecordsBuffer.process_records, AlmaRecordsBuffer.on_self, bind, zoom,
      os_environ. simpl. now rewrite Henv.
  - intros api_url e s' Henv Hreq.
    rewrite (check_process_records_unfold b results api_url Henv), Hreq. split.
    + intros He. now rewrite (Hother e He).
    + intros [msg ->]. simpl. unfold unbound_api_response. eauto.
  - intros Henv. destruct b as [members choice cascade f1 f2 f3 s]. simpl in Henv.
    unfold WorldCatRecordsBuffer.process_records, WorldCatRecordsBuffer.on_self, bind, zoom,
      gets, os_environ. simpl. now rewrite Henv.
  - intros api_url e s' Henv Hreq.
    rewrite (holdings_process_records_unfold b results api_url Henv), Hreq. split.
    + intros He. now rewrite (Hother e He).
    + intros [msg ->]. simpl. unfold none_has_no_text. eauto.
Qed.

(** The session after [process_records] is the session after its request,
    and the records of the buffer are as before. *)
Lemma check_process_records_frame (b : AlmaRecordsBuffer.t) (results : gmap string Z)
  (api_url : string) :
  environ (AlmaRecordsBuffer.session b) !! "WORLDCAT_METADATA_API_URL" = Some api_url ->
  let b' := fst (snd (AlmaRecordsBuffer.process_records W (b, results))) in
  AlmaRecordsBuffer.oclc_num_dict b' = AlmaRecordsBuffer.oclc_num_dict b
  /\ AlmaRecordsBuffer.session b'
     = snd (make_api_request W GET (check_url api_url (AlmaRecordsBuffer.oclc_num_dict b))
              (AlmaRecordsBuffer.session b)).
Proof.
  intros Henv. cbv zeta. rewrite (check_process_records_unfold b results api_url Henv).
  destruct (make_api_request W GET _ _) as [[response|e] s']; [|now destruct b].
  set (rest := bind (response_json response) _).
  assert (Hrest : preserves (fun st : AlmaRecordsBuffer.t * gmap string Z =>
                    (AlmaRecordsBuffer.oclc_num_dict (fst st),
                     AlmaRecordsBuffer.session (fst st))) rest).
  { unfold rest. apply preserves_bind; [apply preserves_response_json|]. intros j.
    apply preserves_bind; [apply preserves_check_response_entries|]. intros entry.
    apply preserves_for_each, check_process_record_frame. }
  specialize (Hrest (AlmaRecordsBuffer.set_session s' b, results)).
  cbv beta in Hrest. apply pair_equal_spec in Hrest as [Hd Hs].
  rewrite Hd, Hs. now destruct b.
Qed.

Lemma holdings_process_records_frame (b : WorldCatRecordsBuffer.t)
  (results : gmap string Z) (api_url : string) :
  environ (WorldCatRecordsBuffer.session b) !! "WORLDCAT_METADATA_API_URL" = Some api_url ->
  let b' := fst (snd (WorldCatRecordsBuffer.process_records W (b, results))) in
  WorldCatRecordsBuffer.oclc_num_set b' = WorldCatRecordsBuffer.oclc_num_set b
  /\ WorldCatRecordsBuffer.set_or_unset_choice b' = WorldCatRecordsBuffer.set_or_unset_choice b
  /\ WorldCatRecordsBuffer.cascade b' = WorldCatRecordsBuffer.cascade b
  /\ WorldCatRecordsBuffer.session b'
     = snd (make_api_request W
              (holdings_method (WorldCatRecordsBuffer.set_or_unset_choice b))
              (holdings_url api_url b) (WorldCatRecordsBuffer.session b)).
Proof.
  intros Henv. cbv zeta. rewrite (holdings_process_records_unfold b results api_url Henv).
  destruct (make_api_request W _ _ _) as [[response|e] s']; [|now destruct b].
  set (rest := bind (response_json response) _).
  assert (Hrest : preserves (fun st : WorldCatRecordsBuffer.t * gmap string Z =>
                    (WorldCatRecordsBuffer.oclc_num_set (fst st),
                     WorldCatRecordsBuffer.set_or_unset_choice (fst st),
                     WorldCatRecordsBuffer.cascade (fst st),
                     WorldCatRecordsBuffer.session (fst st))) rest).
  { unfold rest. apply preserves_bind; [apply preserves_response_json|]. intros j.
    apply preserves_bind; [apply preserves_holdings_response_entries|]. intros entry.
    apply preserves_for_each, holdings_process_record_frame. }
  specialize (Hrest (WorldCatRecordsBuffer.set_session s' b, results)).
  cbv beta in Hrest.
  apply pair_equal_spec in Hrest as [Hrest H4].
  apply pair_equal_spec in Hrest as [Hrest H3].
  apply pair_equal_spec in Hrest as [H1 H2].
  rewrite H1, H2, H3, H4. now destruct b.
Qed.

(** X12. However [process_records] of the holdings check ends, it has sent
    one request, or two after a renewal of the token, and each is a GET of
    [/bib/checkcontrolnumbers] that lists the OCLC numbers of the buffer,
    separated by commas, in the order in which they were added, with the
    transaction id of the call and the header [Accept: application/json].
    The buffer holds the same records afterwards: the call empties
    nothing. *)
Theorem X12_holdings_check_request (b : AlmaRecordsBuffer.t) (results : gmap string Z)
  (api_url : string) :
  let b' := fst (snd (AlmaRecordsBuffer.process_records W (b, results))) in
  let url := api_url +:+ "/bib/checkcontrolnumbers" +:+ "?oclcNumbers="
             +:+ String.concat "," (dict_keys (AlmaRecordsBuffer.oclc_num_dict b)) in
  environ (AlmaRecordsBuffer.session b) !! "WORLDCAT_METADATA_API_URL" = Some api_url ->
  AlmaRecordsBuffer.oclc_num_dict b' = AlmaRecordsBuffer.oclc_num_dict b
  /\ exists new,
      sent (AlmaRecordsBuffer.session b') = (sent (AlmaRecordsBuffer.session b) ++ new)%list
      /\ (1 <= length new <= 2)%nat
      /\ Forall (fun r => req_method r = GET
                          /\ req_url r
                             = url_with_transaction_id W url (AlmaRecordsBuffer.session b)
                          /\ req_headers r = [("Accept", "application/json")]) new.
Proof.
  intros b' url Henv. subst b'.
  destruct (check_process_records_frame b results api_url Henv) as [Hd Hs].
  split; [exact Hd|]. rewrite Hs. apply make_api_request_requests.
Qed.

(** X13. However [process_records] of set/unset ends, it has sent one
    request, or two after a renewal of the token, to [/ih/datalist] with
    the OCLC numbers of the buffer separated by commas, each number once,
    in one order for the requests of the call (which order a set is
    iterated in is not fixed, and is not stated here): a POST when the
    choice is exactly the text [set], and for any other choice a DELETE
    with the cascade value of the buffer appended.  The buffer holds the
    same numbers afterwards. *)
Theorem X13_set_unset_request (b : WorldCatRecordsBuffer.t) (results : gmap string Z)
  (api_url : string) :
  let b' := fst (snd (WorldCatRecordsBuffer.process_records W (b, results))) in
  let choice := WorldCatRecordsBuffer.set_or_unset_choice b in
  environ (WorldCatRecordsBuffer.session b) !! "WORLDCAT_METADATA_API_URL" = Some api_url ->
  WorldCatRecordsBuffer.oclc_num_set b' = WorldCatRecordsBuffer.oclc_num_set b
  /\ exists order new,
      NoDup order
      /\ (forall oclc_num,
            oclc_num ∈ order <-> oclc_num ∈ WorldCatRecordsBuffer.oclc_num_set b)
      /\ sent (WorldCatRecordsBuffer.session b')
         = (sent (WorldCatRecordsBuffer.session b) ++ new)%list
      /\ (1 <= length new <= 2)%nat
      /\ Forall (fun r =>
                   let url := api_url +:+ "/ih/datalist?oclcNumbers="
                              +:+ String.concat "," order in
                   (choice = "set" ->
                    req_method r = POST
                    /\ req_url r
                       = url_with_transaction_id W url (WorldCatRecordsBuffer.session b))
                   /\ (choice <> "set" ->
                       req_method r = DELETE
                       /\ req_url r
                          = url_with_transaction_id W
                              (url +:+ "&cascade=" +:+ WorldCatRecordsBuffer.cascade b)
                              (WorldCatRecordsBuffer.session b))
                   /\ req_headers r = [("Accept", "application/json")]) new.
Proof.
  intros b' choice Henv. subst b'.
  destruct (holdings_process_records_frame b results api_url Henv) as (Hset & _ & _ & Hs).
  split; [exact Hset|]. rewrite Hs.
  destruct (make_api_request_requests W
              (holdings_method (WorldCatRecordsBuffer.set_or_unset_choice b))
              (holdings_url api_url b) (WorldCatRecordsBuffer.session b))
    as (new & Hsent & Hlen & Hall).
  exists (elements (WorldCatRecordsBuffer.oclc_num_set b)), new.
  split; [apply NoDup_elements|]. split; [intros k; apply elem_of_elements|].
  split; [exact Hsent|]. split; [exact Hlen|].
  eapply Forall_impl; [exact Hall|].
  intros r (Hm & Hu & Hh). unfold holdings_method, holdings_url in Hm, Hu.
  fold choice in Hm, Hu. cbv zeta.
  destruct (String.eqb_spec choice "set") as [Hset'|Hunset].
  - split; [auto|]. split; [contradiction | exact Hh].
  - split; [contradiction|]. split; [auto | exact Hh].
Qed.

(** The loop body of the holdings check, at an entry whose requested
    number is not a key of the buffer. *)
Lemma check_process_record_unknown (record : CheckEntry)
  (st : AlmaRecordsBuffer.t * gmap string Z) :
  ce_requestedOclcNumber record ∉ dict_keys (AlmaRecordsBuffer.oclc_num_dict (fst st)) ->
  AlmaRecordsBuffer.process_record record st
  = (Raise (KeyError (ce_requestedOclcNumber record)), st).
Proof.
  intros Hkey. destruct st as [b results]. simpl in Hkey.
  assert (Hget : dict_get (ce_requestedOclcNumber record) (AlmaRecordsBuffer.oclc_num_dict b)
                 = None).
  { destruct (dict_get _ _) as [v|] eqn:E; [|reflexivity].
    exfalso. apply Hkey, dict_contains_keys, dict_get_contains. eauto. }
  unfold AlmaRecordsBuffer.process_record, AlmaRecordsBuffer.on_self, bind, zoom, gets,
    dict_getitem. simpl. now rewrite Hget.
Qed.

(** X14. When the response of the holdings check names, after entries for
    numbers of the buffer, a number that the buffer does not hold,
    [process_records] ends with [KeyError] for that number.  The entries
    before it have been written to their files and counted; the entry
    itself and the entries after it are neither written nor counted. *)
Theorem X14_unknown_number_ends_the_loop (b : AlmaRecordsBuffer.t) (results : gmap string Z)
  (api_url : string) (response : Response) (s' : Session)
  (before after : list CheckEntry) (unknown : CheckEntry) :
  let d := AlmaRecordsBuffer.oclc_num_dict b in
  environ (AlmaRecordsBuffer.session b) !! "WORLDCAT_METADATA_API_URL" = Some api_url ->
  make_api_request W GET
    (api_url +:+ "/bib/checkcontrolnumbers" +:+ "?oclcNumbers="
     +:+ String.concat "," (dict_keys d)) (AlmaRecordsBuffer.session b)
  = (Ok response, s') ->
  resp_body response = Decoded (CheckControlNumbers (before ++ unknown :: after)) ->
  (forall bucket, is_Some (results !! AlmaRecordsBufferFacts.counter_of bucket)) ->
  Forall (fun record => ce_requestedOclcNumber record ∈ dict_keys d) before ->
  ce_requestedOclcNumber unknown ∉ dict_keys d ->
  exists b' results',
    AlmaRecordsBuffer.process_records W (b, results)
    = (Raise (KeyError (ce_requestedOclcNumber unknown)), (b', results'))
    /\ forall bucket,
        AlmaRecordsBufferFacts.file_of bucket b' =
          write_rows (AlmaRecordsBufferFacts.header_of bucket)
            (map (AlmaRecordsBufferFacts.row_of d)
               (AlmaRecordsBufferFacts.entries_for bucket before))
            (AlmaRecordsBufferFacts.file_of bucket b)
        /\ results' !! AlmaRecordsBufferFacts.counter_of bucket =
             (fun n => n + Z.of_nat (length (AlmaRecordsBufferFacts.entries_for bucket before)))
               <$> results !! AlmaRecordsBufferFacts.counter_of bucket.
Proof.
  intros d Henv Hreq Hbody Hcounters Hknown Hunknown.
  pose proof (for_each_fold AlmaRecordsBuffer.process_record AlmaRecordsBufferFacts.step
                (fun record => ce_requestedOclcNumber record ∈ dict_keys d)
                (AlmaRecordsBufferFacts.ready d)
                (AlmaRecordsBufferFacts.check_process_record_step d)) as Hloop.
  assert (Hready : AlmaRecordsBufferFacts.ready d
                     (AlmaRecordsBuffer.set_session s' b, results)).
  { split; [now destruct b | exact Hcounters]. }
  destruct (Hloop before _ Hknown Hready) as [Hrun [Hdict _]].
  destruct (AlmaRecordsBufferFacts.check_fold_step before
              (AlmaRecordsBuffer.set_session s' b, results)) as (_ & _ & Hbucket).
  cbv zeta in Hbucket.
  set (st' := fold_left (fun st record => AlmaRecordsBufferFacts.step record st) before
                (AlmaRecordsBuffer.set_session s' b, results)) in *.
  exists (fst st'), (snd st'). split.
  - rewrite <- surjective_pairing.
    rewrite (check_process_records_unfold b results api_url Henv).
    change (check_url api_url (AlmaRecordsBuffer.oclc_num_dict b))
      with (api_url +:+ "/bib/checkcontrolnumbers" +:+ "?oclcNumbers="
            +:+ String.concat "," (dict_keys d)).
    rewrite Hreq. unfold bind at 1. unfold response_json. rewrite Hbody.
    unfold ret at 1. unfold bind at 1. unfold AlmaRecordsBuffer.response_entries.
    unfold ret at 1. rewrite for_each_app, Hrun. simpl. unfold bind.
    rewrite check_process_record_unknown; [reflexivity|].
    now rewrite Hdict.
  - intros bucket. destruct (Hbucket bucket) as [Hfile Hcount].
    split; [|exact Hcount].
    rewrite Hfile. simpl. subst d. now destruct bucket, b.
Qed.

End BufferRequests.

(** ** The search buffer and the passes of the driver *)

Section SearchPasses.
Import SearchWorldcat SearchWorldcatFacts.
Context (W : World).
Context (get_valid_record_identifier : string -> string -> result string).
Context (search_my_library_holdings_first : bool).

#[local] Abbreviation loop_body :=
  (loop_body W get_valid_record_identifier search_my_library_holdings_first).
#[local] Abbreviation loop :=
  (loop W get_valid_record_identifier search_my_library_holdings_first).
#[local] Abbreviation try_suite :=
  (try_suite W get_valid_record_identifier search_my_library_holdings_first).

(** A search whose request raises. *)
Lemma search_request_failure {R} (results : R) (b : WorldCatSearchBuffer.t)
  (record : Record_from_input_file) (search_url symbol : string) (e : exn) (s' : Session) :
  WorldCatSearchBuffer.record_list b = [record] ->
  environ (WorldCatSearchBuffer.session b) !! "WORLDCAT_METADATA_API_URL_FOR_SEARCH"
    = Some search_url ->
  environ (WorldCatSearchBuffer.session b) !! "OCLC_INSTITUTION_SYMBOL" = Some symbol ->
  make_api_request W GET (search_url_of search_url symbol record)
    (WorldCatSearchBuffer.session b) = (Raise e, s') ->
  WorldCatSearchBuffer.process_records W results b
  = (Raise (if is_JSONDecodeError e then unbound_api_response else e),
     WorldCatSearchBuffer.set_session s' b).
Proof.
  destruct b as [l data s]. simpl. intros -> Hsearch Hsymbol Hreq.
  unfold WorldCatSearchBuffer.process_records, WorldCatSearchBuffer.first_record,
    WorldCatSearchBuffer.len, bind, zoom, gets, try_except_binding, try_except,
    log_text_and_reraise, os_environ, py_assert, ret, raise, search_url_of in *.
  simpl. rewrite Hsearch. simpl. rewrite Hsymbol. simpl. rewrite Hreq. simpl.
  now destruct (is_JSONDecodeError e).
Qed.

(** X15. A search sends no request unless the buffer holds exactly one
    record and the two variables it reads are set.  With any other number
    of records [process_records] raises [AssertionError] before it reads
    the environment; with one record it raises [KeyError] for the URL of
    the search API, or else for the institution symbol, when the variable
    is not set.  In each case the buffer, its DataFrame and its session are
    as before.  An exception of the request that is not a [JSONDecodeError]
    goes to the caller as it is; a [JSONDecodeError] raised by the request
    itself is caught by the handler, which reads [api_response.text] of a
    variable that the request never assigned, and the caller gets the
    [UnboundLocalError] of that read instead.  In both cases the DataFrame
    is as before. *)
Theorem X15_search_sends_nothing_unless_ready (b : WorldCatSearchBuffer.t) :
  (WorldCatSearchBuffer.len b <> 1%nat ->
   exists msg,
     WorldCatSearchBuffer.process_records W search_my_library_holdings_first b
     = (Raise (AssertionError msg), b))
  /\ forall record,
      WorldCatSearchBuffer.record_list b = [record] ->
      (environ (WorldCatSearchBuffer.session b) !! "WORLDCAT_METADATA_API_URL_FOR_SEARCH"
         = None ->
       WorldCatSearchBuffer.process_records W search_my_library_holdings_first b
       = (Raise (KeyError "WORLDCAT_METADATA_API_URL_FOR_SEARCH"), b))
      /\ forall search_url,
          environ (WorldCatSearchBuffer.session b) !! "WORLDCAT_METADATA_API_URL_FOR_SEARCH"
            = Some search_url ->
          (environ (WorldCatSearchBuffer.session b) !! "OCLC_INSTITUTION_SYMBOL" = None ->
           WorldCatSearchBuffer.process_records W search_my_library_holdings_first b
           = (Raise (KeyError "OCLC_INSTITUTION_SYMBOL"), b))
          /\ forall symbol e s',
              environ (WorldCatSearchBuffer.session b) !! "OCLC_INSTITUTION_SYMBOL"
                = Some symbol ->
              make_api_request W GET
                (search_url +:+ "/brief-bibs" +:+ "?q=nl:" +:+ lccn record
                 +:+ "&heldBySymbol=" +:+ symbol)
                (WorldCatSearchBuffer.session b) = (Raise e, s') ->
              ((forall msg, e <> JSONDecodeError msg) ->
               WorldCatSearchBuffer.process_records W search_my_library_holdings_first b
               = (Raise e, WorldCatSearchBuffer.set_session s' b))
              /\ ((exists msg, e = JSONDecodeError msg) ->
                  exists text,
                    WorldCatSearchBuffer.process_records W search_my_library_holdings_first
                      b
                    = (Raise (PyException text), WorldCatSearchBuffer.set_session s' b)).
Proof.
  split.
  - intros Hlen. unfold WorldCatSearchBuffer.process_records, bind, gets, py_assert.
    destruct (Nat.eqb_spec (WorldCatSearchBuffer.len b) 1) as [E|_]; [contradiction|].
    simpl. eauto.
  - intros record Hl. split; [|intros search_url Hsearch; split].
    + intros Hsearch. destruct b as [l data s]. simpl in *. subst l.
      unfold WorldCatSearchBuffer.process_records, WorldCatSearchBuffer.len, bind, zoom,
        gets, os_environ, py_assert. simpl. now rewrite Hsearch.
    + intros Hsymbol. destruct b as [l data s]. simpl in *. subst l.
      unfold WorldCatSearchBuffer.process_records, WorldCatSearchBuffer.first_record,
        WorldCatSearchBuffer.len, bind, zoom, gets, os_environ, py_assert. simpl.
      rewrite Hsearch. simpl. now rewrite Hsymbol.
    + intros symbol e s' Hsymbol Hreq.
      rewrite (search_request_failure search_my_library_holdings_first b record search_url
                 symbol e s' Hl Hsearch Hsymbol Hreq).
      split.
      * intros He. destruct e; try reflexivity. now destruct (He msg).
      * intros [msg ->]. simpl. unfold unbound_api_response. eauto.
Qed.

(** The state in which the suite calls [process_records], for a row with a
    new identifier met with an empty buffer. *)
Lemma row_added_state (row : Record_from_input_file) (d : t) (v : string) :
  WorldCatSearchBuffer.record_list (records_buffer d) = [] ->
  WorldCatSearchBuffer.record_list (records_buffer (with_row_added v row d)) = [row]
  /\ WorldCatSearchBuffer.session (records_buffer (with_row_added v row d))
     = WorldCatSearchBuffer.session (records_buffer d)
  /\ data (with_row_added v row d) = data d.
Proof. intros Hnil. unfold with_row_added, data. simpl. now rewrite Hnil. Qed.

Lemma try_suite_new_row (row : Record_from_input_file) (d : t) (v : string) :
  WorldCatSearchBuffer.record_list (records_buffer d) = [] ->
  get_valid_record_identifier (mms_id row) "MMS ID" = Ok v ->
  v ∉ records_already_processed d ->
  try_suite row d =
    on_buffer (WorldCatSearchBuffer.process_records W search_my_library_holdings_first)
      (with_row_added v row d).
Proof.
  intros Hnil Hvalid Hnew.
  rewrite (try_suite_unfold W get_valid_record_identifier search_my_library_holdings_first
             row d Hnil), Hvalid.
  now rewrite bool_decide_eq_false_2.
Qed.

(** X16. Every pass of the loop starts with an empty buffer: the assertion
    of the suite on the length of the buffer holds, [add] succeeds, and the
    suite ends at the identifier of the row, at the assertion on the
    identifiers already met, or with the outcome of [process_records] on
    the buffer that holds the row and nothing else. *)
Theorem X16_buffer_is_empty_at_every_pass (before : list Record_from_input_file)
  (row : Record_from_input_file) (d0 d1 : t) :
  WorldCatSearchBuffer.record_list (records_buffer d0) = [] ->
  loop before d0 = (Exhausted, d1) ->
  WorldCatSearchBuffer.len (records_buffer d1) = 0%nat
  /\ try_suite row d1 =
       match get_valid_record_identifier (mms_id row) "MMS ID" with
       | Raise e => (Raise e, d1)
       | Ok v =>
           if bool_decide (v ∈ records_already_processed d1) then
             (Raise (AssertionError
                       ("Record with MMS ID " +:+ v +:+ " has already been processed.")), d1)
           else
             on_buffer
               (WorldCatSearchBuffer.process_records W search_my_library_holdings_first)
               (set_records_buffer
                  (WorldCatSearchBuffer.set_record_list (fun _ => [row]) (records_buffer d1))
                  (set_records_already_processed (fun processed => {[v]} ∪ processed) d1))
       end.
Proof.
  intros Hnil Hloop.
  assert (Hnil1 : WorldCatSearchBuffer.record_list (records_buffer d1) = []).
  { revert d0 Hnil Hloop. induction before as [|r before IH]; intros d0 Hnil Hloop.
    - simpl in Hloop. now inversion Hloop; subst.
    - simpl in Hloop.
      pose proof (loop_body_effect W get_valid_record_identifier
                    search_my_library_holdings_first r d0 Hnil) as [Hnext _].
      destruct (loop_body r d0) as [[| |e] d']; try discriminate.
      apply (IH d'); [now apply Hnext | exact Hloop]. }
  split; [unfold WorldCatSearchBuffer.len; now rewrite Hnil1|].
  rewrite (try_suite_unfold W get_valid_record_identifier search_my_library_holdings_first
             row d1 Hnil1).
  destruct (get_valid_record_identifier (mms_id row) "MMS ID") as [v|e]; [|reflexivity].
  destruct (bool_decide _); [reflexivity|].
  unfold with_row_added, WorldCatSearchBuffer.set_record_list. now rewrite Hnil1.
Qed.

(** A pass for a row with a new identifier whose search is answered with a
    count and a list of brief records. *)
Lemma pass_with_response (row : Record_from_input_file) (d : t)
  (v search_url symbol : string) (response : Response) (s' : Session)
  (n : Z) (records : list string) :
  WorldCatSearchBuffer.record_list (records_buffer d) = [] ->
  get_valid_record_identifier (mms_id row) "MMS ID" = Ok v ->
  v ∉ records_already_processed d ->
  environ (WorldCatSearchBuffer.session (records_buffer d))
    !! "WORLDCAT_METADATA_API_URL_FOR_SEARCH" = Some search_url ->
  environ (WorldCatSearchBuffer.session (records_buffer d)) !! "OCLC_INSTITUTION_SYMBOL"
    = Some symbol ->
  make_api_request W GET (search_url_of search_url symbol row)
    (WorldCatSearchBuffer.session (records_buffer d)) = (Ok response, s') ->
  resp_body response = Decoded (BriefBibs n records) ->
  exists d',
    loop_body row d = (Next, d')
    /\ WorldCatSearchBuffer.record_list (records_buffer d') = []
    /\ WorldCatSearchBuffer.session (records_buffer d') = s'
    /\ records_already_processed d' = {[v]} ∪ records_already_processed d
    /\ data d' =
         loc_set (Index row)
           (if Z.eqb n 0 then set_error "Assertion Error: No records found in WorldCat."
            else if Z.eqb n 1 then
              match records with
              | oclcNumber :: _ => set_oclc_num oclcNumber
              | [] => set_error "list index out of range"
              end
            else set_found_multiple_oclc_nums true)
           (data d).
Proof.
  intros Hnil Hvalid Hnew Hsearch Hsymbol Hreq Hbody.
  destruct (row_added_state row d v Hnil) as (Hlist & Hsession & Hdata).
  rewrite <- Hsession in Hsearch, Hsymbol, Hreq.
  pose proof (search_outcome W search_my_library_holdings_first _ row search_url symbol
                response s' n records Hlist Hsearch Hsymbol Hreq Hbody) as Hout.
  unfold SearchWorldcat.loop_body, try_statement.
  rewrite (try_suite_new_row row d v Hnil Hvalid Hnew).
  unfold on_buffer, zoom. rewrite Hout. clear Hout.
  destruct (Z.eqb_spec n 0) as [->|Hn0]; [|destruct (Z.eqb_spec n 1) as [->|Hn1]].
  - eexists. split; [reflexivity|]. repeat split.
  - destruct records as [|oclcNumber records];
      (eexists; split; [reflexivity|]; repeat split).
  - eexists. split; [reflexivity|]. repeat split.
Qed.

(** X17. A pass for a row with a new identifier whose search is answered
    with a count and a list of brief records goes on to the next row with
    an empty buffer, and has set one cell in the row: with the count 0 the
    error of the failed assertion; with the count 1 the OCLC number of the
    first record, or the error of the missing index when the list is empty;
    with any other count the mark [found_multiple_oclc_nums], which puts
    the row in none of the three output files. *)
Theorem X17_pass_outcome_by_number_of_matches (row : Record_from_input_file) (d : t)
  (v search_url symbol : string) (response : Response) (s' : Session)
  (n : Z) (records : list string) :
  let b := records_buffer d in
  WorldCatSearchBuffer.record_list b = [] ->
  get_valid_record_identifier (mms_id row) "MMS ID" = Ok v ->
  v ∉ records_already_processed d ->
  environ (WorldCatSearchBuffer.session b) !! "WORLDCAT_METADATA_API_URL_FOR_SEARCH"
    = Some search_url ->
  environ (WorldCatSearchBuffer.session b) !! "OCLC_INSTITUTION_SYMBOL" = Some symbol ->
  make_api_request W GET
    (search_url +:+ "/brief-bibs" +:+ "?q=nl:" +:+ lccn row +:+ "&heldBySymbol=" +:+ symbol)
    (WorldCatSearchBuffer.session b) = (Ok response, s') ->
  resp_body response = Decoded (BriefBibs n records) ->
  exists d',
    loop_body row d = (Next, d')
    /\ WorldCatSearchBuffer.record_list (records_buffer d') = []
    /\ WorldCatSearchBuffer.session (records_buffer d') = s'
    /\ records_already_processed d' = {[v]} ∪ records_already_processed d
    /\ data d' =
         loc_set (Index row)
           (if Z.eqb n 0 then set_error "Assertion Error: No records found in WorldCat."
            else if Z.eqb n 1 then
              match records with
              | oclcNumber :: _ => set_oclc_num oclcNumber
              | [] => set_error "list index out of range"
              end
            else set_found_multiple_oclc_nums true)
           (data d)
    /\ (n <> 0 -> n <> 1 -> forall r x,
          data d !! Index row = Some r -> untouched r ->
          data d' !! Index row = Some x -> bucket_count x = 0%nat).
Proof.
  intros b Hnil Hvalid Hnew Hsearch Hsymbol Hreq Hbody. subst b.
  destruct (pass_with_response row d v search_url symbol response s' n records
              Hnil Hvalid Hnew Hsearch Hsymbol Hreq Hbody)
    as (d' & Hrun & Hlist & Hsession & Hprocessed & Hdata).
  exists d'. repeat (split; [assumption|]).
  intros Hn0 Hn1 r x Hr (H1 & H2 & H3 & H4) Hx.
  rewrite Hdata in Hx.
  destruct (Z.eqb_spec n 0) as [?|_]; [contradiction|].
  destruct (Z.eqb_spec n 1) as [?|_]; [contradiction|].
  unfold loc_set in Hx. rewrite list_lookup_alter_eq, Hr in Hx.
  injection Hx as <-. unfold bucket_count. simpl. rewrite H1, H2, H3, H4.
  repeat case_bool_decide; simpl; try lia;
    repeat match goal with
           | H : _ \/ _ |- _ => destruct H
           | H : is_Some None |- _ => destruct H; discriminate
           end.
Qed.

(** The variables of the search are not credential variables: a request
    leaves them as they are. *)
Lemma search_variables_kept (m : Method) (api_url : string) (s : Session) :
  let s' := snd (make_api_request W m api_url s) in
  environ s' !! "WORLDCAT_METADATA_API_URL_FOR_SEARCH"
  = environ s !! "WORLDCAT_METADATA_API_URL_FOR_SEARCH"
  /\ environ s' !! "OCLC_INSTITUTION_SYMBOL" = environ s !! "OCLC_INSTITUTION_SYMBOL".
Proof.
  assert (Hout : forall k, bool_decide (k ∉ credential_variables) = true ->
                           environ (snd (make_api_request W m api_url s)) !! k
                           = environ s !! k).
  { intros k Hk. apply bool_decide_eq_true in Hk.
    pose proof (make_api_request_variable W m api_url s k Hk) as H.
    unfold variable in H. now inversion H. }
  split; apply Hout; vm_compute; reflexivity.
Qed.

(** The pass of a row with a new identifier whose request raised
    [HTTPError]: the state in which the handler finds the objects. *)
Lemma try_suite_http_error (row : Record_from_input_file) (d : t)
  (v search_url symbol : string) (status_code : option Z) (msg : string) (s1 : Session) :
  WorldCatSearchBuffer.record_list (records_buffer d) = [] ->
  get_valid_record_identifier (mms_id row) "MMS ID" = Ok v ->
  v ∉ records_already_processed d ->
  environ (WorldCatSearchBuffer.session (records_buffer d))
    !! "WORLDCAT_METADATA_API_URL_FOR_SEARCH" = Some search_url ->
  environ (WorldCatSearchBuffer.session (records_buffer d)) !! "OCLC_INSTITUTION_SYMBOL"
    = Some symbol ->
  make_api_request W GET (search_url_of search_url symbol row)
    (WorldCatSearchBuffer.session (records_buffer d))
  = (Raise (HTTPError status_code msg), s1) ->
  try_suite row d
  = (Raise (HTTPError status_code msg),
     set_records_buffer
       (WorldCatSearchBuffer.set_session s1 (records_buffer (with_row_added v row d)))
       (with_row_added v row d)).
Proof.
  intros Hnil Hvalid Hnew Hsearch Hsymbol Hreq.
  destruct (row_added_state row d v Hnil) as (Hlist & Hsession & _).
  rewrite <- Hsession in Hsearch, Hsymbol, Hreq.
  rewrite (try_suite_new_row row d v Hnil Hvalid Hnew).
  unfold on_buffer, zoom.
  now rewrite (search_request_failure search_my_library_holdings_first _ row search_url
                 symbol _ s1 Hlist Hsearch Hsymbol Hreq).
Qed.

(** X18. A request that fails with an [HTTPError] that carries no status,
    or a status from 400 to 499, is not sent again: the pass writes
    "HTTP Error: ..." to the [error] cell of the row, empties the buffer
    and goes on to the next row, with the session as the one call of
    [make_api_request] left it. *)
Theorem X18_client_error_is_not_retried (row : Record_from_input_file) (d : t)
  (v search_url symbol : string) (status_code : option Z) (msg : string) (s1 : Session) :
  let b := records_buffer d in
  WorldCatSearchBuffer.record_list b = [] ->
  get_valid_record_identifier (mms_id row) "MMS ID" = Ok v ->
  v ∉ records_already_processed d ->
  environ (WorldCatSearchBuffer.session b) !! "WORLDCAT_METADATA_API_URL_FOR_SEARCH"
    = Some search_url ->
  environ (WorldCatSearchBuffer.session b) !! "OCLC_INSTITUTION_SYMBOL" = Some symbol ->
  make_api_request W GET
    (search_url +:+ "/brief-bibs" +:+ "?q=nl:" +:+ lccn row +:+ "&heldBySymbol=" +:+ symbol)
    (WorldCatSearchBuffer.session b) = (Raise (HTTPError status_code msg), s1) ->
  status_code = None \/ (exists code, status_code = Some code /\ 400 <= code < 500) ->
  exists d',
    loop_body row d = (Next, d')
    /\ data d' = loc_set (Index row) (set_error ("HTTP Error: " +:+ msg)) (data d)
    /\ WorldCatSearchBuffer.record_list (records_buffer d') = []
    /\ WorldCatSearchBuffer.session (records_buffer d') = s1.
Proof.
  intros b Hnil Hvalid Hnew Hsearch Hsymbol Hreq Hstatus. subst b.
  pose proof (try_suite_http_error row d v search_url symbol status_code msg s1
                Hnil Hvalid Hnew Hsearch Hsymbol Hreq) as Hsuite.
  rewrite (loop_body_after_http_error W get_valid_record_identifier
             search_my_library_holdings_first row d status_code msg _ Hsuite).
  assert (Hnot5 : status_starts_with_5 status_code = false).
  { destruct Hstatus as [->|(code & -> & Hrange)]; [reflexivity|].
    rewrite status_starts_with_5_spec by lia. apply bool_decide_eq_false_2. lia. }
  rewrite Hnot5. eexists. split; [reflexivity|]. repeat split.
Qed.

(** X19. A request that fails with a status from 500 to 599 is sent once
    more, with the same URL, from the session the failed call left.  When
    the second call finds one record, the pass sets the OCLC number of the
    row, records no error, empties the buffer and goes on.  When the second
    call raises [HTTPError], whatever its status, the pass writes the text
    of the second error to the [error] cell of the row and ends the loop
    with the row still in the buffer. *)
Theorem X19_server_error_is_retried_once (row : Record_from_input_file) (d : t)
  (v search_url symbol : string) (code : Z) (msg : string) (s1 : Session) :
  let b := records_buffer d in
  let url := search_url +:+ "/brief-bibs" +:+ "?q=nl:" +:+ lccn row
             +:+ "&heldBySymbol=" +:+ symbol in
  WorldCatSearchBuffer.record_list b = [] ->
  get_valid_record_identifier (mms_id row) "MMS ID" = Ok v ->
  v ∉ records_already_processed d ->
  environ (WorldCatSearchBuffer.session b) !! "WORLDCAT_METADATA_API_URL_FOR_SEARCH"
    = Some search_url ->
  environ (WorldCatSearchBuffer.session b) !! "OCLC_INSTITUTION_SYMBOL" = Some symbol ->
  make_api_request W GET url (WorldCatSearchBuffer.session b)
  = (Raise (HTTPError (Some code) msg), s1) ->
  500 <= code < 600 ->
  (forall response s2 oclcNumber records,
      make_api_request W GET url s1 = (Ok response, s2) ->
      resp_body response = Decoded (BriefBibs 1 (oclcNumber :: records)) ->
      exists d',
        loop_body row d = (Next, d')
        /\ data d' = loc_set (Index row) (set_oclc_num oclcNumber) (data d)
        /\ WorldCatSearchBuffer.record_list (records_buffer d') = []
        /\ WorldCatSearchBuffer.session (records_buffer d') = s2)
  /\ (forall second_status second_msg s2,
        make_api_request W GET url s1 = (Raise (HTTPError second_status second_msg), s2) ->
        exists d',
          loop_body row d = (Break, d')
          /\ data d' = loc_set (Index row) (set_error ("HTTP Error: " +:+ second_msg)) (data d)
          /\ WorldCatSearchBuffer.record_list (records_buffer d') = [row]
          /\ WorldCatSearchBuffer.session (records_buffer d') = s2).
Proof.
  intros b url Hnil Hvalid Hnew Hsearch Hsymbol Hreq Hrange. subst b.
  pose proof (try_suite_http_error row d v search_url symbol (Some code) msg s1
                Hnil Hvalid Hnew Hsearch Hsymbol Hreq) as Hsuite.
  rewrite (loop_body_after_http_error W get_valid_record_identifier
             search_my_library_holdings_first row d (Some code) msg _ Hsuite).
  assert (His5 : status_starts_with_5 (Some code) = true).
  { rewrite status_starts_with_5_spec by lia. apply bool_decide_eq_true_2. lia. }
  rewrite His5.
  destruct (row_added_state row d v Hnil) as (Hlist & Hsession & Hdata).
  pose proof (search_variables_kept GET url (WorldCatSearchBuffer.session (records_buffer d)))
    as [Hkept1 Hkept2].
  rewrite Hreq in Hkept1, Hkept2. simpl in Hkept1, Hkept2.
  rewrite Hsearch in Hkept1. rewrite Hsymbol in Hkept2.
  set (d1 := set_records_buffer _ (with_row_added v row d)).
  assert (Hlist1 : WorldCatSearchBuffer.record_list (records_buffer d1) = [row])
    by exact Hlist.
  split.
  - intros response s2 oclcNumber records Hreq2 Hbody.
    pose proof (search_outcome W search_my_library_holdings_first (records_buffer d1) row
                  search_url symbol response s2 1 (oclcNumber :: records)
                  Hlist1 Hkept1 Hkept2 Hreq2 Hbody) as Hout.
    unfold on_buffer, zoom. rewrite Hout. simpl.
    eexists. split; [reflexivity|]. repeat split.
  - intros second_status second_msg s2 Hreq2.
    pose proof (search_request_failure search_my_library_holdings_first (records_buffer d1)
                  row search_url symbol _ s2 Hlist1 Hkept1 Hkept2 Hreq2) as Hout.
    unfold on_buffer, zoom. rewrite Hout.
    eexists. split; [reflexivity|]. repeat split. exact Hlist.
Qed.

End SearchPasses.

(** ** The session that the constructor leaves *)

(** When the constructor returns, the session is as before but for the
    access token, which is the one of the environment. *)
Lemma constructed_session (float : string -> option Q) (s s1 : Session)
  (args : OAuth2SessionArgs) :
  RecordsBuffer.__init__ float s = (Ok args, s1) ->
  s1 = set_access_token (tok_access_token (token args)) s
  /\ environ s !! "WORLDCAT_METADATA_API_ACCESS_TOKEN" = Some (tok_access_token (token args)).
Proof.
  unfold RecordsBuffer.__init__, RecordsBuffer.py_float, bind, os_environ, modify, ret,
    raise.
  destruct (environ s !! "WORLDCAT_METADATA_API_KEY") eqn:E1; cbv beta iota zeta;
    [|discriminate].
  destruct (environ s !! "WORLDCAT_METADATA_API_SECRET"); cbv beta iota zeta;
    [|discriminate].
  rewrite E1. cbv beta iota zeta.
  destruct (environ s !! "WORLDCAT_METADATA_API_ACCESS_TOKEN"); cbv beta iota zeta;
    [|discriminate].
  destruct (environ s !! "WORLDCAT_METADATA_API_ACCESS_TOKEN_EXPIRES_AT") as [text|];
    cbv beta iota zeta; [|discriminate].
  destruct (float text); cbv beta iota zeta; [|discriminate].
  destruct (environ s !! "WORLDCAT_METADATA_API_ACCESS_TOKEN_TYPE"); [|discriminate].
  intros H. injection H as <- <-. split; reflexivity.
Qed.

(** Returning or not, the constructor sends nothing. *)
Lemma constructor_sends_nothing (float : string -> option Q) (s : Session) :
  sent (snd (RecordsBuffer.__init__ float s)) = sent s.
Proof.
  unfold RecordsBuffer.__init__, RecordsBuffer.py_float, bind, os_environ, modify, ret,
    raise.
  destruct (environ s !! "WORLDCAT_METADATA_API_KEY") eqn:E1; cbv beta iota zeta;
    [|reflexivity].
  destruct (environ s !! "WORLDCAT_METADATA_API_SECRET"); cbv beta iota zeta;
    [|reflexivity].
  rewrite E1. cbv beta iota zeta.
  destruct (environ s !! "WORLDCAT_METADATA_API_ACCESS_TOKEN"); cbv beta iota zeta;
    [|reflexivity].
  destruct (environ s !! "WORLDCAT_METADATA_API_ACCESS_TOKEN_EXPIRES_AT") as [text|];
    cbv beta iota zeta; [|reflexivity].
  destruct (float text); cbv beta iota zeta; [|reflexivity].
  destruct (environ s !! "WORLDCAT_METADATA_API_ACCESS_TOKEN_TYPE"); reflexivity.
Qed.

(** ** Whole runs *)

Section Runs.
Import SearchWorldcat SearchWorldcatFacts.
Context (W : World).
Context (get_valid_record_identifier : string -> string -> result string).
Context (search_my_library_holdings_first : bool).
Context (float : string -> option Q).
Context (request_counters : WorldCatSearchBuffer.t -> result (Z * Z * Z)).

#[local] Abbreviation loop_body :=
  (loop_body W get_valid_record_identifier search_my_library_holdings_first).
#[local] Abbreviation loop :=
  (loop W get_valid_record_identifier search_my_library_holdings_first).
#[local] Abbreviation main :=
  (main W get_valid_record_identifier search_my_library_holdings_first float
     request_counters).

(** The two columns of counts are missing in a row. *)
Definition counts_unset (r : DataFrameRow) : Prop :=
  num_records_held_by_symbol r = None /\ num_records_total r = None.

Lemma cell_change_counts_unset g r : cell_change g -> counts_unset r -> counts_unset (g r).
Proof. intros [] H; exact H. Qed.

Lemma loop_counts_unset rows : forall d,
  WorldCatSearchBuffer.record_list (records_buffer d) = [] ->
  Forall counts_unset (data d) ->
  Forall counts_unset (data (snd (loop rows d))).
Proof.
  induction rows as [|row rows IH]; intros d Hnil Hall; simpl; [exact Hall|].
  pose proof (loop_body_effect W get_valid_record_identifier
                search_my_library_holdings_first row d Hnil) as [Hnext Hdata].
  destruct (loop_body row d) as [flow d']. simpl in Hnext, Hdata.
  assert (Hall' : Forall counts_unset (data d')).
  { destruct Hdata as [->|(g & Hg & ->)]; [exact Hall|].
    apply Forall_alter; [exact Hall|]. intros x _. now apply cell_change_counts_unset. }
  destruct flow; simpl; auto.
Qed.

Lemma filter_none {A} (P : A -> Prop) `{forall x, Decision (P x)} (l : list A) :
  Forall (fun x => ~ P x) l -> filter P l = [].
Proof.
  induction 1 as [|x l Hx Hl IH]; [reflexivity|].
  rewrite filter_cons. now destruct (decide (P x)).
Qed.

Lemma filter_all {A} (P : A -> Prop) `{forall x, Decision (P x)} (l : list A) :
  Forall P l -> filter P l = l.
Proof.
  induction 1 as [|x l Hx Hl IH]; [reflexivity|].
  rewrite filter_cons. destruct (decide (P x)); [now rewrite IH | contradiction].
Qed.

Lemma read_input_counts_unset rows : Forall counts_unset (read_input rows).
Proof.
  apply Forall_forall. intros r Hr.
  destruct (read_input_untouched rows r Hr) as (_ & H2 & H3 & _). now split.
Qed.

(** X20. Whatever the input, the network and the outcome of the run, no
    row of the DataFrame that [main] leaves has a value in one of the two
    columns of counts: the file of the records with zero or multiple
    WorldCat matches has no row. *)
Theorem X20_zero_or_multiple_matches_file_is_empty (rows : list Record_from_input_file)
  (s : Session) :
  Forall counts_unset (run_data (main rows s))
  /\ records_with_zero_or_multiple_worldcat_matches (run_data (main rows s)) = [].
Proof.
  assert (Hall : Forall counts_unset (run_data (main rows s))).
  { unfold SearchWorldcat.main, os_environ.
    destruct (environ s !! "OCLC_INSTITUTION_SYMBOL") as [symbol|];
      [|apply read_input_counts_unset].
    destruct (RecordsBuffer.__init__ float s) as [[args|e] s1];
      [|apply read_input_counts_unset].
    pose proof (loop_counts_unset (itertuples (data (initial_state rows s1)))
                  (initial_state rows s1) eq_refl (read_input_counts_unset rows)) as H.
    destruct (loop _ (initial_state rows s1)) as [[| |e] d]; exact H. }
  split; [exact Hall|].
  apply filter_none. eapply Forall_impl; [exact Hall|].
  intros r [H1 H2] [[x Hx]|[x Hx]]; congruence.
Qed.

(** *** A run in which every search finds one record *)

(** The network answers every request with a record. *)
Definition one_record_for_every_request : Prop :=
  forall n request,
    exists response oclcNumber records,
      transport W n request = Ok response
      /\ ~ 400 <= resp_status_code response < 600
      /\ resp_body response = Decoded (BriefBibs 1 (oclcNumber :: records)).

Lemma make_api_request_answered (m : Method) (api_url : string) (s : Session)
  (response : Response) :
  let first := signed_request m (url_with_transaction_id W api_url s) (access_token s) in
  transport W (length (sent s)) first = Ok response ->
  ~ 400 <= resp_status_code response < 600 ->
  make_api_request W m api_url s = (Ok response, log_sent first s).
Proof.
  intros first Hanswer Hcode.
  pose proof (make_api_request_cases W m api_url s) as H. cbv zeta in H.
  fold first in H. rewrite Hanswer in H.
  rewrite H, send_checked_eq. fold first. rewrite Hanswer.
  destruct (status_checked_spec (url_with_transaction_id W api_url s) response) as [Hok _].
  now rewrite Hok.
Qed.

(** The row has its OCLC number and nothing else. *)
Definition clean (r : DataFrameRow) : Prop := error r = None /\ counts_unset r.

Definition has_oclc_num (data : list DataFrameRow) (i : nat) : Prop :=
  exists r, data !! i = Some r /\ is_Some (oclc_num r).

Lemma has_oclc_num_alter data i j v :
  has_oclc_num data i -> has_oclc_num (loc_set j (set_oclc_num v) data) i.
Proof.
  intros (r & Hr & Hsome). unfold has_oclc_num, loc_set.
  destruct (decide (j = i)) as [->|Hne].
  - rewrite list_lookup_alter_eq, Hr. simpl. eauto.
  - rewrite list_lookup_alter_ne by exact Hne. eauto.
Qed.

Lemma has_oclc_num_set data j v :
  (j < length data)%nat -> has_oclc_num (loc_set j (set_oclc_num v) data) j.
Proof.
  intros Hlt. apply lookup_lt_is_Some in Hlt as [r Hr].
  unfold has_oclc_num, loc_set. rewrite list_lookup_alter_eq, Hr. simpl. eauto.
Qed.

#[local] Abbreviation ident :=
  (fun row : Record_from_input_file => get_valid_record_identifier (mms_id row) "MMS ID").

Lemma pass_single_match (row : Record_from_input_file) (d : t) (v search_url symbol : string) :
  one_record_for_every_request ->
  WorldCatSearchBuffer.record_list (records_buffer d) = [] ->
  ident row = Ok v ->
  v ∉ records_already_processed d ->
  environ (WorldCatSearchBuffer.session (records_buffer d))
    !! "WORLDCAT_METADATA_API_URL_FOR_SEARCH" = Some search_url ->
  environ (WorldCatSearchBuffer.session (records_buffer d)) !! "OCLC_INSTITUTION_SYMBOL"
    = Some symbol ->
  exists d' oclcNumber request,
    loop_body row d = (Next, d')
    /\ WorldCatSearchBuffer.record_list (records_buffer d') = []
    /\ WorldCatSearchBuffer.session (records_buffer d')
       = log_sent request (WorldCatSearchBuffer.session (records_buffer d))
    /\ records_already_processed d' = {[v]} ∪ records_already_processed d
    /\ data d' = loc_set (Index row) (set_oclc_num oclcNumber) (data d).
Proof.
  intros Hnet Hnil Hvalid Hnew Hsearch Hsymbol.
  set (s := WorldCatSearchBuffer.session (records_buffer d)) in *.
  set (request := signed_request GET
                    (url_with_transaction_id W (search_url_of search_url symbol row) s)
                    (access_token s)).
  destruct (Hnet (length (sent s)) request)
    as (response & oclcNumber & records & Hanswer & Hcode & Hbody).
  pose proof (make_api_request_answered GET (search_url_of search_url symbol row) s
                response Hanswer Hcode) as Hreq.
  destruct (pass_with_response W get_valid_record_identifier
              search_my_library_holdings_first row d v search_url symbol response _ 1
              (oclcNumber :: records) Hnil Hvalid Hnew Hsearch Hsymbol Hreq Hbody)
    as (d' & Hrun & Hlist & Hsession & Hprocessed & Hdata).
  exists d', oclcNumber, request. repeat (split; [assumption|]). exact Hdata.
Qed.

Lemma loop_single_matches (search_url symbol : string) (todo : list Record_from_input_file) :
  one_record_for_every_request ->
  forall d,
    WorldCatSearchBuffer.record_list (records_buffer d) = [] ->
    environ (WorldCatSearchBuffer.session (records_buffer d))
      !! "WORLDCAT_METADATA_API_URL_FOR_SEARCH" = Some search_url ->
    environ (WorldCatSearchBuffer.session (records_buffer d)) !! "OCLC_INSTITUTION_SYMBOL"
      = Some symbol ->
    Forall clean (data d) ->
    (forall row, row ∈ todo -> exists v, ident row = Ok v /\ v ∉ records_already_processed d) ->
    NoDup (ident <$> todo) ->
    exists d',
      loop todo d = (Exhausted, d')
      /\ Forall clean (data d')
      /\ length (data d') = length (data d)
      /\ (forall i, has_oclc_num (data d) i -> has_oclc_num (data d') i)
      /\ (forall row, row ∈ todo -> (Index row < length (data d))%nat ->
                      has_oclc_num (data d') (Index row))
      /\ length (sent (WorldCatSearchBuffer.session (records_buffer d')))
         = (length (sent (WorldCatSearchBuffer.session (records_buffer d))) + length todo)%nat
      /\ grants (WorldCatSearchBuffer.session (records_buffer d'))
         = grants (WorldCatSearchBuffer.session (records_buffer d)).
Proof.
  intros Hnet. induction todo as [|row todo IH];
    intros d Hnil Hsearch Hsymbol Hclean Hids Hdistinct.
  - exists d. simpl. repeat split; auto; try lia.
    intros row Hrow. inversion Hrow.
  - destruct (Hids row) as (v & Hvalid & Hnew); [left|].
    destruct (pass_single_match row d v search_url symbol Hnet Hnil Hvalid Hnew Hsearch
                Hsymbol) as (d1 & oclcNumber & request & Hrun & Hnil1 & Hsession & Hprocessed
                             & Hdata).
    rewrite fmap_cons in Hdistinct. apply NoDup_cons in Hdistinct as [Hfresh Hdistinct].
    destruct (IH d1) as (d' & Hloop & Hclean' & Hlen & Hmono & Hrows & Hsent & Hgrants).
    + exact Hnil1.
    + now rewrite Hsession.
    + now rewrite Hsession.
    + rewrite Hdata. apply Forall_alter; [exact Hclean|]. intros x _ Hx. exact Hx.
    + intros row' Hrow'. destruct (Hids row') as (v' & Hvalid' & Hnew'); [now right|].
      exists v'. split; [exact Hvalid'|]. rewrite Hprocessed.
      intros Hin. apply elem_of_union in Hin as [Hin|Hin]; [|contradiction].
      apply elem_of_singleton in Hin. subst v'.
      apply Hfresh. apply list_elem_of_fmap. exists row'. split; [|exact Hrow'].
      now rewrite Hvalid, Hvalid'.
    + exact Hdistinct.
    + exists d'. simpl. rewrite Hrun. split; [exact Hloop|]. split; [exact Hclean'|].
      assert (Hlen1 : length (data d1) = length (data d))
        by (rewrite Hdata; apply length_alter).
      split; [congruence|]. split; [|split; [|split]].
      * intros i Hi. apply Hmono. rewrite Hdata. now apply has_oclc_num_alter.
      * intros row' Hrow' Hlt. apply elem_of_cons in Hrow' as [->|Hrow'].
        -- apply Hmono. rewrite Hdata. now apply has_oclc_num_set.
        -- apply Hrows; [exact Hrow' | lia].
      * rewrite Hsent, Hsession. simpl. rewrite length_app. simpl. lia.
      * rewrite Hgrants, Hsession. reflexivity.
Qed.

(** X21. When the credentials and the two variables of the search are
    set, every row has a valid MMS ID, no two rows the same, and every
    request is answered, without an error status, by a count of one and a
    record: the buffer is constructed, the loop passes through every row,
    each with one request and no renewal of the token, every row has its
    OCLC number and no error, and the three files are written.  [main] then
    reads the request counters of the buffer: on a buffer that has them the
    check at the end of [main] holds and the run succeeds; on one that has
    not, as the buffer of the module, [main] ends by the exception of the
    read. *)
Theorem X21_run_with_one_match_per_row (rows : list Record_from_input_file) (s s1 : Session)
  (symbol search_url : string) (args : OAuth2SessionArgs) :
  let run := main rows s in
  let ended := loop (itertuples (read_input rows)) (initial_state rows s1) in
  environ s !! "OCLC_INSTITUTION_SYMBOL" = Some symbol ->
  environ s !! "WORLDCAT_METADATA_API_URL_FOR_SEARCH" = Some search_url ->
  RecordsBuffer.__init__ float s = (Ok args, s1) ->
  Forall (fun row => exists v, get_valid_record_identifier (mms_id row) "MMS ID" = Ok v)
    rows ->
  NoDup ((fun row => get_valid_record_identifier (mms_id row) "MMS ID") <$> rows) ->
  one_record_for_every_request ->
  fst ended = Exhausted
  /\ run_result run
     = match request_counters (records_buffer (snd ended)) with
       | Ok _ => Ok tt
       | Raise e => Raise e
       end
  /\ output_files_written run = true
  /\ length (run_data run) = length rows
  /\ (forall r, r ∈ run_data run -> bucket_count r = 1%nat)
  /\ records_with_oclc_num (run_data run) = run_data run
  /\ records_with_errors (run_data run) = []
  /\ length (sent (run_session run)) = (length (sent s) + length rows)%nat
  /\ grants (run_session run) = grants s.
Proof.
  intros run ended Hsymbol Hsearch Hinit Hvalid Hdistinct Hnet. subst run ended.
  destruct (constructed_session float s s1 args Hinit) as [Hs1 _].
  set (all := itertuples (read_input rows)).
  assert (Hident : ident <$> all = ident <$> rows).
  { apply list_eq. intros i. unfold all, itertuples, read_input.
    rewrite !list_lookup_fmap, list_lookup_imap. now destruct (rows !! i). }
  destruct (loop_single_matches search_url symbol all Hnet (initial_state rows s1))
    as (d' & Hloop & Hclean & Hlen & _ & Hrows & Hsent & Hgrants).
  - reflexivity.
  - rewrite Hs1. exact Hsearch.
  - rewrite Hs1. exact Hsymbol.
  - apply Forall_forall. intros r Hr.
    destruct (read_input_untouched rows r Hr) as (_ & H2 & H3 & H4). repeat split; auto.
  - intros row Hrow.
    assert (Hin : ident row ∈ ident <$> rows).
    { rewrite <- Hident. apply list_elem_of_fmap. eauto. }
    apply list_elem_of_fmap in Hin as (row0 & Heq & Hrow0).
    rewrite Forall_forall in Hvalid. destruct (Hvalid row0 Hrow0) as [v Hv].
    exists v. split; [simpl in Heq; now rewrite Heq|]. simpl. apply not_elem_of_empty.
  - now rewrite Hident.
  - assert (Hdata0 : data (initial_state rows s1) = read_input rows) by reflexivity.
    assert (Hlen0 : length (read_input rows) = length rows)
      by (unfold read_input; apply length_imap).
    assert (Hall : Forall (fun r => is_Some (oclc_num r)) (data d')).
    { apply Forall_forall. intros r Hr. apply list_elem_of_lookup in Hr as [i Hi].
      assert (Hlt : (i < length rows)%nat).
      { apply lookup_lt_Some in Hi. rewrite Hlen, Hdata0, Hlen0 in Hi. exact Hi. }
      assert (Hindex : (Index <$> all) !! i = Some i).
      { unfold all. rewrite itertuples_Index. now apply lookup_seq_lt. }
      rewrite list_lookup_fmap in Hindex.
      destruct (all !! i) as [row|] eqn:Hrow; [|discriminate].
      simpl in Hindex. injection Hindex as Hindex.
      destruct (Hrows row) as (r' & Hr' & Hsome).
      - now apply list_elem_of_lookup_2 in Hrow.
      - rewrite Hindex, Hdata0, Hlen0. exact Hlt.
      - rewrite Hindex, Hi in Hr'. now injection Hr' as <-. }
    assert (Hone : forall r, r ∈ data d' -> bucket_count r = 1%nat).
    { intros r Hr. rewrite Forall_forall in Hall, Hclean.
      pose proof (Hall r Hr) as Hsome. destruct (Hclean r Hr) as (He & Hc1 & Hc2).
      unfold bucket_count. rewrite He, Hc1, Hc2.
      rewrite bool_decide_eq_true_2 by exact Hsome.
      rewrite bool_decide_eq_false_2 by (intros [[x Hx]|[x Hx]]; discriminate).
      rewrite bool_decide_eq_false_2 by (intros [x Hx]; discriminate).
      reflexivity. }
    assert (Htotal : length (data d') = total_records_in_output_files (data d')).
    { apply reconciles_iff; [|exact Hone]. intros r Hr. rewrite (Hone r Hr). lia. }
    unfold SearchWorldcat.main, os_environ. rewrite Hsymbol, Hinit.
    change (itertuples (data (initial_state rows s1))) with all.
    rewrite Hloop. simpl.
    split; [reflexivity|].
    split; [|split; [reflexivity|split; [|split; [exact Hone|split; [|split; [|split]]]]]].
    + destruct (request_counters (records_buffer d')); [|reflexivity].
      unfold py_assert. rewrite <- Htotal, Nat.eqb_refl. reflexivity.
    + now rewrite Hlen, Hdata0.
    + apply filter_all. exact Hall.
    + apply filter_none. eapply Forall_impl; [exact Hclean|].
      intros r (He & _) [x Hx]. congruence.
    + rewrite Hsent. simpl. unfold all, itertuples.
      rewrite length_fmap, Hlen0, Hs1. reflexivity.
    + rewrite Hgrants. simpl. rewrite Hs1. reflexivity.
Qed.

End Runs.

(** ** What a pass costs *)

Section PassCost.
Import SearchWorldcat SearchWorldcatFacts.
Context (W : World).
Context (get_valid_record_identifier : string -> string -> result string).
Context (search_my_library_holdings_first : bool).
Context (float : string -> option Q).
Context (request_counters : WorldCatSearchBuffer.t -> result (Z * Z * Z)).

#[local] Abbreviation loop_body :=
  (loop_body W get_valid_record_identifier search_my_library_holdings_first).
#[local] Abbreviation loop :=
  (loop W get_valid_record_identifier search_my_library_holdings_first).
#[local] Abbreviation try_suite :=
  (try_suite W get_valid_record_identifier search_my_library_holdings_first).
#[local] Abbreviation try_statement :=
  (try_statement W get_valid_record_identifier search_my_library_holdings_first).
#[local] Abbreviation main :=
  (main W get_valid_record_identifier search_my_library_holdings_first float
     request_counters).

(** The text that the handlers of the loop give to an exception which is
    not an [HTTPError]. *)
Definition handler_text (e : exn) : string :=
  match e with
  | AssertionError assert_err => "Assertion Error: " +:+ assert_err
  | JSONDecodeError json_decode_err => "JSON Decode Error: " +:+ json_decode_err
  | err => exn_str err
  end.

(** X22. A row whose MMS ID is refused, with an exception other than
    [HTTPError], costs no request: the pass writes the text of the handler
    to the [error] cell of the row, empties the buffer and goes on to the
    next row; the session is as before and no identifier is added to the
    identifiers already met. *)
Theorem X22_refused_identifier_costs_no_request (row : Record_from_input_file) (d : t)
  (e : exn) :
  get_valid_record_identifier (mms_id row) "MMS ID" = Raise e ->
  (forall status_code msg, e <> HTTPError status_code msg) ->
  exists d',
    loop_body row d = (Next, d')
    /\ data d' = loc_set (Index row) (set_error (handler_text e)) (data d)
    /\ WorldCatSearchBuffer.record_list (records_buffer d') = []
    /\ WorldCatSearchBuffer.session (records_buffer d')
       = WorldCatSearchBuffer.session (records_buffer d)
    /\ records_already_processed d' = records_already_processed d.
Proof.
  intros Hrefused Hother.
  assert (Hsuite : try_suite row d = (Raise e, d)).
  { unfold SearchWorldcat.try_suite. unfold bind at 1. now rewrite Hrefused. }
  unfold SearchWorldcat.loop_body, SearchWorldcat.try_statement. rewrite Hsuite.
  destruct e; try (eexists; split; [reflexivity|]; repeat split).
  now destruct (Hother status_code msg).
Qed.

(** [grows k s s']: the session [s'] has sent what [s] had sent and at most
    [k] requests more. *)
Definition grows (k : nat) (s s' : Session) : Prop :=
  exists new, sent s' = (sent s ++ new)%list /\ (length new <= k)%nat.

Lemma grows_refl k s : grows k s s.
Proof. exists []. split; [now rewrite app_nil_r | simpl; lia]. Qed.

Lemma grows_trans k1 k2 s s1 s2 :
  grows k1 s s1 -> grows k2 s1 s2 -> grows (k1 + k2) s s2.
Proof.
  intros (new1 & H1 & L1) (new2 & H2 & L2). exists (new1 ++ new2)%list.
  split; [now rewrite H2, H1, app_assoc | rewrite length_app; lia].
Qed.

Lemma grows_eq k s s' : sent s' = sent s -> grows k s s'.
Proof. intros H. exists []. split; [now rewrite app_nil_r | simpl; lia]. Qed.

#[local] Abbreviation sess := (fun d : t => WorldCatSearchBuffer.session (records_buffer d)).

(** A search sends at most two requests. *)
Lemma search_grows {R} (results : R) (b : WorldCatSearchBuffer.t) :
  grows 2 (WorldCatSearchBuffer.session b)
    (WorldCatSearchBuffer.session (snd (WorldCatSearchBuffer.process_records W results b))).
Proof.
  destruct (WorldCatSearchBuffer.record_list b) as [|record [|record' l]] eqn:Hl.
  - apply grows_eq. destruct b as [l data s]. simpl in Hl. subst l. reflexivity.
  - destruct (environ (WorldCatSearchBuffer.session b)
                !! "WORLDCAT_METADATA_API_URL_FOR_SEARCH") as [search_url|] eqn:Hsearch.
    + destruct (environ (WorldCatSearchBuffer.session b) !! "OCLC_INSTITUTION_SYMBOL")
        as [symbol|] eqn:Hsymbol.
      * rewrite (search_session_after W results b record search_url symbol Hl Hsearch
                   Hsymbol).
        destruct (make_api_request_requests W GET (search_url_of search_url symbol record)
                    (WorldCatSearchBuffer.session b)) as (new & Hsent & Hlen & _).
        exists new. split; [exact Hsent | lia].
      * apply grows_eq. destruct b as [l data s]. simpl in *. subst l.
        unfold WorldCatSearchBuffer.process_records, WorldCatSearchBuffer.first_record,
          WorldCatSearchBuffer.len, bind, zoom, gets, os_environ, py_assert. simpl.
        rewrite Hsearch. simpl. now rewrite Hsymbol.
    + apply grows_eq. destruct b as [l data s]. simpl in *. subst l.
      unfold WorldCatSearchBuffer.process_records, WorldCatSearchBuffer.len, bind, zoom,
        gets, os_environ, py_assert. simpl. now rewrite Hsearch.
  - apply grows_eq. destruct b as [l0 data s]. simpl in Hl. subst l0. reflexivity.
Qed.

Lemma on_buffer_search_grows (d : t) :
  grows 2 (sess d)
    (sess (snd (on_buffer (WorldCatSearchBuffer.process_records W
                             search_my_library_holdings_first) d))).
Proof.
  pose proof (search_grows search_my_library_holdings_first (records_buffer d)) as H.
  unfold on_buffer, zoom.
  now destruct (WorldCatSearchBuffer.process_records W search_my_library_holdings_first
                  (records_buffer d)).
Qed.

Lemma try_suite_grows (row : Record_from_input_file) (d : t) :
  grows 2 (sess d) (sess (snd (try_suite row d))).
Proof.
  unfold SearchWorldcat.try_suite. unfold bind at 1.
  destruct (get_valid_record_identifier (mms_id row) "MMS ID") as [v|e];
    [|apply grows_refl].
  unfold bind at 1. unfold gets at 1. unfold bind at 1.
  destruct (py_assert (negb (bool_decide (v ∈ records_already_processed d))) _ d)
    as [[[]|e] d1] eqn:Hassert.
  2:{ unfold py_assert in Hassert. destruct (negb _); inversion Hassert; subst.
      apply grows_refl. }
  assert (d1 = d) as ->
    by (unfold py_assert in Hassert; destruct (negb _); now inversion Hassert).
  unfold bind at 1. unfold modify at 1.
  set (d2 := set_records_already_processed _ d).
  unfold bind at 1. unfold gets at 1. unfold bind at 1.
  destruct (py_assert (Nat.eqb (WorldCatSearchBuffer.len (records_buffer d2)) 0) _ d2)
    as [[[]|e] d3] eqn:Hassert2.
  2:{ unfold py_assert in Hassert2. destruct (Nat.eqb _ _); inversion Hassert2; subst.
      apply grows_refl. }
  assert (d3 = d2) as ->
    by (unfold py_assert in Hassert2; destruct (Nat.eqb _ _); now inversion Hassert2).
  unfold bind at 1.
  destruct (on_buffer (WorldCatSearchBuffer.add row) d2) as [[[]|e] d4] eqn:Hadd.
  - assert (Hs4 : sess d4 = sess d).
    { unfold on_buffer, zoom in Hadd.
      destruct (search_add_cases (records_buffer d2) row) as [[_ [msg Hr]]|[_ Hr]];
        rewrite Hr in Hadd; inversion Hadd; subst; reflexivity. }
    cbv beta in Hs4. rewrite <- Hs4. apply on_buffer_search_grows.
  - apply grows_eq. unfold on_buffer, zoom in Hadd.
    destruct (search_add_cases (records_buffer d2) row) as [[_ [msg Hr]]|[_ Hr]];
      rewrite Hr in Hadd; inversion Hadd; subst; reflexivity.
Qed.

Lemma loop_body_grows (row : Record_from_input_file) (d : t) :
  grows 4 (sess d) (sess (snd (loop_body row d))).
Proof.
  assert (Hfinally : forall l d1,
             sess (snd (finally_clause row l d1)) = sess d1).
  { intros l d1. unfold finally_clause.
    destruct (error_occurred l), (consecutive_errors_occurred l), (uncaught l); reflexivity. }
  assert (Hstatement : grows 4 (sess d) (sess (snd (try_statement row d)))).
  { pose proof (try_suite_grows row d) as Hsuite.
    unfold SearchWorldcat.try_statement.
    destruct (try_suite row d) as [[[]|e] d1]; simpl in Hsuite.
    - apply (grows_trans 2 2 _ _ _ Hsuite), grows_refl.
    - apply (grows_trans 2 2 _ _ _ Hsuite). unfold except_clauses.
      destruct e; try apply grows_refl.
      destruct (status_starts_with_5 status_code); [|apply grows_refl].
      pose proof (on_buffer_search_grows d1) as Hretry.
      destruct (on_buffer _ d1) as [[[]|e] d2]; [exact Hretry|].
      destruct e; exact Hretry. }
  unfold SearchWorldcat.loop_body.
  destruct (try_statement row d) as [l d1]. simpl in Hstatement.
  now rewrite Hfinally.
Qed.

Lemma loop_grows (rows : list Record_from_input_file) : forall d,
  grows (4 * length rows) (sess d) (sess (snd (loop rows d))).
Proof.
  induction rows as [|row rows IH]; intros d; simpl loop.
  - apply grows_refl.
  - pose proof (loop_body_grows row d) as Hbody.
    destruct (loop_body row d) as [[| |e] d1]; simpl in Hbody.
    + replace (4 * length (row :: rows))%nat with (4 + 4 * length rows)%nat
        by (simpl; lia).
      apply (grows_trans _ _ _ _ _ Hbody), IH.
    + destruct Hbody as (new & Hsent & Hlen). exists new. split; [exact Hsent|].
      simpl. lia.
    + destruct Hbody as (new & Hsent & Hlen). exists new. split; [exact Hsent|].
      simpl. lia.
Qed.

(** X23. A pass of the loop sends at most four requests: a search sends
    its request once, or twice around a renewal of the token, and is called
    at most twice.  A run over [n] rows sends at most [4 * n] requests, and
    the requests sent before it are still the first in the log. *)
Theorem X23_run_sends_at_most_four_requests_per_row :
  (forall row d,
      exists new,
        sent (WorldCatSearchBuffer.session (records_buffer (snd (loop_body row d))))
        = (sent (WorldCatSearchBuffer.session (records_buffer d)) ++ new)%list
        /\ (length new <= 4)%nat)
  /\ forall rows s,
      exists new,
        sent (run_session (main rows s)) = (sent s ++ new)%list
        /\ (length new <= 4 * length rows)%nat.
Proof.
  split; [intros row d; apply loop_body_grows|].
  intros rows s. unfold SearchWorldcat.main, os_environ.
  destruct (environ s !! "OCLC_INSTITUTION_SYMBOL") as [symbol|];
    [|simpl; apply (grows_refl _ s)].
  pose proof (constructor_sends_nothing float s) as Hsent.
  destruct (RecordsBuffer.__init__ float s) as [[args|e] s1]; simpl in Hsent;
    [|simpl; exists []; rewrite app_nil_r; split; [exact Hsent | simpl; lia]].
  pose proof (loop_grows (itertuples (data (initial_state rows s1))) (initial_state rows s1))
    as H.
  assert (Hlen : length (itertuples (data (initial_state rows s1))) = length rows).
  { unfold itertuples. rewrite length_fmap. unfold data. simpl. unfold read_input.
    apply length_imap. }
  rewrite Hlen in H. unfold grows in H. simpl in H. rewrite Hsent in H.
  destruct (loop _ (initial_state rows s1)) as [[| |e] d]; exact H.
Qed.

End PassCost.

(** ** The constructor of the buffers *)

(** The variables that the constructor reads. *)
Definition constructor_variables : list string :=
  ["WORLDCAT_METADATA_API_KEY";
   "WORLDCAT_METADATA_API_SECRET";
   "WORLDCAT_METADATA_API_ACCESS_TOKEN";
   "WORLDCAT_METADATA_API_ACCESS_TOKEN_EXPIRES_AT";
   "WORLDCAT_METADATA_API_ACCESS_TOKEN_TYPE"].

Section ConstructorFacts.
Context (float : string -> option Q).

(** The constructor, by the variables of the environment. *)
Lemma init_cases (s : Session) :
  RecordsBuffer.__init__ float s =
    match environ s !! "WORLDCAT_METADATA_API_KEY" with
    | None => (Raise (KeyError "WORLDCAT_METADATA_API_KEY"), s)
    | Some key =>
    match environ s !! "WORLDCAT_METADATA_API_SECRET" with
    | None => (Raise (KeyError "WORLDCAT_METADATA_API_SECRET"), s)
    | Some secret =>
    match environ s !! "WORLDCAT_METADATA_API_ACCESS_TOKEN" with
    | None => (Raise (KeyError "WORLDCAT_METADATA_API_ACCESS_TOKEN"), s)
    | Some access_token =>
    match environ s !! "WORLDCAT_METADATA_API_ACCESS_TOKEN_EXPIRES_AT" with
    | None => (Raise (KeyError "WORLDCAT_METADATA_API_ACCESS_TOKEN_EXPIRES_AT"), s)
    | Some text =>
    match float text with
    | None => (Raise (ValueError ("could not convert string to float: '" +:+ text
                                  +:+ "'")), s)
    | Some expires_at =>
    match environ s !! "WORLDCAT_METADATA_API_ACCESS_TOKEN_TYPE" with
    | None => (Raise (KeyError "WORLDCAT_METADATA_API_ACCESS_TOKEN_TYPE"), s)
    | Some token_type =>
        (Ok {| auth := (key, secret); client_id := key;
               scope := ["WorldCatMetadataAPI refresh_token"];
               token := {| tok_access_token := access_token;
                           tok_token_type := token_type;
                           tok_expires_at := expires_at;
                           tok_refresh_token := None;
                           tok_refresh_token_expires_at := None |} |},
         set_access_token access_token s)
    end end end end end end.
Proof.
  unfold RecordsBuffer.__init__, RecordsBuffer.py_float, bind, os_environ, modify, ret,
    raise.
  destruct (environ s !! "WORLDCAT_METADATA_API_KEY") eqn:E1; cbv beta iota zeta;
    [|reflexivity].
  destruct (environ s !! "WORLDCAT_METADATA_API_SECRET"); cbv beta iota zeta;
    [|reflexivity].
  rewrite E1. cbv beta iota zeta.
  destruct (environ s !! "WORLDCAT_METADATA_API_ACCESS_TOKEN"); cbv beta iota zeta;
    [|reflexivity].
  destruct (environ s !! "WORLDCAT_METADATA_API_ACCESS_TOKEN_EXPIRES_AT") as [text|];
    cbv beta iota zeta; [|reflexivity].
  destruct (float text); cbv beta iota zeta; [|reflexivity].
  destruct (environ s !! "WORLDCAT_METADATA_API_ACCESS_TOKEN_TYPE"); reflexivity.
Qed.

(** X24. The constructor of the buffers succeeds exactly when the five
    variables it reads are set and the expiry of the access token denotes a
    number.  Otherwise it raises [KeyError] for a variable that is not set,
    or [ValueError] for the expiry, and the session is as before.  When it
    succeeds, the session holds the access token of the environment, the
    client id is the API key, and the token has no refresh token. *)
Theorem X24_constructor_requirements (s : Session) :
  let r := RecordsBuffer.__init__ float s in
  (is_ok (fst r) = true <->
     (forall k, k ∈ constructor_variables -> is_Some (environ s !! k))
     /\ exists text,
         environ s !! "WORLDCAT_METADATA_API_ACCESS_TOKEN_EXPIRES_AT" = Some text
         /\ is_Some (float text))
  /\ (forall e, fst r = Raise e ->
        snd r = s
        /\ ((exists k, e = KeyError k /\ k ∈ constructor_variables /\ environ s !! k = None)
            \/ exists text msg,
                environ s !! "WORLDCAT_METADATA_API_ACCESS_TOKEN_EXPIRES_AT" = Some text
                /\ float text = None /\ e = ValueError msg))
  /\ (forall args, fst r = Ok args ->
        snd r = set_access_token (tok_access_token (token args)) s
        /\ environ s !! "WORLDCAT_METADATA_API_ACCESS_TOKEN"
           = Some (tok_access_token (token args))
        /\ environ s !! "WORLDCAT_METADATA_API_KEY" = Some (client_id args)
        /\ fst (auth args) = client_id args
        /\ environ s !! "WORLDCAT_METADATA_API_SECRET" = Some (snd (auth args))
        /\ tok_refresh_token (token args) = None).
Proof.
  intros r. subst r. rewrite init_cases.
  assert (Hin : forall k, k ∈ constructor_variables <->
                  k = "WORLDCAT_METADATA_API_KEY" \/ k = "WORLDCAT_METADATA_API_SECRET"
                  \/ k = "WORLDCAT_METADATA_API_ACCESS_TOKEN"
                  \/ k = "WORLDCAT_METADATA_API_ACCESS_TOKEN_EXPIRES_AT"
                  \/ k = "WORLDCAT_METADATA_API_ACCESS_TOKEN_TYPE").
  { intros k. unfold constructor_variables. rewrite !elem_of_cons, elem_of_nil. tauto. }
  assert (Hmissing : forall k, k ∈ constructor_variables -> environ s !! k = None ->
                     ~ (forall k, k ∈ constructor_variables -> is_Some (environ s !! k))).
  { intros k Hk Hnone Hall. destruct (Hall k Hk) as [x Hx]. congruence. }
  destruct (environ s !! "WORLDCAT_METADATA_API_KEY") as [key|] eqn:E1.
  2:{ simpl. split; [|split].
      - split; [discriminate|]. intros [Hall _]. exfalso.
        apply (Hmissing _ (proj2 (Hin _) (or_introl eq_refl)) E1 Hall).
      - intros e [= <-]. split; [reflexivity|]. left. eexists. split; [reflexivity|].
        split; [apply Hin; auto | exact E1].
      - discriminate. }
  destruct (environ s !! "WORLDCAT_METADATA_API_SECRET") as [secret|] eqn:E2.
  2:{ simpl. split; [|split].
      - split; [discriminate|]. intros [Hall _]. exfalso.
        apply (Hmissing "WORLDCAT_METADATA_API_SECRET"); [apply Hin; auto | exact E2 | exact Hall].
      - intros e [= <-]. split; [reflexivity|]. left. eexists. split; [reflexivity|].
        split; [apply Hin; auto | exact E2].
      - discriminate. }
  destruct (environ s !! "WORLDCAT_METADATA_API_ACCESS_TOKEN") as [access_token|] eqn:E3.
  2:{ simpl. split; [|split].
      - split; [discriminate|]. intros [Hall _]. exfalso.
        apply (Hmissing "WORLDCAT_METADATA_API_ACCESS_TOKEN");
          [apply Hin; auto | exact E3 | exact Hall].
      - intros e [= <-]. split; [reflexivity|]. left. eexists. split; [reflexivity|].
        split; [apply Hin; auto | exact E3].
      - discriminate. }
  destruct (environ s !! "WORLDCAT_METADATA_API_ACCESS_TOKEN_EXPIRES_AT") as [text|] eqn:E4.
  2:{ simpl. split; [|split].
      - split; [discriminate|]. intros [_ (text & [=] & _)].
      - intros e [= <-]. split; [reflexivity|]. left. eexists. split; [reflexivity|].
        split; [apply Hin; auto 6 | exact E4].
      - discriminate. }
  destruct (float text) as [expires_at|] eqn:E5.
  2:{ simpl. split; [|split].
      - split; [discriminate|]. intros [_ (text' & [= <-] & [x Hx])]. congruence.
      - intros e [= <-]. split; [reflexivity|]. right. eauto.
      - discriminate. }
  destruct (environ s !! "WORLDCAT_METADATA_API_ACCESS_TOKEN_TYPE") as [token_type|] eqn:E6.
  2:{ simpl. split; [|split].
      - split; [discriminate|]. intros [Hall _]. exfalso.
        apply (Hmissing "WORLDCAT_METADATA_API_ACCESS_TOKEN_TYPE");
          [apply Hin; auto 6 | exact E6 | exact Hall].
      - intros e [= <-]. split; [reflexivity|]. left. eexists. split; [reflexivity|].
        split; [apply Hin; auto 6 | exact E6].
      - discriminate. }
  simpl. split; [|split].
  - split; [|reflexivity]. intros _. split.
    + intros k Hk. apply Hin in Hk as [->|[->|[->|[->| ->]]]]; eauto.
    + exists text. split; [reflexivity|]. rewrite E5. eauto.
  - discriminate.
  - intros args [= <-]. simpl. repeat split.
Qed.

End ConstructorFacts.

(** ** From a renewal to the next construction *)

Section RenewalThenConstructor.
Context (W : World).
Context (float : string -> option Q).




End RenewalThenConstructor.


(** ** The XML helpers *)

(** X26. Whatever the XML text and the heading, [prettify_and_log_xml]
    ends with the exception of the attribute [decode] looked up on [None]:
    it returns nothing and passes no message to the logging function.
    [log_xml_string] on bytes that decode passes exactly one message, the
    heading, a colon, a line break and the decoded text. *)
Theorem X26_prettify_and_log_always_raises (decode : list Byte.byte -> result string) :
  (forall xml_str heading log,
      Xml.prettify_and_log_xml decode xml_str heading log
      = (Raise (PyException "'NoneType' object has no attribute 'decode'"), log))
  /\ (forall b heading log text,
        decode b = Ok text ->
        Xml.log_xml_string decode (Some b) heading log
        = (Ok tt, (log ++ [heading +:+ ":" +:+ newline +:+ text])%list))
  /\ (forall b heading log e,
        decode b = Raise e ->
        Xml.log_xml_string decode (Some b) heading log = (Raise e, log)).
Proof.
  split; [reflexivity|]. split.
  - intros b heading log text Hdecode. unfold Xml.log_xml_string, bind, modify.
    now rewrite Hdecode.
  - intros b heading log e Hdecode. unfold Xml.log_xml_string, bind.
    now rewrite Hdecode.
Qed.

(** * The further properties at concrete inputs *)

Section FurtherWitnesses.
Import SearchWorldcat.

Lemma X8_added_record_is_found_witness :
  let b' := snd (AlmaRecordsBuffer.add "4" "994" (check_buffer three_identifiers)) in
  ("4" ∉ dict_keys three_identifiers)
  /\ dict_get "4" (AlmaRecordsBuffer.oclc_num_dict b') = Some "994"
  /\ dict_keys (AlmaRecordsBuffer.oclc_num_dict b') = ["1"; "2"; "3"; "4"].
Proof.
  assert (H : "4" ∉ dict_keys (AlmaRecordsBuffer.oclc_num_dict
                                 (check_buffer three_identifiers)))
    by (apply (bool_decide_unpack _); vm_compute; exact I).
  split; [exact H|].
  destruct (X8_added_record_is_found (check_buffer three_identifiers) "4" "994" H)
    as (_ & Hget & _ & Hkeys & _).
  split; [exact Hget | exact Hkeys].
Defined.

Lemma X9_added_number_is_member_witness :
  let b' := snd (WorldCatRecordsBuffer.add "4" holdings_buffer) in
  ("4" ∉ WorldCatRecordsBuffer.oclc_num_set holdings_buffer)
  /\ "4" ∈ WorldCatRecordsBuffer.oclc_num_set b'
  /\ WorldCatRecordsBuffer.len b' = 4%nat.
Proof.
  assert (H : "4" ∉ WorldCatRecordsBuffer.oclc_num_set holdings_buffer)
    by (apply (bool_decide_unpack _); vm_compute; exact I).
  split; [exact H|].
  destruct (X9_added_number_is_member holdings_buffer "4" H) as (_ & Hmember & Hlen & _).
  split; [apply Hmember; now left | exact Hlen].
Defined.

(** A network on which the request itself raises [JSONDecodeError]. *)
Definition request_undecodable : World :=
  Examples.world (fun _ => Raise (JSONDecodeError "Expecting value")) (0 # 1)%Q.

Lemma X11_failed_request_writes_nothing_witness :
  let checked := AlmaRecordsBuffer.process_records request_undecodable
                   (check_buffer three_identifiers, empty_results) in
  let set := WorldCatRecordsBuffer.process_records request_undecodable
               (holdings_buffer, holdings_results) in
  (exists text, fst checked = Raise (PyException text))
  /\ snd (snd checked) = empty_results
  /\ (exists text, fst set = Raise (PyException text))
  /\ snd (snd set) = holdings_results.
Proof.
  intros checked set.
  destruct (X11_failed_request_writes_nothing request_undecodable) as [Halma Hworldcat].
  destruct (Halma (check_buffer three_identifiers) empty_results) as [_ Hcheck].
  destruct (Hworldcat holdings_buffer holdings_results) as [_ Hset].
  set (r1 := make_api_request request_undecodable GET
               (check_url "https://worldcat.org" three_identifiers)
               (AlmaRecordsBuffer.session (check_buffer three_identifiers))).
  assert (H1 : r1 = (Raise (JSONDecodeError "Expecting value"), snd r1))
    by (vm_compute; reflexivity).
  set (r2 := make_api_request request_undecodable (holdings_method "set")
               (holdings_url "https://worldcat.org" holdings_buffer)
               (WorldCatRecordsBuffer.session holdings_buffer)).
  assert (H2 : r2 = (Raise (JSONDecodeError "Expecting value"), snd r2))
    by (vm_compute; reflexivity).
  destruct (Hcheck "https://worldcat.org" _ _ eq_refl H1) as [_ Hcheck'].
  destruct (Hset "https://worldcat.org" _ _ eq_refl H2) as [_ Hset'].
  destruct Hcheck' as [text1 Hcheck']; [eexists; reflexivity|].
  destruct Hset' as [text2 Hset']; [eexists; reflexivity|].
  subst checked set. rewrite Hcheck', Hset'. cbn [fst snd].
  split; [eauto|]. split; [reflexivity|]. split; [eauto | reflexivity].
Defined.

Lemma X15_search_sends_nothing_unless_ready_witness :
  let searched := WorldCatSearchBuffer.process_records request_undecodable false
                    (search_buffer (Examples.input_row "991" "" "n78890351" "")) in
  (exists text, fst searched = Raise (PyException text))
  /\ WorldCatSearchBuffer.dataframe_for_input_file (snd searched)
     = read_input [Examples.input_row "991" "" "n78890351" ""].
Proof.
  intros searched.
  set (record := Examples.input_row "991" "" "n78890351" "").
  destruct (X15_search_sends_nothing_unless_ready request_undecodable false
              (search_buffer record)) as [_ Hone].
  destruct (Hone record eq_refl) as [_ Hurl].
  destruct (Hurl "https://americas.metadata.api.oclc.org/worldcat/search/v1" eq_refl)
    as [_ Hrequest].
  set (r := make_api_request request_undecodable GET
              ("https://americas.metadata.api.oclc.org/worldcat/search/v1"
               +:+ "/brief-bibs" +:+ "?q=nl:" +:+ lccn record +:+ "&heldBySymbol=" +:+ "XYZ")
              (WorldCatSearchBuffer.session (search_buffer record))).
  assert (H : r = (Raise (JSONDecodeError "Expecting value"), snd r))
    by (vm_compute; reflexivity).
  destruct (Hrequest "XYZ" _ _ eq_refl H) as [_ Hdecode].
  destruct Hdecode as [text Hdecode]; [eexists; reflexivity|].
  subst searched. fold record. rewrite Hdecode. cbn [fst snd].
  split; [eauto | reflexivity].
Defined.

Lemma X12_holdings_check_request_witness :
  let b' := fst (snd (AlmaRecordsBuffer.process_records (check_world three_entries)
                        (check_buffer three_identifiers, empty_results))) in
  AlmaRecordsBuffer.oclc_num_dict b' = three_identifiers
  /\ exists new,
      sent (AlmaRecordsBuffer.session b') = new
      /\ (1 <= length new <= 2)%nat
      /\ Forall (fun r => req_method r = GET
                          /\ req_url r
                             = "https://worldcat.org/bib/checkcontrolnumbers?oclcNumbers=1,2,3"
                          /\ req_headers r = [("Accept", "application/json")]) new.
Proof.
  exact (X12_holdings_check_request (check_world three_entries)
           (check_buffer three_identifiers) empty_results "https://worldcat.org" eq_refl).
Defined.

(** A buffer of one number to unset: there is one order to list it in. *)
Definition unset_buffer : WorldCatRecordsBuffer.t :=
  {| WorldCatRecordsBuffer.oclc_num_set := {["1"]};
     WorldCatRecordsBuffer.set_or_unset_choice := "unset";
     WorldCatRecordsBuffer.cascade := "0";
     WorldCatRecordsBuffer.records_with_no_update_needed := [];
     WorldCatRecordsBuffer.records_updated := [];
     WorldCatRecordsBuffer.records_with_errors := [];
     WorldCatRecordsBuffer.session :=
       Examples.session [("WORLDCAT_METADATA_API_URL", "https://worldcat.org")] |}.

Lemma X13_set_unset_request_witness :
  let b' := fst (snd (WorldCatRecordsBuffer.process_records holdings_world
                        (unset_buffer, holdings_results))) in
  exists new,
    sent (WorldCatRecordsBuffer.session b') = new
    /\ (1 <= length new)%nat
    /\ Forall (fun r => req_method r = DELETE
                        /\ req_url r
                           = "https://worldcat.org/ih/datalist?oclcNumbers=1&cascade=0")
         new.
Proof.
  destruct (X13_set_unset_request holdings_world unset_buffer holdings_results
              "https://worldcat.org" eq_refl)
    as (_ & order & new & Hnodup & Hmembers & Hsent & Hlen & Hall).
  assert (Horder : order = ["1"]).
  { assert (Hall1 : forall k, k ∈ order -> k = "1").
    { intros k Hk. apply Hmembers in Hk.
      change (k ∈ ({["1"]} : gset string)) in Hk. now apply elem_of_singleton in Hk. }
    destruct order as [|x [|y rest]].
    - exfalso. assert (H : "1" ∈ @nil string).
      { apply Hmembers. change ("1" ∈ ({["1"]} : gset string)).
        now apply elem_of_singleton. }
      inversion H.
    - f_equal. apply Hall1. left.
    - exfalso. apply NoDup_cons in Hnodup as [Hx _]. apply Hx.
      rewrite (Hall1 x) by left. rewrite <- (Hall1 y) by (right; left). left. }
  subst order. exists new. split; [exact Hsent|]. split; [lia|].
  eapply Forall_impl; [exact Hall|].
  intros r (_ & Hunset & _). apply Hunset. discriminate.
Defined.

(** A response that names the number 9 between two numbers of the
    batch. *)
Definition entries_with_unknown : list CheckEntry :=
  [{| ce_requestedOclcNumber := "2"; ce_currentOclcNumber := "20";
      ce_found := true; ce_merged := true |};
   {| ce_requestedOclcNumber := "9"; ce_currentOclcNumber := "9";
      ce_found := true; ce_merged := false |};
   {| ce_requestedOclcNumber := "1"; ce_currentOclcNumber := "1";
      ce_found := true; ce_merged := false |}].

Lemma X14_unknown_number_ends_the_loop_witness :
  exists b' results',
    AlmaRecordsBuffer.process_records (check_world entries_with_unknown)
      (check_buffer three_identifiers, empty_results)
    = (Raise (KeyError "9"), (b', results'))
    /\ AlmaRecordsBuffer.records_with_old_oclc_num b'
       = [["MMS ID"; "Current OCLC Number"; "Original OCLC Number"]; ["992"; "20"; "2"]]
    /\ AlmaRecordsBuffer.records_with_current_oclc_num b' = []
    /\ results' !! "num_records_with_current_oclc_num" = Some 0.
Proof.
  destruct (X14_unknown_number_ends_the_loop (check_world entries_with_unknown)
              (check_buffer three_identifiers) empty_results "https://worldcat.org"
              (Examples.response 200 "OK" (Decoded (CheckControlNumbers entries_with_unknown)))
              (snd (make_api_request (check_world entries_with_unknown) GET
                      "https://worldcat.org/bib/checkcontrolnumbers?oclcNumbers=1,2,3"
                      (AlmaRecordsBuffer.session (check_buffer three_identifiers))))
              [{| ce_requestedOclcNumber := "2"; ce_currentOclcNumber := "20";
                  ce_found := true; ce_merged := true |}]
              [{| ce_requestedOclcNumber := "1"; ce_currentOclcNumber := "1";
                  ce_found := true; ce_merged := false |}]
              {| ce_requestedOclcNumber := "9"; ce_currentOclcNumber := "9";
                 ce_found := true; ce_merged := false |}
              eq_refl eq_refl eq_refl)
    as (b' & results' & Hrun & Hbucket).
  - intros []; vm_compute; eauto.
  - repeat constructor.
  - apply (bool_decide_unpack _). vm_compute. exact I.
  - exists b', results'. split; [exact Hrun|].
    destruct (Hbucket AlmaRecordsBuffer.Old) as [Hold _].
    destruct (Hbucket AlmaRecordsBuffer.Current) as [Hcurrent Hn].
    repeat split; assumption.
Defined.

#[local] Abbreviation first_row := (with_Index 0 (Examples.input_row "991" "" "n78890351" "")).
#[local] Abbreviation second_row := (with_Index 1 (Examples.input_row "992" "" "n79021164" "")).
#[local] Abbreviation search_api :=
  "https://americas.metadata.api.oclc.org/worldcat/search/v1".

Lemma X16_buffer_is_empty_at_every_pass_witness :
  let d0 := initial_state two_rows search_session in
  let d1 := snd (loop one_match identifier_as_given false [first_row] d0) in
  loop one_match identifier_as_given false [first_row] d0 = (Exhausted, d1)
  /\ WorldCatSearchBuffer.len (records_buffer d1) = 0%nat.
Proof.
  intros d0 d1.
  assert (Hreached : loop one_match identifier_as_given false [first_row] d0
                     = (Exhausted, d1)) by (vm_compute; reflexivity).
  split; [exact Hreached|].
  exact (proj1 (X16_buffer_is_empty_at_every_pass one_match identifier_as_given false
                  [first_row] second_row d0 d1 eq_refl Hreached)).
Defined.

Definition three_matches : World :=
  Examples.world
    (fun _ => Ok (Examples.response 200 "OK" (Decoded (BriefBibs 3 ["40"; "41"; "42"]))))
    (0 # 1)%Q.

Lemma X17_pass_outcome_by_number_of_matches_witness :
  let d := initial_state two_rows search_session in
  exists d',
    loop_body three_matches identifier_as_given false first_row d = (Next, d')
    /\ found_multiple_oclc_nums <$> data d' = [Some true; None]
    /\ oclc_num <$> data d' = [None; None].
Proof.
  intros d.
  assert (Hnew : "991" ∉ records_already_processed d) by apply not_elem_of_empty.
  destruct (X17_pass_outcome_by_number_of_matches three_matches identifier_as_given false
              first_row d "991" search_api "XYZ"
              (Examples.response 200 "OK" (Decoded (BriefBibs 3 ["40"; "41"; "42"])))
              (snd (make_api_request three_matches GET
                      (search_url_of search_api "XYZ" first_row) search_session))
              3 ["40"; "41"; "42"] eq_refl eq_refl Hnew eq_refl eq_refl eq_refl eq_refl)
    as (d' & Hrun & _ & _ & _ & Hdata & _).
  exists d'. split; [exact Hrun|]. rewrite Hdata. split; reflexivity.
Defined.

Definition not_found : World :=
  Examples.world (fun _ => Ok (Examples.response 404 "Not Found" (Undecodable ""))) (0 # 1)%Q.

(** The text of the exception that a call raises, and the session it
    leaves. *)
Definition raised_text {A} (r : result A * Session) : string :=
  match fst r with
  | Raise e => exn_str e
  | Ok _ => ""
  end.

Lemma X18_client_error_is_not_retried_witness :
  let d := initial_state two_rows search_session in
  exists d',
    loop_body not_found identifier_as_given false first_row d = (Next, d')
    /\ length (sent (WorldCatSearchBuffer.session (records_buffer d'))) = 1%nat
    /\ (fun r => bool_decide (is_Some (error r))) <$> data d' = [true; false].
Proof.
  intros d.
  assert (Hnew : "991" ∉ records_already_processed d) by apply not_elem_of_empty.
  set (r := make_api_request not_found GET (search_url_of search_api "XYZ" first_row)
              search_session).
  destruct (X18_client_error_is_not_retried not_found identifier_as_given false
              first_row d "991" search_api "XYZ" (Some 404) (raised_text r) (snd r)
              eq_refl eq_refl Hnew eq_refl eq_refl eq_refl)
    as (d' & Hrun & Hdata & _ & Hsession).
  - right. exists 404. split; [reflexivity | lia].
  - exists d'. split; [exact Hrun|]. rewrite Hsession, Hdata. split; reflexivity.
Defined.

Definition unavailable_then_one_match : World :=
  Examples.world
    (fun n => match n with
              | O => Ok service_unavailable
              | _ => Ok (Examples.response 200 "OK" (Decoded (BriefBibs 1 ["40"])))
              end)
    (0 # 1)%Q.

Lemma X19_server_error_is_retried_once_witness :
  let d := initial_state two_rows search_session in
  exists d',
    loop_body unavailable_then_one_match identifier_as_given false first_row d = (Next, d')
    /\ oclc_num <$> data d' = [Some "40"; None]
    /\ error <$> data d' = [None; None]
    /\ length (sent (WorldCatSearchBuffer.session (records_buffer d'))) = 2%nat.
Proof.
  intros d.
  assert (Hnew : "991" ∉ records_already_processed d) by apply not_elem_of_empty.
  set (r := make_api_request unavailable_then_one_match GET
              (search_url_of search_api "XYZ" first_row) search_session).
  assert (Hrange : 500 <= 503 < 600) by lia.
  destruct (X19_server_error_is_retried_once unavailable_then_one_match identifier_as_given
              false first_row d "991" search_api "XYZ" 503 (raised_text r) (snd r)
              eq_refl eq_refl Hnew eq_refl eq_refl eq_refl Hrange) as [Hretry _].
  destruct (Hretry (Examples.response 200 "OK" (Decoded (BriefBibs 1 ["40"])))
              (snd (make_api_request unavailable_then_one_match GET
                      (search_url_of search_api "XYZ" first_row) (snd r)))
              "40" [] eq_refl eq_refl) as (d' & Hrun & Hdata & _ & Hsession).
  exists d'. split; [exact Hrun|]. rewrite Hsession, Hdata. repeat split.
Defined.

Lemma X21_run_with_one_match_per_row_witness :
  let run := main one_match identifier_as_given false float_example some_request_counters
               two_rows search_session in
  let run_of_module := main one_match identifier_as_given false float_example
                         no_request_counters two_rows search_session in
  RecordsBuffer.__init__ float_example search_session
    = (Ok search_credentials, search_session)
  /\ run_result run = Ok tt
  /\ output_files_written run = true
  /\ (forall r, r ∈ run_data run -> SearchWorldcatFacts.bucket_count r = 1%nat)
  /\ length (sent (run_session run)) = 2%nat
  /\ run_result run_of_module
     = Raise (PyException
                "'WorldCatSearchBuffer' object has no attribute 'num_api_requests_made'")
  /\ output_files_written run_of_module = true.
Proof.
  assert (Hinit : RecordsBuffer.__init__ float_example search_session
                  = (Ok search_credentials, search_session)) by (vm_compute; reflexivity).
  assert (Hvalid : Forall (fun row => exists v, identifier_as_given (mms_id row) "MMS ID"
                                                = Ok v) two_rows).
  { repeat (constructor; [eexists; reflexivity|]). constructor. }
  assert (Hdistinct : NoDup ((fun row => identifier_as_given (mms_id row) "MMS ID")
                               <$> two_rows)).
  { simpl. apply NoDup_cons. split; [|apply NoDup_singleton].
    intros H. apply list_elem_of_singleton in H. discriminate H. }
  assert (Hnet : one_record_for_every_request one_match).
  { intros n request. eexists _, _, _. split; [reflexivity|].
    split; [simpl; lia | reflexivity]. }
  destruct (X21_run_with_one_match_per_row one_match identifier_as_given false
              float_example some_request_counters two_rows search_session search_session
              "XYZ" search_api search_credentials eq_refl eq_refl Hinit Hvalid Hdistinct
              Hnet)
    as (_ & Hresult & Hwritten & _ & Hone & _ & _ & Hsent & _).
  destruct (X21_run_with_one_match_per_row one_match identifier_as_given false
              float_example no_request_counters two_rows search_session search_session
              "XYZ" search_api search_credentials eq_refl eq_refl Hinit Hvalid Hdistinct
              Hnet)
    as (_ & Hraised & Hwritten' & _).
  split; [exact Hinit|]. split; [exact Hresult|]. split; [exact Hwritten|].
  split; [exact Hone|]. split; [exact Hsent|]. split; [exact Hraised | exact Hwritten'].
Defined.

(** A check of identifiers that refuses the empty text. *)
Definition refuse_empty (record_identifier identifier_name : string) : result string :=
  if String.eqb record_identifier "" then
    Raise (AssertionError ("Invalid " +:+ identifier_name +:+ ": it is empty"))
  else Ok record_identifier.

Lemma X22_refused_identifier_costs_no_request_witness :
  let row := Examples.input_row "" "" "n78890351" "" in
  let d := initial_state [row] search_session in
  exists d',
    loop_body one_match refuse_empty false row d = (Next, d')
    /\ error <$> data d' = [Some "Assertion Error: Invalid MMS ID: it is empty"]
    /\ sent (WorldCatSearchBuffer.session (records_buffer d')) = [].
Proof.
  intros row d.
  destruct (X22_refused_identifier_costs_no_request one_match refuse_empty false row d
              (AssertionError "Invalid MMS ID: it is empty") eq_refl)
    as (d' & Hrun & Hdata & _ & Hsession & _).
  - intros status_code msg. discriminate.
  - exists d'. split; [exact Hrun|]. rewrite Hdata, Hsession. split; reflexivity.
Defined.



End FurtherWitnesses.
